(** * A shallow embedding of [bcdi.experiment.experiment_utils]

    This development models the geometry class [Setup] (its validating
    property setters, [update_coords], [voxel_sizes], [orthogonalize] and
    [detector_frame]), the deprecated classes [SetupPostprocessing] and
    [SetupPreprocessing], the constructor of [Detector] and the masking of
    [Detector.mask_detector].

    Modelling choices:
    - Python floats of the geometry code are modelled as exact reals [R];
      numpy's [np.pi], [np.sin], [np.cos] are [PI], [sin], [cos].
    - A raised Python exception is an [Err] of the error monad [result].
    - Instance attributes are record fields; an attribute that the class
      never assigns is an [option] whose [None] stands for "absent", so that
      reading it raises [AttributeError].
    - The detector arrays of [mask_detector] hold rationals [Q], so that
      the masking is executable on concrete arrays. *)

From Stdlib Require Import Reals Lra Psatz ZArith QArith List String Bool.
From Stdlib Require Import RNsatz.
Import ListNotations.
Set Warnings "-register-all".


(* ------------------------------------------------------------------ *)
(** ** Python exceptions and the error monad *)

Inductive exn : Type :=
| TypeError
| ValueError
| AttributeError
| AssertionError
| LinAlgError
| IndexError
| NotImplementedError
| ZeroDivisionError
| GenericException.

Inductive result (A : Type) : Type :=
| Ok : A -> result A
| Err : exn -> result A.
Arguments Ok {A} _.
Arguments Err {A} _.

Definition bind {A B : Type} (m : result A) (k : A -> result B) : result B :=
  match m with
  | Ok a => k a
  | Err e => Err e
  end.

Notation "x <- m ;; k" := (bind m (fun x => k))
  (at level 61, m at next level, right associativity).

(** [assert cond, msg] *)
Definition py_assert (b : bool) : result unit :=
  if b then Ok tt else Err AssertionError.

(** Python values handed to the validating setters. [PyNum] is any real
    [numbers.Number]; [PySeq] a list or tuple. *)
Inductive pyval : Type :=
| PyNone
| PyNum (r : R)
| PyStr (s : string)
| PySeq (l : list pyval)
| PyObj.

Open Scope R_scope.

(* ------------------------------------------------------------------ *)
(** ** The [Setup] instance *)

Inductive beamline_t : Type :=
| ID01 | SIXS_2018 | SIXS_2019 | B34ID | P10 | CRISTAL | NANOMAX.

Inductive rocking_t : Type := Outofplane | Inplane.

(** The attributes of a [Setup] instance that the geometry code reads
    (the keyword-only attributes used for loading data are not modelled).
    [grazing_angle] is read by [update_coords] but never assigned by the
    class: [None] means the attribute is absent. *)
Record Setup : Type := mkSetup {
  beamline : beamline_t;
  beam_direction : R * R * R;
  energy : option R;
  distance : option R;
  outofplane_angle : option R;
  inplane_angle : option R;
  tilt_angle : option R;
  rocking_angle : option rocking_t;
  pixel_x : option R;
  pixel_y : option R;
  grazing_angle : option R
}.

(** [@beamline.setter] *)
Definition set_beamline (value : string) : result beamline_t :=
  if String.eqb value "ID01" then Ok ID01
  else if String.eqb value "SIXS_2018" then Ok SIXS_2018
  else if String.eqb value "SIXS_2019" then Ok SIXS_2019
  else if String.eqb value "34ID" then Ok B34ID
  else if String.eqb value "P10" then Ok P10
  else if String.eqb value "CRISTAL" then Ok CRISTAL
  else if String.eqb value "NANOMAX" then Ok NANOMAX
  else Err ValueError.

(** [np.linalg.norm] of a 3-vector *)
Definition norm3 (v0 v1 v2 : R) : R := sqrt (v0 * v0 + v1 * v1 + v2 * v2).

(** [@beam_direction.setter]: a list/tuple of three numbers, not all zero,
    stored normalised. *)
Definition set_beam_direction (value : pyval) : result (R * R * R) :=
  match value with
  | PySeq [PyNum u; PyNum v; PyNum w] =>
      if Req_EM_T (norm3 u v w) 0 then Err ValueError
      else Ok (u / norm3 u v w, v / norm3 u v w, w / norm3 u v w)
  | _ => Err ValueError
  end.

(** The setters of [energy], [distance], [pixel_x] and [pixel_y] share one
    shape: [None] is stored, a non-number raises [TypeError], a number
    [<= 0] raises [ValueError]. *)
Definition set_strictly_positive (value : pyval) : result (option R) :=
  match value with
  | PyNone => Ok None
  | PyNum r => if Rle_dec r 0 then Err ValueError else Ok (Some r)
  | _ => Err TypeError
  end.

Definition set_energy (value : pyval) := set_strictly_positive value.
Definition set_distance (value : pyval) := set_strictly_positive value.
Definition set_pixel_x (value : pyval) := set_strictly_positive value.
Definition set_pixel_y (value : pyval) := set_strictly_positive value.

(** The angle setters: any number or [None]. *)
Definition set_angle (value : pyval) : result (option R) :=
  match value with
  | PyNone => Ok None
  | PyNum r => Ok (Some r)
  | _ => Err TypeError
  end.

(** [@rocking_angle.setter] *)
Definition set_rocking_angle (value : pyval) : result (option rocking_t) :=
  match value with
  | PyNone => Ok None
  | PyStr s =>
      if String.eqb s "outofplane" then Ok (Some Outofplane)
      else if String.eqb s "inplane" then Ok (Some Inplane)
      else Err ValueError
  | _ => Err TypeError
  end.

(** [Setup.__init__] (without keyword arguments): the positional
    arguments go through their setters in the order of the source. *)
Definition Setup_init (beamline_v : string) (beam_direction_v energy_v distance_v
    outofplane_v inplane_v tilt_v rocking_v pixel_x_v pixel_y_v : pyval)
  : result Setup :=
  bl <- set_beamline beamline_v ;;
  bd <- set_beam_direction beam_direction_v ;;
  en <- set_energy energy_v ;;
  di <- set_distance distance_v ;;
  oo <- set_angle outofplane_v ;;
  ii <- set_angle inplane_v ;;
  ti <- set_angle tilt_v ;;
  ro <- set_rocking_angle rocking_v ;;
  px <- set_pixel_x pixel_x_v ;;
  py <- set_pixel_y pixel_y_v ;;
  Ok (mkSetup bl bd en di oo ii ti ro px py None).

(** [Setup.wavelength]: [if self.energy: return 12.398e-7 / energy],
    otherwise the property returns [None]. *)
Definition wavelength (s : Setup) : option R :=
  match energy s with
  | Some e => if Req_EM_T e 0 then None else Some (12.398 * 1e-7 / e)
  | None => None
  end.

(* ------------------------------------------------------------------ *)
(** ** Detector orientation coefficients *)

Inductive hor_t : Type := Y_plus | Y_minus.
Inductive ver_t : Type := Z_plus | Z_minus.

(** [Setup.detector_hor] *)
Definition detector_hor (s : Setup) : hor_t :=
  match beamline s with
  | ID01 | SIXS_2018 | SIXS_2019 | CRISTAL | NANOMAX => Y_plus
  | _ => Y_minus
  end.

(** [Setup.detector_ver]: the membership test lists all seven beamlines. *)
Definition detector_ver (s : Setup) : ver_t :=
  match beamline s with
  | ID01 | SIXS_2018 | SIXS_2019 | CRISTAL | NANOMAX | P10 | B34ID => Z_minus
  end.

(** [Setup.outofplane_coeff] *)
Definition outofplane_coeff (s : Setup) : Z :=
  let ver_coeff := match detector_ver s with Z_plus => 1%Z | Z_minus => (-1)%Z end in
  ((-1) * ver_coeff)%Z.

(** [Setup.beam_direction_xrutils]: [(u, v, w)] (u downstream, v vertical
    up, w outboard) becomes [(u, w, v)]. *)
Definition beam_direction_xrutils (s : Setup) : R * R * R :=
  let '(u, v, w) := beam_direction s in (u, w, v).

(** [Setup.inplane_coeff]. The final [else: raise ValueError] cannot be
    reached: the [beamline] setter admits only the seven names. *)
Definition inplane_coeff (s : Setup) : Z :=
  let hor_coeff := match detector_hor s with Y_plus => 1%Z | Y_minus => (-1)%Z end in
  match beamline s with
  | SIXS_2018 | SIXS_2019 => (1 * hor_coeff)%Z
  | ID01 => ((-1) * hor_coeff)%Z
  | B34ID => (1 * hor_coeff)%Z
  | P10 => (1 * hor_coeff)%Z
  | CRISTAL => (1 * hor_coeff)%Z
  | NANOMAX => ((-1) * hor_coeff)%Z
  end.

(** An attribute or argument that may be [None], used in arithmetic:
    [None] raises [TypeError]. *)
Definition py_some (x : option R) : result R :=
  match x with Some v => Ok v | None => Err TypeError end.

(** [Setup.exit_wavevector]: [2 * np.pi / self.wavelength * np.array([z, y,
    x])]. A missing wavelength or angle raises [TypeError]; the final
    [else: raise ValueError] cannot be reached (see [inplane_coeff]). *)
Definition exit_wavevector (s : Setup) : result (R * R * R) :=
  wl <- py_some (wavelength s) ;;
  let k := 2 * PI / wl in
  inplane <- py_some (inplane_angle s) ;;
  outofplane <- py_some (outofplane_angle s) ;;
  match beamline s with
  | SIXS_2018 | SIXS_2019 | B34ID | P10 | CRISTAL =>
      Ok (k * (cos (PI * inplane / 180) * cos (PI * outofplane / 180)),
          k * sin (PI * outofplane / 180),
          k * (sin (PI * inplane / 180) * cos (PI * outofplane / 180)))
  | ID01 | NANOMAX =>
      Ok (k * (cos (PI * inplane / 180) * cos (PI * outofplane / 180)),
          k * sin (PI * outofplane / 180),
          k * (- sin (PI * inplane / 180) * cos (PI * outofplane / 180)))
  end.

(* ------------------------------------------------------------------ *)
(** ** 3x3 matrices *)

Record mat3 : Type := M3 {
  a00 : R; a01 : R; a02 : R;
  a10 : R; a11 : R; a12 : R;
  a20 : R; a21 : R; a22 : R
}.

(** [np.zeros((3, 3))] *)
Definition zeros3 : mat3 := M3 0 0 0 0 0 0 0 0 0.

(** [m[:, j] = c * np.array([v0, v1, v2])] *)
Definition set_col (m : mat3) (j : nat) (c v0 v1 v2 : R) : mat3 :=
  match j with
  | O => M3 (c * v0) (a01 m) (a02 m) (c * v1) (a11 m) (a12 m) (c * v2) (a21 m) (a22 m)
  | 1%nat => M3 (a00 m) (c * v0) (a02 m) (a10 m) (c * v1) (a12 m) (a20 m) (c * v2) (a22 m)
  | _ => M3 (a00 m) (a01 m) (c * v0) (a10 m) (a11 m) (c * v1) (a20 m) (a21 m) (c * v2)
  end.

Definition transpose (m : mat3) : mat3 :=
  M3 (a00 m) (a10 m) (a20 m) (a01 m) (a11 m) (a21 m) (a02 m) (a12 m) (a22 m).

Definition mscale (c : R) (m : mat3) : mat3 :=
  M3 (c * a00 m) (c * a01 m) (c * a02 m) (c * a10 m) (c * a11 m) (c * a12 m)
     (c * a20 m) (c * a21 m) (c * a22 m).

Definition det3 (m : mat3) : R :=
  a00 m * (a11 m * a22 m - a12 m * a21 m)
  - a01 m * (a10 m * a22 m - a12 m * a20 m)
  + a02 m * (a10 m * a21 m - a11 m * a20 m).

(** The adjugate (transpose of the cofactor matrix). *)
Definition adj3 (m : mat3) : mat3 :=
  M3 (a11 m * a22 m - a12 m * a21 m) (a02 m * a21 m - a01 m * a22 m) (a01 m * a12 m - a02 m * a11 m)
     (a12 m * a20 m - a10 m * a22 m) (a00 m * a22 m - a02 m * a20 m) (a02 m * a10 m - a00 m * a12 m)
     (a10 m * a21 m - a11 m * a20 m) (a01 m * a20 m - a00 m * a21 m) (a00 m * a11 m - a01 m * a10 m).

(** [np.linalg.inv]: raises [LinAlgError] on a singular matrix. *)
Definition inv3 (m : mat3) : result mat3 :=
  if Req_EM_T (det3 m) 0 then Err LinAlgError
  else Ok (mscale (/ det3 m) (adj3 m)).

(** [2 * np.pi * np.linalg.inv(m).transpose()], the map used both by
    [update_coords] (on the construction matrix) and by [voxel_sizes]
    (on the transfer matrix). *)
Definition two_pi_inv_transpose (m : mat3) : result mat3 :=
  i <- inv3 m ;;
  Ok (mscale (2 * PI) (transpose i)).

(* ------------------------------------------------------------------ *)
(** ** [Setup.update_coords] *)

(** [np.radians] *)
Definition radians (x : R) : R := x * PI / 180.

(** [x * 1e9] on an attribute or argument that may be [None]. *)
Definition py_scale_1e9 (x : option R) : result R :=
  match x with Some v => Ok (v * 1e9) | None => Err TypeError end.

(** [np.radians(x)] on a value that may be [None]. *)
Definition py_radians (x : option R) : result R :=
  match x with Some v => Ok (radians v) | None => Err TypeError end.

(** [mygrazing_angle = np.radians(self.grazing_angle)] *)
Definition read_grazing_angle (s : Setup) : result R :=
  match grazing_angle s with
  | Some g => Ok (radians g)
  | None => Err AttributeError
  end.

Section Branches.
(** The quantities computed at the top of [update_coords]: angles in
    radians, lengths in nm, [lambdaz = wavelength * distance]. *)
Variables (rocking : option rocking_t)
          (mygrazing_angle outofplane inplane tilt distance lambdaz pixel_x pixel_y : R)
          (nbz nby nbx : R).

Definition cx := 2 * PI * nbx / lambdaz.
Definition cy := 2 * PI * nby / lambdaz.
Definition cz := 2 * PI * nbz / lambdaz.

Let ci := cos inplane.
Let si := sin inplane.
Let co := cos outofplane.
Let so := sin outofplane.
Let cg := cos mygrazing_angle.
Let sg := sin mygrazing_angle.

(** [if self.beamline == 'ID01': ...] *)
Definition block_ID01 (m : mat3) : mat3 :=
  match rocking with
  | Some Outofplane =>
      let m := set_col m 0 cx (pixel_x * ci) 0 (pixel_x * si) in
      let m := set_col m 1 cy (- pixel_y * si * so) (- pixel_y * co) (pixel_y * ci * so) in
      set_col m 2 cz 0 (tilt * distance * (1 - ci * co)) (tilt * distance * so)
  | Some Inplane =>
      if Req_EM_T mygrazing_angle 0 then
        let m := set_col m 0 cx (pixel_x * ci) 0 (pixel_x * si) in
        let m := set_col m 1 cy (- pixel_y * si * so) (- pixel_y * co) (pixel_y * ci * so) in
        set_col m 2 cz (- tilt * distance * (1 - ci * co)) 0 (tilt * distance * si * co)
      else
        let m := set_col m 0 cx (pixel_x * ci) 0 (pixel_x * si) in
        let m := set_col m 1 cy (- pixel_y * si * so) (- pixel_y * co) (pixel_y * ci * so) in
        set_col m 2 (cz * tilt * distance)
          (sg * so + cg * (ci * co - 1)) (sg * si * co) (cg * si * co)
  | None => m
  end.

(** [if self.beamline == 'P10': ...] *)
Definition block_P10 (m : mat3) : mat3 :=
  match rocking with
  | Some Outofplane =>
      let m := set_col m 0 cx (- pixel_x * ci) 0 (pixel_x * si) in
      let m := set_col m 1 cy (pixel_y * si * so) (- pixel_y * co) (pixel_y * ci * so) in
      set_col m 2 cz 0 (tilt * distance * (1 - ci * co)) (tilt * distance * so)
  | Some Inplane =>
      if Req_EM_T mygrazing_angle 0 then
        let m := set_col m 0 cx (- pixel_x * ci) 0 (pixel_x * si) in
        let m := set_col m 1 cy (pixel_y * si * so) (- pixel_y * co) (pixel_y * ci * so) in
        set_col m 2 cz (tilt * distance * (ci * co - 1)) 0 (- tilt * distance * si * co)
      else
        let m := set_col m 0 cx (- pixel_x * ci) 0 (pixel_x * si) in
        let m := set_col m 1 cy (pixel_y * si * so) (- pixel_y * co) (pixel_y * ci * so) in
        set_col m 2 (cz * tilt * distance)
          (sg * so + cg * (ci * co - 1)) (- sg * si * co) (- cg * si * co)
  | None => m
  end.

(** [if self.beamline == 'NANOMAX': ...] *)
Definition block_NANOMAX (m : mat3) : mat3 :=
  match rocking with
  | Some Outofplane =>
      let m := set_col m 0 cx (pixel_x * ci) 0 (pixel_x * si) in
      let m := set_col m 1 cy (pixel_y * si * so) (pixel_y * co) (- pixel_y * ci * so) in
      set_col m 2 cz 0 (tilt * distance * (1 - ci * co)) (tilt * distance * so)
  | Some Inplane =>
      if Req_EM_T mygrazing_angle 0 then
        let m := set_col m 0 cx (pixel_x * ci) 0 (pixel_x * si) in
        let m := set_col m 1 cy (pixel_y * si * so) (pixel_y * co) (- pixel_y * ci * so) in
        set_col m 2 cz (- tilt * distance * (1 - ci * co)) 0 (tilt * distance * si * co)
      else
        let m := set_col m 0 cx (pixel_x * ci) 0 (pixel_x * si) in
        let m := set_col m 1 cy (pixel_y * si * so) (pixel_y * co) (- pixel_y * ci * so) in
        set_col m 2 (cz * tilt * distance)
          (sg * so + cg * (ci * co - 1)) (sg * si * co) (cg * si * co)
  | None => m
  end.

(** [if self.beamline == '34ID': ...] (the source tests the non-zero
    grazing angle before the zero one) *)
Definition block_34ID (m : mat3) : mat3 :=
  match rocking with
  | Some Outofplane =>
      let m := set_col m 0 cx (pixel_x * ci) 0 (- pixel_x * si) in
      let m := set_col m 1 cy (pixel_y * si * so) (- pixel_y * co) (pixel_y * ci * so) in
      set_col m 2 cz 0 (- tilt * distance * (1 - ci * co)) (- tilt * distance * so)
  | Some Inplane =>
      if Req_EM_T mygrazing_angle 0 then
        let m := set_col m 0 cx (pixel_x * ci) 0 (- pixel_x * si) in
        let m := set_col m 1 cy (pixel_y * si * so) (- pixel_y * co) (pixel_y * ci * so) in
        set_col m 2 cz (tilt * distance * (1 - ci * co)) 0 (tilt * distance * si * co)
      else
        let m := set_col m 0 cx (pixel_x * ci) 0 (- pixel_x * si) in
        let m := set_col m 1 cy (pixel_y * si * so) (- pixel_y * co) (pixel_y * ci * so) in
        set_col m 2 (cz * tilt * distance)
          (sg * so + cg * (1 - ci * co)) (- sg * si * co) (cg * si * co)
  | None => m
  end.

(** [if self.beamline == 'SIXS_2018' or self.beamline == 'SIXS_2019': ...]
    (no out-of-plane branch) *)
Definition block_SIXS (m : mat3) : mat3 :=
  match rocking with
  | Some Inplane =>
      if Req_EM_T mygrazing_angle 0 then
        let m := set_col m 0 cx (pixel_x * ci) 0 (- pixel_x * si) in
        let m := set_col m 1 cy (pixel_y * si * so) (- pixel_y * co) (pixel_y * ci * so) in
        set_col m 2 cz (tilt * distance * (1 - ci * co)) 0 (tilt * distance * si * co)
      else
        let m := set_col m 0 (cx * pixel_x) ci (- sg * si) (- cg * si) in
        let m := set_col m 1 (cy * pixel_y) (si * so) (sg * ci * so - cg * co)
                   (cg * ci * so + sg * co) in
        set_col m 2 (cz * tilt * distance)
          (cg - ci * co) (sg * si * co) (cg * si * co)
  | _ => m
  end.

(** [if self.beamline == 'CRISTAL': ...] (out-of-plane branch only) *)
Definition block_CRISTAL (m : mat3) : mat3 :=
  match rocking with
  | Some Outofplane =>
      let m := set_col m 0 cx (pixel_x * ci) 0 (- pixel_x * si) in
      let m := set_col m 1 cy (pixel_y * si * so) (- pixel_y * co) (pixel_y * ci * so) in
      set_col m 2 cz 0 (tilt * distance * (1 - ci * co)) (tilt * distance * so)
  | _ => m
  end.

(** The construction matrix [mymatrix]: starts as [np.zeros((3, 3))] and
    goes through the six [if self.beamline == ...] blocks in source order. *)
Definition mymatrix_of (bl : beamline_t) : mat3 :=
  let m := zeros3 in
  let m := match bl with ID01 => block_ID01 m | _ => m end in
  let m := match bl with P10 => block_P10 m | _ => m end in
  let m := match bl with NANOMAX => block_NANOMAX m | _ => m end in
  let m := match bl with B34ID => block_34ID m | _ => m end in
  let m := match bl with SIXS_2018 | SIXS_2019 => block_SIXS m | _ => m end in
  let m := match bl with CRISTAL => block_CRISTAL m | _ => m end in
  m.

End Branches.

(** The body of [Setup.update_coords(array_shape, tilt_angle, pixel_x,
    pixel_y)] up to the construction of [mymatrix] ([verbose] only prints
    and is not modelled). *)
Definition build_matrix (s : Setup) (array_shape : Z * Z * Z)
    (tilt_angle pixel_x pixel_y : option R) : result mat3 :=
  wavelength <- py_scale_1e9 (wavelength s) ;;
  distance <- py_scale_1e9 (distance s) ;;
  pixel_x <- py_scale_1e9 pixel_x ;;
  pixel_y <- py_scale_1e9 pixel_y ;;
  outofplane <- py_radians (outofplane_angle s) ;;
  inplane <- py_radians (inplane_angle s) ;;
  mygrazing_angle <- read_grazing_angle s ;;
  let lambdaz := wavelength * distance in
  tilt <- py_radians tilt_angle ;;
  let '(nbz, nby, nbx) := array_shape in
  Ok (mymatrix_of (rocking_angle s) mygrazing_angle outofplane inplane
        tilt distance lambdaz pixel_x pixel_y
        (IZR nbz) (IZR nby) (IZR nbx) (beamline s)).

(** [Setup.update_coords]: [transfer_matrix = 2 * np.pi *
    np.linalg.inv(mymatrix).transpose()]. *)
Definition update_coords (s : Setup) (array_shape : Z * Z * Z)
    (tilt_angle pixel_x pixel_y : option R) : result mat3 :=
  mymatrix <- build_matrix s array_shape tilt_angle pixel_x pixel_y ;;
  two_pi_inv_transpose mymatrix.

(** The part of [Setup.voxel_sizes] that follows the call to
    [update_coords]: [rec_matrix = 2 * np.pi * np.linalg.inv(T).transpose()],
    then [2 * np.pi / norm(row)] with rows 2, 1, 0 for z, y, x. *)
Definition voxel_sizes_of_transfer (transfer_matrix : mat3) : result (R * R * R) :=
  rec_matrix <- two_pi_inv_transpose transfer_matrix ;;
  let qx_range := norm3 (a00 rec_matrix) (a01 rec_matrix) (a02 rec_matrix) in
  let qy_range := norm3 (a10 rec_matrix) (a11 rec_matrix) (a12 rec_matrix) in
  let qz_range := norm3 (a20 rec_matrix) (a21 rec_matrix) (a22 rec_matrix) in
  Ok (2 * PI / qz_range, 2 * PI / qy_range, 2 * PI / qx_range).

(** [Setup.voxel_sizes]: returns [(voxel_z, voxel_y, voxel_x)] in nm.
    The [array_shape] assertion (a list/tuple of length 3) holds by the
    type of the argument. *)
Definition voxel_sizes (s : Setup) (array_shape : Z * Z * Z)
    (tilt_angle pixel_x pixel_y : option R) : result (R * R * R) :=
  transfer_matrix <- update_coords s array_shape tilt_angle pixel_x pixel_y ;;
  voxel_sizes_of_transfer transfer_matrix.

(** Python's float division [a / b]: [ZeroDivisionError] on a zero divisor. *)
Definition py_fdiv (a b : R) : result R :=
  if Req_EM_T b 0 then Err ZeroDivisionError else Ok (a / b).

(** [Setup.voxel_sizes_detector(array_shape, tilt_angle, pixel_x, pixel_y)]:
    the voxel sizes in nm in the detector frame, [(voxel_z, voxel_y,
    voxel_x)], computed in this order. *)
Definition voxel_sizes_detector (s : Setup) (array_shape : Z * Z * Z)
    (tilt_angle pixel_x pixel_y : option R) : result (R * R * R) :=
  let '(n0, n1, n2) := array_shape in
  tilt <- py_some tilt_angle ;;
  wl <- py_some (wavelength s) ;;
  voxel_z <- py_fdiv wl (IZR n0 * Rabs tilt * PI / 180) ;;
  dist <- py_some (distance s) ;;
  py <- py_some pixel_y ;;
  voxel_y <- py_fdiv (wl * dist) (IZR n1 * py) ;;
  px <- py_some pixel_x ;;
  voxel_x <- py_fdiv (wl * dist) (IZR n2 * px) ;;
  Ok (voxel_z * 1e9, voxel_y * 1e9, voxel_x * 1e9).

(** [Setup.orthogonalize_vector(vector, array_shape, tilt_angle, pixel_x,
    pixel_y)]: [vector] is [(z, y, x)]; returns [(new_z, new_y, new_x)]. *)
Definition orthogonalize_vector (s : Setup) (vector : R * R * R) (array_shape : Z * Z * Z)
    (tilt_angle pixel_x pixel_y : option R) : result (R * R * R) :=
  ortho_matrix <- update_coords s array_shape tilt_angle pixel_x pixel_y ;;
  ortho_imatrix <- inv3 ortho_matrix ;;
  let '(v0, v1, v2) := vector in
  let new_x := a00 ortho_imatrix * v2 + a01 ortho_imatrix * v1 + a02 ortho_imatrix * v0 in
  let new_y := a10 ortho_imatrix * v2 + a11 ortho_imatrix * v1 + a12 ortho_imatrix * v0 in
  let new_z := a20 ortho_imatrix * v2 + a21 ortho_imatrix * v1 + a22 ortho_imatrix * v0 in
  Ok (new_z, new_y, new_x).

(* ------------------------------------------------------------------ *)
(** ** Centred sampling grids *)

(** [np.arange(start, stop, 1)] on integers. *)
Definition arange (start stop : Z) : list Z :=
  map (fun k => (start + Z.of_nat k)%Z) (seq 0 (Z.to_nat (stop - start))).

(** [np.arange(-n // 2, n // 2, 1)]: Python's unary minus binds tighter
    than [//], and [Z.div] is floor division like [//]. *)
Definition centered_arange (n : Z) : list Z := arange ((- n) / 2) (n / 2).

(** The three axes of a meshgrid or of an interpolation grid, in the
    order (z, y, x). *)
Definition axes3 : Type := (list R * list R * list R)%type.

(** [orthogonalize]: the axes given to [np.meshgrid], scaled by the voxel
    size. *)
Definition ortho_mesh_axes (shape : Z * Z * Z) (voxel_size : R * R * R) : axes3 :=
  let '(nbz, nby, nbx) := shape in
  let '(vz, vy, vx) := voxel_size in
  (map (fun k => IZR k * vz) (arange ((- nbz) / 2) (nbz / 2)),
   map (fun k => IZR k * vy) (arange ((- nby) / 2) (nby / 2)),
   map (fun k => IZR k * vx) (arange ((- nbx) / 2) (nbx / 2))).

(** [orthogonalize]: the axes of the [RegularGridInterpolator], unscaled. *)
Definition ortho_rgi_axes (shape : Z * Z * Z) : axes3 :=
  let '(nbz, nby, nbx) := shape in
  (map IZR (arange ((- nbz) / 2) (nbz / 2)),
   map IZR (arange ((- nby) / 2) (nby / 2)),
   map IZR (arange ((- nbx) / 2) (nbx / 2))).

(** [detector_frame]: the axes given to [np.meshgrid], unscaled. *)
Definition detframe_mesh_axes (shape : Z * Z * Z) : axes3 :=
  let '(nbz, nby, nbx) := shape in
  (map IZR (arange ((- nbz) / 2) (nbz / 2)),
   map IZR (arange ((- nby) / 2) (nby / 2)),
   map IZR (arange ((- nbx) / 2) (nbx / 2))).

(** [detector_frame]: the axes of the [RegularGridInterpolator], scaled by
    the voxel size. *)
Definition detframe_rgi_axes (shape : Z * Z * Z) (voxel_size : R * R * R) : axes3 :=
  let '(nbz, nby, nbx) := shape in
  let '(vz, vy, vx) := voxel_size in
  (map (fun k => IZR k * vz) (arange ((- nbz) / 2) (nbz / 2)),
   map (fun k => IZR k * vy) (arange ((- nby) / 2) (nby / 2)),
   map (fun k => IZR k * vx) (arange ((- nbx) / 2) (nbx / 2))).

(** [np.meshgrid(az, ay, ax, indexing='ij')] flattened in C order, each
    node as [(z, y, x)]. *)
Definition meshgrid_ij (a : axes3) : list (R * R * R) :=
  let '(az, ay, ax) := a in
  flat_map (fun z => flat_map (fun y => map (fun x => (z, y, x)) ax) ay) az.

(** [new_x = m[0,0]*myx + m[0,1]*myy + m[0,2]*myz] (and [new_y], [new_z]
    with rows 1 and 2), stacked as the query point [(new_z, new_y, new_x)]. *)
Definition map_node (m : mat3) (p : R * R * R) : R * R * R :=
  let '(myz, myy, myx) := p in
  let new_x := a00 m * myx + a01 m * myy + a02 m * myz in
  let new_y := a10 m * myx + a11 m * myy + a12 m * myz in
  let new_z := a20 m * myx + a21 m * myy + a22 m * myz in
  (new_z, new_y, new_x).

(* ------------------------------------------------------------------ *)
(** ** Arrays and [scipy.interpolate.RegularGridInterpolator] *)

(** Element types: real or complex ([dtype.kind] 'f' or 'c'); values are
    kept as (real part, imaginary part). *)
Inductive dtype_t : Type := DReal | DComplex.

Definition cplx : Type := (R * R)%type.
Definition czero : cplx := (0, 0).
Definition cadd (u v : cplx) : cplx := (fst u + fst v, snd u + snd v).
Definition cscale (c : R) (u : cplx) : cplx := (c * fst u, c * snd u).

(** A 3D numpy array: shape, element type and the C-order flat data. *)
Record ndarray3 : Type := mkArray3 {
  shape3 : Z * Z * Z;
  dtype : dtype_t;
  data3 : list cplx
}.

(** [.astype(dt)] of one value: a cast to a real type keeps the real part. *)
Definition cast_value (dt : dtype_t) (v : cplx) : cplx :=
  match dt with DReal => (fst v, 0) | DComplex => v end.

Definition Rltb (x y : R) : bool := if Rlt_dec x y then true else false.

(** [i = np.searchsorted(grid, x) - 1], then [i[i < 0] = 0] and
    [i[i > grid.size - 2] = grid.size - 2], in this order
    ([_find_indices]). On a grid of length 1 this gives [-1]; the index
    [-1] of [grid] is then [grid[0]], as [nthR] reads it. *)
Definition find_index (grid : list R) (x : R) : Z :=
  let i := (Z.of_nat (List.length (filter (fun g => Rltb g x) grid)) - 1)%Z in
  Z.min (Z.max 0 i) (Z.of_nat (List.length grid) - 2).

Definition nthR (l : list R) (i : Z) : R := nth (Z.to_nat i) l 0.

(** The normalised distance [(x - grid[i]) / (grid[i + 1] - grid[i])].
    The divisor is positive on a strictly ascending grid of length at
    least 2; on a grid of length 1 it is 0, where numpy gives [nan] and
    this real-valued model gives Rocq's [x / 0 = 0]: values interpolated
    inside such a grid are not modelled. *)
Definition norm_distance (grid : list R) (x : R) : R :=
  let i := find_index grid x in
  (x - nthR grid i) / (nthR grid (i + 1) - nthR grid i).

(** [_find_out_of_bounds]: [x < grid[0]] or [x > grid[-1]]. *)
Definition out_of_bounds1 (grid : list R) (x : R) : bool :=
  Rltb x (nthR grid 0) || Rltb (nthR grid (Z.of_nat (List.length grid) - 1)) x.

Definition out_of_bounds (a : axes3) (p : R * R * R) : bool :=
  let '(gz, gy, gx) := a in
  let '(z, y, x) := p in
  out_of_bounds1 gz z || out_of_bounds1 gy y || out_of_bounds1 gx x.

(** [values[i0, i1, i2]] in a C-order flat list. *)
Definition value_at (a : axes3) (values : list cplx) (i0 i1 i2 : Z) : cplx :=
  let '(_, gy, gx) := a in
  let n1 := Z.of_nat (List.length gy) in
  let n2 := Z.of_nat (List.length gx) in
  nth (Z.to_nat (i0 * n1 * n2 + i1 * n2 + i2)) values czero.

(** [_evaluate_linear]: the sum over the eight corners [i] or [i + 1] of
    the cell, each weighted by [1 - y] or [y] along each axis. *)
Definition evaluate_linear (a : axes3) (values : list cplx) (p : R * R * R) : cplx :=
  let '(gz, gy, gx) := a in
  let '(z, y, x) := p in
  let i0 := find_index gz z in
  let i1 := find_index gy y in
  let i2 := find_index gx x in
  let y0 := norm_distance gz z in
  let y1 := norm_distance gy y in
  let y2 := norm_distance gx x in
  let w (e : bool) (yi : R) := if e then yi else 1 - yi in
  fold_right cadd czero
    (map (fun '(e0, e1, e2) =>
            cscale (w e0 y0 * w e1 y1 * w e2 y2)
              (value_at a values (if e0 then i0 + 1 else i0)%Z
                 (if e1 then i1 + 1 else i1)%Z (if e2 then i2 + 1 else i2)%Z))
       [(false, false, false); (false, false, true); (false, true, false);
        (false, true, true); (true, false, false); (true, false, true);
        (true, true, false); (true, true, true)]).

(** [RegularGridInterpolator(axes, values, method='linear',
    bounds_error=False, fill_value=0)(points)]: query points outside the
    grid receive the fill value, no error is raised. *)
Definition rgi_linear_fill0 (a : axes3) (values : list cplx) (points : list (R * R * R))
  : list cplx :=
  map (fun p => if out_of_bounds a p then czero else evaluate_linear a values p) points.

(** [np.all(np.diff(p) > 0.)]: every point of the grid is strictly below
    the next one. *)
Fixpoint strictly_ascending (l : list R) : bool :=
  match l with
  | x :: ((y :: _) as rest) => Rltb x y && strictly_ascending rest
  | _ => true
  end.

(** The check of [RegularGridInterpolator.__init__] that the grid can fail:
    [ValueError] unless the points of every dimension are strictly
    ascending. Its other checks (one-dimensional points,
    [values.shape[i] == len(p)], a [fill_value] of 0 castable to the
    values' dtype) hold since each grid is [np.arange(-n // 2, n // 2)]
    scaled, of the array's length [n]. *)
Definition rgi_check_grid (a : axes3) : result unit :=
  let '(gz, gy, gx) := a in
  if strictly_ascending gz && strictly_ascending gy && strictly_ascending gx then Ok tt
  else Err ValueError.

(** [.reshape((nbz, nby, nbx)).astype(obj.dtype)] *)
Definition reshape_astype (shape : Z * Z * Z) (dt : dtype_t) (flat : list cplx) : ndarray3 :=
  mkArray3 shape dt (map (cast_value dt) flat).

(* ------------------------------------------------------------------ *)
(** ** [Setup.orthogonalize] and [Setup.detector_frame] *)

(** [a / b] with an integer divisor, raising [ZeroDivisionError] on zero. *)
Definition py_div_int (a : R) (b : Z) : result R :=
  if Z.eqb b 0 then Err ZeroDivisionError else Ok (a / IZR b).

(** [abs(self.tilt_angle)] *)
Definition py_abs (x : option R) : result R :=
  match x with Some v => Ok (Rabs v) | None => Err TypeError end.

(** [Setup.orthogonalize(obj, initial_shape, voxel_size)]: returns the
    pair [(ortho_obj, voxel_size)]. Arguments [width_*], [verbose],
    [debugging] and [title] only print or plot and are not modelled. The
    interpolator's constructor checks (values' shape against the grid
    lengths, ascending grids) hold since each grid has the array's length. *)
Definition orthogonalize (s : Setup) (obj : ndarray3) (initial_shape : option (Z * Z * Z))
    (voxel_size : option (R * R * R)) : result (ndarray3 * (R * R * R)) :=
  let initial_shape := match initial_shape with Some sh => sh | None => shape3 obj end in
  abs_tilt <- py_abs (tilt_angle s) ;;
  vs0 <- voxel_sizes s initial_shape (Some abs_tilt) (pixel_x s) (pixel_y s) ;;
  let '(nbz, nby, nbx) := shape3 obj in
  let '(s0, s1, s2) := initial_shape in
  params <-
    (if negb (Z.eqb nbz s0 && Z.eqb nby s1 && Z.eqb nbx s2) then
       (* recalculate the tilt and pixel sizes to accomodate a shape change *)
       t <- (match tilt_angle s with Some t => Ok t | None => Err TypeError end) ;;
       tilt <- py_div_int (t * IZR s0) nbz ;;
       py <- (match pixel_y s with Some p => Ok p | None => Err TypeError end) ;;
       pixel_y <- py_div_int (py * IZR s1) nby ;;
       px <- (match pixel_x s with Some p => Ok p | None => Err TypeError end) ;;
       pixel_x <- py_div_int (px * IZR s2) nbx ;;
       (* sanity check: the voxel sizes are recalculated *)
       vs1 <- voxel_sizes s (nbz, nby, nbx) (Some (Rabs tilt)) (Some pixel_x) (Some pixel_y) ;;
       Ok (vs1, Some tilt, Some pixel_x, Some pixel_y)
     else Ok (vs0, tilt_angle s, pixel_x s, pixel_y s)) ;;
  let '(vs, tilt, pixel_x, pixel_y) := params in
  voxel_size <-
    (match voxel_size with
     | None => Ok vs
     | Some (a, b, c) =>
         _ <- py_assert (Rltb 0 a && Rltb 0 b && Rltb 0 c) ;; Ok (a, b, c)
     end) ;;
  ortho_matrix <- update_coords s (nbz, nby, nbx) tilt pixel_x pixel_y ;;
  ortho_imatrix <- inv3 ortho_matrix ;;
  let points := map (map_node ortho_imatrix)
                  (meshgrid_ij (ortho_mesh_axes (nbz, nby, nbx) voxel_size)) in
  let ortho_obj := rgi_linear_fill0 (ortho_rgi_axes (nbz, nby, nbx)) (data3 obj) points in
  Ok (reshape_astype (nbz, nby, nbx) (dtype obj) ortho_obj, voxel_size).

(** The [voxel_size] argument of [detector_frame]: a number, or a
    list/tuple of three numbers. *)
Inductive voxel_arg : Type :=
| VNumber (v : R)
| VTriple (v : R * R * R).

(** [Setup.detector_frame(obj, voxel_size)] *)
Definition detector_frame (s : Setup) (obj : ndarray3) (voxel_size : voxel_arg)
  : result ndarray3 :=
  voxel_size <-
    (match voxel_size with
     | VNumber v => Ok (v, v, v)
     | VTriple (a, b, c) =>
         _ <- py_assert (Rltb 0 a && Rltb 0 b && Rltb 0 c) ;; Ok (a, b, c)
     end) ;;
  let shape := shape3 obj in
  ortho_matrix <- update_coords s shape (tilt_angle s) (pixel_x s) (pixel_y s) ;;
  let points := map (map_node ortho_matrix) (meshgrid_ij (detframe_mesh_axes shape)) in
  _ <- rgi_check_grid (detframe_rgi_axes shape voxel_size) ;;
  let detector_obj := rgi_linear_fill0 (detframe_rgi_axes shape voxel_size) (data3 obj) points in
  Ok (reshape_astype shape (dtype obj) detector_obj).

(* ------------------------------------------------------------------ *)
(** ** [Detector.mask_detector] *)

Open Scope Z_scope.

(** A 2D numpy array of [shape (nrows, ncols)]; [item i j] is [a[i, j]]. *)
Record arr2 : Type := mkArr2 {
  nrows : Z;
  ncols : Z;
  item : Z -> Z -> Q
}.

(** One subscript of [a[ir, ic]]: a slice [start:stop] (step 1) or an
    integer. *)
Inductive subscript : Type :=
| Sl (start stop : option Z)
| Ix (k : Z).

(** Python's normalisation of a slice bound against a length [n]. *)
Definition slice_bound (b : option Z) (dflt n : Z) : Z :=
  match b with
  | None => dflt
  | Some k => if (k <? 0)%Z then Z.max 0 (k + n) else Z.min k n
  end.

(** The half-open range of positions a subscript selects. *)
Definition subscript_range (ix : subscript) (n : Z) : result (Z * Z) :=
  match ix with
  | Sl start stop => Ok (slice_bound start 0 n, slice_bound stop n n)
  | Ix k =>
      let k' := if (k <? 0)%Z then (k + n)%Z else k in
      if ((0 <=? k') && (k' <? n))%Z then Ok (k', (k' + 1)%Z) else Err IndexError
  end.

Definition in_range (r : Z * Z) (i : Z) : bool := ((fst r <=? i) && (i <? snd r))%Z.

(** [a[ir, ic] = v] *)
Definition setitem (a : arr2) (ir ic : subscript) (v : Q) : result arr2 :=
  r <- subscript_range ir (nrows a) ;;
  c <- subscript_range ic (ncols a) ;;
  Ok (mkArr2 (nrows a) (ncols a)
        (fun i j => if in_range r i && in_range c j then v else item a i j)).

(** [a[cond] = v] for a boolean array [cond] of the same shape. *)
Definition setwhere (a : arr2) (cond : Z -> Z -> bool) (v : Q) : arr2 :=
  mkArr2 (nrows a) (ncols a) (fun i j => if cond i j then v else item a i j).

Definition same_shape (a b : arr2) : bool :=
  ((nrows a =? nrows b) && (ncols a =? ncols b))%Z.

(** [data > threshold] *)
Definition gt_mask (a : arr2) (threshold : Q) : Z -> Z -> bool :=
  fun i j => negb (Qle_bool (item a i j) threshold).

Definition pointwise (f : Q -> Q -> Q) (a b : arr2) : arr2 :=
  mkArr2 (nrows a) (ncols a) (fun i j => f (item a i j) (item b i j)).

Definition all_ : option Z := None.

(** The gaps of the Eiger2M, in source order. *)
Definition eiger2m_data (data : arr2) : result arr2 :=
  data <- setitem data (Sl all_ all_) (Sl (Some 255) (Some 259)) 0%Q ;;
  data <- setitem data (Sl all_ all_) (Sl (Some 513) (Some 517)) 0%Q ;;
  data <- setitem data (Sl all_ all_) (Sl (Some 771) (Some 775)) 0%Q ;;
  data <- setitem data (Sl (Some 0) (Some 257)) (Sl (Some 72) (Some 80)) 0%Q ;;
  data <- setitem data (Sl (Some 255) (Some 259)) (Sl all_ all_) 0%Q ;;
  data <- setitem data (Sl (Some 511) (Some 552)) (Sl all_ (Some 0)) 0%Q ;;
  data <- setitem data (Sl (Some 804) (Some 809)) (Sl all_ all_) 0%Q ;;
  data <- setitem data (Sl (Some 1061) (Some 1102)) (Sl all_ all_) 0%Q ;;
  data <- setitem data (Sl (Some 1355) (Some 1359)) (Sl all_ all_) 0%Q ;;
  data <- setitem data (Sl (Some 1611) (Some 1652)) (Sl all_ all_) 0%Q ;;
  data <- setitem data (Sl (Some 1905) (Some 1909)) (Sl all_ all_) 0%Q ;;
  data <- setitem data (Sl (Some 1248) (Some 1290)) (Ix 478) 0%Q ;;
  data <- setitem data (Sl (Some 1214) (Some 1298)) (Ix 481) 0%Q ;;
  setitem data (Sl (Some 1649) (Some 1910)) (Sl (Some 620) (Some 628)) 0%Q.

Definition eiger2m_mask (mask : arr2) : result arr2 :=
  mask <- setitem mask (Sl all_ all_) (Sl (Some 255) (Some 259)) 1%Q ;;
  mask <- setitem mask (Sl all_ all_) (Sl (Some 513) (Some 517)) 1%Q ;;
  mask <- setitem mask (Sl all_ all_) (Sl (Some 771) (Some 775)) 1%Q ;;
  mask <- setitem mask (Sl (Some 0) (Some 257)) (Sl (Some 72) (Some 80)) 1%Q ;;
  mask <- setitem mask (Sl (Some 255) (Some 259)) (Sl all_ all_) 1%Q ;;
  mask <- setitem mask (Sl (Some 511) (Some 552)) (Sl all_ all_) 1%Q ;;
  mask <- setitem mask (Sl (Some 804) (Some 809)) (Sl all_ all_) 1%Q ;;
  mask <- setitem mask (Sl (Some 1061) (Some 1102)) (Sl all_ all_) 1%Q ;;
  mask <- setitem mask (Sl (Some 1355) (Some 1359)) (Sl all_ all_) 1%Q ;;
  mask <- setitem mask (Sl (Some 1611) (Some 1652)) (Sl all_ all_) 1%Q ;;
  mask <- setitem mask (Sl (Some 1905) (Some 1909)) (Sl all_ all_) 1%Q ;;
  mask <- setitem mask (Sl (Some 1248) (Some 1290)) (Ix 478) 1%Q ;;
  mask <- setitem mask (Sl (Some 1214) (Some 1298)) (Ix 481) 1%Q ;;
  setitem mask (Sl (Some 1649) (Some 1910)) (Sl (Some 620) (Some 628)) 1%Q.

(** [mask[data > threshold] = 1; data[data > threshold] = 0] *)
Definition mask_hot (data mask : arr2) (threshold : Q) : arr2 * arr2 :=
  let mask := setwhere mask (gt_mask data threshold) 1%Q in
  let data := setwhere data (gt_mask data threshold) 0%Q in
  (data, mask).

(** [Detector.mask_detector(data, mask, nb_img, flatfield, background,
    hotpixels)] for a detector called [name]; returns [(data, mask)].
    [data] and [mask] are distinct arrays; the 2D checks hold by type. *)
Definition mask_detector (name : string) (data mask : arr2) (nb_img : Q)
    (flatfield background hotpixels : option arr2) : result (arr2 * arr2) :=
  _ <- (if same_shape data mask then Ok tt else Err ValueError) ;;
  data <- (match flatfield with
           | None => Ok data
           | Some f => if same_shape f data then Ok (pointwise Qmult f data)
                       else Err ValueError
           end) ;;
  data <- (match background with
           | None => Ok data
           | Some b => if same_shape b data then Ok (pointwise Qminus data b)
                       else Err ValueError
           end) ;;
  dm <- (match hotpixels with
         | None => Ok (data, mask)
         | Some h =>
             if same_shape h data then
               let hot := fun i j => Qeq_bool (item h i j) 1%Q in
               Ok (setwhere data hot 0%Q, setwhere mask hot 1%Q)
             else Err ValueError
         end) ;;
  let '(data, mask) := dm in
  if String.eqb name "Eiger2M" then
    data <- eiger2m_data data ;;
    mask <- eiger2m_mask mask ;;
    Ok (mask_hot data mask (1000000 * nb_img)%Q)
  else if String.eqb name "Eiger4M" then
    data <- setitem data (Sl all_ all_) (Sl (Some 0) (Some 1)) 0%Q ;;
    data <- setitem data (Sl all_ all_) (Sl (Some (-1)) all_) 0%Q ;;
    data <- setitem data (Sl (Some 0) (Some 1)) (Sl all_ all_) 0%Q ;;
    data <- setitem data (Sl (Some (-1)) all_) (Sl all_ all_) 0%Q ;;
    data <- setitem data (Sl all_ all_) (Sl (Some 1030) (Some 1040)) 0%Q ;;
    data <- setitem data (Sl (Some 514) (Some 551)) (Sl all_ all_) 0%Q ;;
    data <- setitem data (Sl (Some 1065) (Some 1102)) (Sl all_ all_) 0%Q ;;
    data <- setitem data (Sl (Some 1616) (Some 1653)) (Sl all_ all_) 0%Q ;;
    mask <- setitem mask (Sl all_ all_) (Sl (Some 0) (Some 1)) 1%Q ;;
    mask <- setitem mask (Sl all_ all_) (Sl (Some (-1)) all_) 1%Q ;;
    mask <- setitem mask (Sl (Some 0) (Some 1)) (Sl all_ all_) 1%Q ;;
    mask <- setitem mask (Sl (Some (-1)) all_) (Sl all_ all_) 1%Q ;;
    mask <- setitem mask (Sl all_ all_) (Sl (Some 1030) (Some 1040)) 1%Q ;;
    mask <- setitem mask (Sl (Some 514) (Some 551)) (Sl all_ all_) 1%Q ;;
    mask <- setitem mask (Sl (Some 1065) (Some 1102)) (Sl all_ all_) 1%Q ;;
    mask <- setitem mask (Sl (Some 1616) (Some 1653)) (Sl all_ all_) 1%Q ;;
    Ok (mask_hot data mask (4000000000 * nb_img)%Q)
  else if String.eqb name "Maxipix" then
    data <- setitem data (Sl all_ all_) (Sl (Some 255) (Some 261)) 0%Q ;;
    data <- setitem data (Sl (Some 255) (Some 261)) (Sl all_ all_) 0%Q ;;
    mask <- setitem mask (Sl all_ all_) (Sl (Some 255) (Some 261)) 1%Q ;;
    mask <- setitem mask (Sl (Some 255) (Some 261)) (Sl all_ all_) 1%Q ;;
    Ok (mask_hot data mask (1000000 * nb_img)%Q)
  else if String.eqb name "Merlin" then
    data <- setitem data (Sl all_ all_) (Sl (Some 255) (Some 260)) 0%Q ;;
    data <- setitem data (Sl (Some 255) (Some 260)) (Sl all_ all_) 0%Q ;;
    mask <- setitem mask (Sl all_ all_) (Sl (Some 255) (Some 260)) 1%Q ;;
    mask <- setitem mask (Sl (Some 255) (Some 260)) (Sl all_ all_) 1%Q ;;
    Ok (mask_hot data mask (1000000 * nb_img)%Q)
  else if String.eqb name "Timepix" then
    Ok (data, mask)
  else Err NotImplementedError.

(* ------------------------------------------------------------------ *)
(** ** [Detector.__init__] *)

(** The attributes of a [Detector] instance computed by the constructor
    ([datadir], [savedir], [template_imagefile], [is_series] and
    [offsets] are stored as given and are not modelled). The pixel sizes
    are floats; the binning factors are triples of integers. *)
Record Detector : Type := mkDetector {
  name : string;
  nb_pixel_x : Z;
  nb_pixel_y : Z;
  pixelsize_x : R;
  pixelsize_y : R;
  counter : string;
  previous_binning : Z * Z * Z;
  binning : Z * Z * Z;
  roi : list Z;
  sum_roi : list Z
}.

(** [x or default] on an optional integer: [None] and [0] are falsy. *)
Definition py_or_int (x : option Z) (default : Z) : Z :=
  match x with
  | Some v => if v =? 0 then default else v
  | None => default
  end.

(** Python's [a // b] on integers: floor division, [ZeroDivisionError] on
    a zero divisor. *)
Definition py_floordiv (a b : Z) : result Z :=
  if b =? 0 then Err ZeroDivisionError else Ok (a / b).

(** The per-detector constants: default [nb_pixel_x], [nb_pixel_y], the
    pixel size in m (the same in x and y) and the counter. *)
Definition detector_table (name : string) : result (Z * Z * R * string) :=
  if String.eqb name "Maxipix" then Ok (516, 516, 55e-06%R, "mpx4inr"%string)
  else if String.eqb name "Eiger2M" then Ok (1030, 2164, 75e-06%R, "ei2minr"%string)
  else if String.eqb name "Eiger4M" then Ok (2070, 2167, 75e-06%R, ""%string)
  else if String.eqb name "Timepix" then Ok (256, 256, 55e-06%R, ""%string)
  else if String.eqb name "Merlin" then Ok (515, 515, 55e-06%R, "alba2"%string)
  else Err ValueError.

(** [len(roi) == 0] gives the full detector, [len(roi) == 4] keeps [roi],
    anything else raises [ValueError]. *)
Definition check_roi (r : list Z) (nby nbx : Z) : result (list Z) :=
  match List.length r with
  | O => Ok [0; nby; 0; nbx]
  | 4%nat => Ok r
  | _ => Err ValueError
  end.

(** [Detector(name, roi=roi, sum_roi=sum_roi, binning=binning, **kwargs)]:
    [kwargs_keys] are the keys of [kwargs]; [kw_nb_pixel_x],
    [kw_nb_pixel_y] and [kw_previous_binning] are [kwargs.get(key, None)]. *)
Definition Detector_init (name : string) (roi sum_roi : list Z) (binning : Z * Z * Z)
    (kw_nb_pixel_x kw_nb_pixel_y : option Z) (kw_previous_binning : option (Z * Z * Z))
    (kwargs_keys : list string) : result Detector :=
  let previous_binning :=
    match kw_previous_binning with Some pb => pb | None => (1, 1, 1) end in
  _ <- (if forallb (fun k => existsb (String.eqb k)
                                ["is_series"; "nb_pixel_x"; "nb_pixel_y"; "previous_binning"]%string)
             kwargs_keys
        then Ok tt else Err GenericException) ;;
  tbl <- detector_table name ;;
  let '(dflt_x, dflt_y, psize, counter) := tbl in
  let '(_, pb1, pb2) := previous_binning in
  let nb_x := py_or_int kw_nb_pixel_x dflt_x in
  let nb_y := py_or_int kw_nb_pixel_y dflt_y in
  nb_x <- py_floordiv nb_x pb2 ;;
  nb_y <- py_floordiv nb_y pb1 ;;
  let '(_, b1, b2) := binning in
  let pixelsize_y := (psize * IZR pb1 * IZR b1)%R in
  let pixelsize_x := (psize * IZR pb2 * IZR b2)%R in
  roi <- check_roi roi nb_y nb_x ;;
  sum_roi <- check_roi sum_roi nb_y nb_x ;;
  Ok (mkDetector name nb_x nb_y pixelsize_x pixelsize_y counter previous_binning binning
        roi sum_roi).

Close Scope Z_scope.

(* ------------------------------------------------------------------ *)
(** ** The deprecated classes [SetupPostprocessing] and [SetupPreprocessing] *)

(** [s in {...}] on a set literal of strings. *)
Definition str_in (s : string) (l : list string) : bool := existsb (String.eqb s) l.

(** The horizontal orientation chosen by both constructors:
    [if beamline in {'ID01', 'SIXS_2018', 'SIXS_2019', 'CRISTAL', 'NANOMAX'}:
    'y+' else 'y-']. *)
Definition hor_of_name (beamline : string) : hor_t :=
  if str_in beamline ["ID01"; "SIXS_2018"; "SIXS_2019"; "CRISTAL"; "NANOMAX"]%string
  then Y_plus else Y_minus.

Module Postprocessing.

(** The attributes of a [SetupPostprocessing] instance. The class
    validates nothing: the beamline and the rocking angle are any strings;
    the numeric arguments are modelled as numbers. *)
Record SetupPostprocessing : Type := mkSetupPostprocessing {
  beamline : string;
  energy : R;
  wavelength : R;
  outofplane_angle : R;
  inplane_angle : R;
  tilt_angle : R;
  rocking_angle : string;
  grazing_angle : R;
  distance : R;
  pixel_x : R;
  pixel_y : R;
  detector_hor : hor_t;
  detector_ver : ver_t
}.

(** [SetupPostprocessing(beamline, energy, outofplane_angle, inplane_angle,
    tilt_angle, rocking_angle, distance, grazing_angle=0, pixel_x=55e-6,
    pixel_y=55e-6)]: [self.wavelength = 12.398 * 1e-7 / energy] raises
    [ZeroDivisionError] for a zero energy. *)
Definition init (beamline : string) (energy outofplane_angle inplane_angle tilt_angle : R)
    (rocking_angle : string) (distance grazing_angle pixel_x pixel_y : R)
  : result SetupPostprocessing :=
  wavelength <- py_fdiv (12.398 * 1e-7) energy ;;
  Ok (mkSetupPostprocessing beamline energy wavelength outofplane_angle inplane_angle
        tilt_angle rocking_angle grazing_angle distance pixel_x pixel_y
        (hor_of_name beamline) Z_minus).

(** [SetupPostprocessing.exit_wavevector]: the same formulas as
    [Setup.exit_wavevector], selected by string comparison; any other
    beamline raises [ValueError]. *)
Definition exit_wavevector (s : SetupPostprocessing) : result (R * R * R) :=
  let bl := beamline s in
  let inplane := inplane_angle s in
  let outofplane := outofplane_angle s in
  let plus_x k :=
    (k * (cos (PI * inplane / 180) * cos (PI * outofplane / 180)),
     k * sin (PI * outofplane / 180),
     k * (sin (PI * inplane / 180) * cos (PI * outofplane / 180))) in
  let minus_x k :=
    (k * (cos (PI * inplane / 180) * cos (PI * outofplane / 180)),
     k * sin (PI * outofplane / 180),
     k * (- sin (PI * inplane / 180) * cos (PI * outofplane / 180))) in
  if (String.eqb bl "SIXS_2018" || String.eqb bl "SIXS_2019")%bool then
    k <- py_fdiv (2 * PI) (wavelength s) ;; Ok (plus_x k)
  else if String.eqb bl "ID01" then
    k <- py_fdiv (2 * PI) (wavelength s) ;; Ok (minus_x k)
  else if String.eqb bl "34ID" then
    k <- py_fdiv (2 * PI) (wavelength s) ;; Ok (plus_x k)
  else if String.eqb bl "NANOMAX" then
    k <- py_fdiv (2 * PI) (wavelength s) ;; Ok (minus_x k)
  else if String.eqb bl "P10" then
    k <- py_fdiv (2 * PI) (wavelength s) ;; Ok (plus_x k)
  else if String.eqb bl "CRISTAL" then
    k <- py_fdiv (2 * PI) (wavelength s) ;; Ok (plus_x k)
  else Err ValueError.

(** [SetupPostprocessing.inplane_coeff]: any beamline outside the six
    names raises [ValueError]. *)
Definition inplane_coeff (s : SetupPostprocessing) : result Z :=
  let hor_coeff := match detector_hor s with Y_plus => 1%Z | Y_minus => (-1)%Z end in
  let bl := beamline s in
  if (String.eqb bl "SIXS_2018" || String.eqb bl "SIXS_2019")%bool then Ok (1 * hor_coeff)%Z
  else if String.eqb bl "ID01" then Ok ((-1) * hor_coeff)%Z
  else if String.eqb bl "34ID" then Ok (1 * hor_coeff)%Z
  else if String.eqb bl "P10" then Ok (1 * hor_coeff)%Z
  else if String.eqb bl "CRISTAL" then Ok (1 * hor_coeff)%Z
  else if String.eqb bl "NANOMAX" then Ok ((-1) * hor_coeff)%Z
  else Err ValueError.

(** [SetupPostprocessing.outofplane_coeff] *)
Definition outofplane_coeff (s : SetupPostprocessing) : Z :=
  let ver_coeff := match detector_ver s with Z_plus => 1%Z | Z_minus => (-1)%Z end in
  ((-1) * ver_coeff)%Z.

(** [self.rocking_angle == "outofplane"] and [== "inplane"] select the
    branches of [update_coords]; any other value selects none. *)
Definition rocking_of (rocking_angle : string) : option rocking_t :=
  if String.eqb rocking_angle "outofplane" then Some Outofplane
  else if String.eqb rocking_angle "inplane" then Some Inplane
  else None.

(** The body of [SetupPostprocessing.update_coords] up to [mymatrix]. Its
    source is the one of [Setup.update_coords]: the blocks
    [if self.beamline == ...] are those of [mymatrix_of], and a beamline
    outside the seven names leaves [np.zeros((3, 3))]. Here the attributes
    are plain numbers and [grazing_angle] is assigned by the constructor;
    [tilt_angle], [pixel_x] and [pixel_y] are arguments that may be
    [None]. *)
Definition build_matrix (s : SetupPostprocessing) (array_shape : Z * Z * Z)
    (tilt_angle pixel_x pixel_y : option R) : result mat3 :=
  let wavelength := wavelength s * 1e9 in
  let distance := distance s * 1e9 in
  pixel_x <- py_scale_1e9 pixel_x ;;
  pixel_y <- py_scale_1e9 pixel_y ;;
  let outofplane := radians (outofplane_angle s) in
  let inplane := radians (inplane_angle s) in
  let mygrazing_angle := radians (grazing_angle s) in
  let lambdaz := wavelength * distance in
  tilt <- py_radians tilt_angle ;;
  let '(nbz, nby, nbx) := array_shape in
  Ok (match set_beamline (beamline s) with
      | Ok bl =>
          mymatrix_of (rocking_of (rocking_angle s)) mygrazing_angle outofplane inplane
            tilt distance lambdaz pixel_x pixel_y (IZR nbz) (IZR nby) (IZR nbx) bl
      | Err _ => zeros3
      end).

(** [SetupPostprocessing.update_coords] *)
Definition update_coords (s : SetupPostprocessing) (array_shape : Z * Z * Z)
    (tilt_angle pixel_x pixel_y : option R) : result mat3 :=
  mymatrix <- build_matrix s array_shape tilt_angle pixel_x pixel_y ;;
  two_pi_inv_transpose mymatrix.

(** [SetupPostprocessing.voxel_sizes] *)
Definition voxel_sizes (s : SetupPostprocessing) (array_shape : Z * Z * Z)
    (tilt_angle pixel_x pixel_y : option R) : result (R * R * R) :=
  transfer_matrix <- update_coords s array_shape tilt_angle pixel_x pixel_y ;;
  voxel_sizes_of_transfer transfer_matrix.

(** [SetupPostprocessing.voxel_sizes_detector]: the source of
    [Setup.voxel_sizes_detector], on plain attributes. *)
Definition voxel_sizes_detector (s : SetupPostprocessing) (array_shape : Z * Z * Z)
    (tilt_angle pixel_x pixel_y : option R) : result (R * R * R) :=
  let '(n0, n1, n2) := array_shape in
  tilt <- py_some tilt_angle ;;
  voxel_z <- py_fdiv (wavelength s) (IZR n0 * Rabs tilt * PI / 180) ;;
  py <- py_some pixel_y ;;
  voxel_y <- py_fdiv (wavelength s * distance s) (IZR n1 * py) ;;
  px <- py_some pixel_x ;;
  voxel_x <- py_fdiv (wavelength s * distance s) (IZR n2 * px) ;;
  Ok (voxel_z * 1e9, voxel_y * 1e9, voxel_x * 1e9).

(** [SetupPostprocessing.orthogonalize(obj, initial_shape=(),
    voxel_size=np.nan)]: returns [(ortho_obj, voxel)] with one voxel size
    for the three axes. [initial_shape] [None] stands for the default empty
    tuple; [voxel_size] [None] stands for the default [np.nan], the only
    value for which [np.isnan] holds. Arguments [width_*], [verbose],
    [debugging] and [title] only print or plot and are not modelled. *)
Definition orthogonalize (s : SetupPostprocessing) (obj : ndarray3)
    (initial_shape : option (Z * Z * Z)) (voxel_size : option R) : result (ndarray3 * R) :=
  let initial_shape := match initial_shape with Some sh => sh | None => shape3 obj end in
  vs0 <- voxel_sizes s initial_shape (Some (Rabs (tilt_angle s))) (Some (pixel_x s))
           (Some (pixel_y s)) ;;
  let '(nbz, nby, nbx) := shape3 obj in
  let '(s0, s1, s2) := initial_shape in
  params <-
    (if negb (Z.eqb nbz s0 && Z.eqb nby s1 && Z.eqb nbx s2) then
       (* recalculate the tilt and pixel sizes to accomodate a shape change *)
       tilt <- py_div_int (tilt_angle s * IZR s0) nbz ;;
       pixel_y <- py_div_int (pixel_y s * IZR s1) nby ;;
       pixel_x <- py_div_int (pixel_x s * IZR s2) nbx ;;
       (* sanity check: the voxel sizes are recalculated *)
       vs1 <- voxel_sizes s (nbz, nby, nbx) (Some (Rabs tilt)) (Some pixel_x) (Some pixel_y) ;;
       Ok (vs1, tilt, pixel_x, pixel_y)
     else Ok (vs0, tilt_angle s, pixel_x s, pixel_y s)) ;;
  let '(vs, tilt, pixel_x, pixel_y) := params in
  let voxel :=
    match voxel_size with
    | None => let '(dz, dy, dx) := vs in (dz + dy + dx) / 3
    | Some v => v
    end in
  ortho_matrix <- update_coords s (nbz, nby, nbx) (Some tilt) (Some pixel_x) (Some pixel_y) ;;
  ortho_imatrix <- inv3 ortho_matrix ;;
  let points := map (map_node ortho_imatrix)
                  (meshgrid_ij (ortho_mesh_axes (nbz, nby, nbx) (voxel, voxel, voxel))) in
  let ortho_obj := rgi_linear_fill0 (ortho_rgi_axes (nbz, nby, nbx)) (data3 obj) points in
  Ok (reshape_astype (nbz, nby, nbx) (dtype obj) ortho_obj, voxel).

(** [SetupPostprocessing.detector_frame(obj, voxelsize)]: one voxel size
    for the three axes, not checked. *)
Definition detector_frame (s : SetupPostprocessing) (obj : ndarray3) (voxelsize : R)
  : result ndarray3 :=
  let shape := shape3 obj in
  ortho_matrix <- update_coords s shape (Some (tilt_angle s)) (Some (pixel_x s))
                    (Some (pixel_y s)) ;;
  let points := map (map_node ortho_matrix) (meshgrid_ij (detframe_mesh_axes shape)) in
  _ <- rgi_check_grid (detframe_rgi_axes shape (voxelsize, voxelsize, voxelsize)) ;;
  let detector_obj :=
    rgi_linear_fill0 (detframe_rgi_axes shape (voxelsize, voxelsize, voxelsize)) (data3 obj)
      points in
  Ok (reshape_astype shape (dtype obj) detector_obj).


(** [SetupPostprocessing.orthogonalize_vector(vector, array_shape, tilt_angle,
    pixel_x, pixel_y)]: [vector] is [(z, y, x)]; returns [(new_z, new_y, new_x)]. *)
Definition orthogonalize_vector (s : SetupPostprocessing) (vector : R * R * R)
    (array_shape : Z * Z * Z) (tilt_angle pixel_x pixel_y : option R) : result (R * R * R) :=
  ortho_matrix <- update_coords s array_shape tilt_angle pixel_x pixel_y ;;
  ortho_imatrix <- inv3 ortho_matrix ;;
  let '(v0, v1, v2) := vector in
  let new_x := a00 ortho_imatrix * v2 + a01 ortho_imatrix * v1 + a02 ortho_imatrix * v0 in
  let new_y := a10 ortho_imatrix * v2 + a11 ortho_imatrix * v1 + a12 ortho_imatrix * v0 in
  let new_z := a20 ortho_imatrix * v2 + a21 ortho_imatrix * v1 + a22 ortho_imatrix * v0 in
  Ok (new_z, new_y, new_x).

End Postprocessing.

Module Preprocessing.

(** Python values stored from [**kwargs]: booleans, lists and dicts
    besides the values of [pyval]. *)
Inductive value : Type :=
| VBool (b : bool)
| VList (l : list value)
| VDict (l : list (string * value))
| VPy (v : pyval).

(** [kwargs.get(key, default)]; the keys of [**kwargs] are distinct. *)
Fixpoint kw_get (kwargs : list (string * value)) (key : string) (default : value) : value :=
  match kwargs with
  | [] => default
  | (k, v) :: rest => if String.eqb key k then v else kw_get rest key default
  end.

(** The attributes of a [SetupPreprocessing] instance. *)
Record SetupPreprocessing : Type := mkSetupPreprocessing {
  beamline : string;
  filtered_data : value;
  is_orthogonal : value;
  custom_scan : value;
  custom_images : value;
  custom_monitor : value;
  custom_motors : value;
  energy : R;
  wavelength : R;
  rocking_angle : pyval;
  distance : pyval;
  direct_beam : pyval;
  beam_direction : pyval;
  sample_inplane : pyval;
  sample_outofplane : pyval;
  sample_offsets : pyval;
  offset_inplane : pyval;
  detector_hor : hor_t;
  detector_ver : ver_t
}.

Definition allowed_kwargs : list string :=
  ["filtered_data"; "is_orthogonal"; "custom_scan"; "custom_images"; "custom_monitor";
   "custom_motors"]%string.

(** [SetupPreprocessing(beamline, rocking_angle=None, distance=1,
    energy=8000, direct_beam=(0, 0), beam_direction=(1, 0, 0),
    sample_inplane=(1, 0, 0), sample_outofplane=(0, 0, 1),
    sample_offsets=(0, 0, 0), offset_inplane=0, **kwargs)]: the keyword
    check comes first, then [12.398 * 1e-7 / energy]. *)
Definition init (beamline : string) (rocking_angle distance : pyval) (energy : R)
    (direct_beam beam_direction sample_inplane sample_outofplane sample_offsets
     offset_inplane : pyval) (kwargs : list (string * value)) : result SetupPreprocessing :=
  _ <- (if forallb (fun kv => str_in (fst kv) allowed_kwargs) kwargs
        then Ok tt else Err GenericException) ;;
  wavelength <- py_fdiv (12.398 * 1e-7) energy ;;
  Ok (mkSetupPreprocessing beamline
        (kw_get kwargs "filtered_data" (VBool false))
        (kw_get kwargs "is_orthogonal" (VBool false))
        (kw_get kwargs "custom_scan" (VBool false))
        (kw_get kwargs "custom_images" (VList []))
        (kw_get kwargs "custom_monitor" (VList []))
        (kw_get kwargs "custom_motors" (VDict []))
        energy wavelength rocking_angle distance direct_beam beam_direction
        sample_inplane sample_outofplane sample_offsets offset_inplane
        (hor_of_name beamline) Z_minus).

End Preprocessing.

(* ------------------------------------------------------------------ *)
(** ** Branch table of the construction matrix *)

(** The (beamline, rocking angle) pairs for which [update_coords] has a
    formula; every other pair leaves [mymatrix] at [np.zeros((3, 3))]. *)
Definition branch_defined (bl : beamline_t) (rocking : option rocking_t) : bool :=
  match bl, rocking with
  | (SIXS_2018 | SIXS_2019), Some Outofplane => false
  | CRISTAL, Some Inplane => false
  | _, None => false
  | _, _ => true
  end.

(** The angular factor of [det(mymatrix)] in each branch (proved in
    [det_mymatrix] below); the zero-grazing formulas are the non-zero ones
    at [cos 0 = 1]. *)
Definition branch_factor (bl : beamline_t) (rocking : option rocking_t) (g o i : R) : R :=
  match bl, rocking with
  | ID01, Some Outofplane => - sin o
  | ID01, Some Inplane => - sin i * cos o * cos g
  | P10, Some Outofplane => sin o
  | P10, Some Inplane => - sin i * cos o * cos g
  | NANOMAX, Some Outofplane => sin o
  | NANOMAX, Some Inplane => sin i * cos o * cos g
  | B34ID, Some Outofplane => sin o
  | B34ID, Some Inplane => - sin i * cos o * cos g
  | (SIXS_2018 | SIXS_2019), Some Inplane => - sin i * cos o * cos g
  | CRISTAL, Some Outofplane => - sin o
  | _, _ => 0
  end.

(** The full Eiger2M sensor, [shape (2164, 1030)], filled with a constant. *)
Definition eiger2m_const (v : Q) : arr2 := mkArr2 2164 1030 (fun _ _ => v).

(** The setup of the spec's ID01 scenario, on which the attribute
    [grazing_angle = 0] has been assigned from outside the class. *)
Definition setup_id01_grazing0 : Setup :=
  mkSetup ID01 (1, 0, 0) (Some 8800) (Some 7.25) (Some 0) (Some 7.248) (Some 0.01)
    (Some Inplane) (Some 110e-6) (Some 110e-6) (Some 0).

(** The same geometry at CRISTAL, which has no in-plane formula. *)
Definition setup_cristal_inplane : Setup :=
  mkSetup CRISTAL (1, 0, 0) (Some 8800) (Some 7.25) (Some 0) (Some 7.248) (Some 0.01)
    (Some Inplane) (Some 110e-6) (Some 110e-6) (Some 0).

(** A real 2x2x2 object in the detector frame. *)
Definition obj_2x2x2 : ndarray3 :=
  mkArray3 (2, 2, 2)%Z DReal [(1, 0); (2, 0); (3, 0); (4, 0); (5, 0); (6, 0); (7, 0); (8, 0)].

(** The full Maxipix and Eiger4M frames, filled with 0, and a hot-pixel map
    of the Maxipix frame that flags row 3. *)
Definition maxipix_frame : arr2 := mkArr2 516%Z 516%Z (fun _ _ => 0%Q).
Definition eiger4m_frame : arr2 := mkArr2 2167%Z 2070%Z (fun _ _ => 0%Q).
Definition hot_row3 : arr2 :=
  mkArr2 516%Z 516%Z (fun i _ => if (i =? 3)%Z then 1%Q else 0%Q).

(* ================================================================== *)
(** * Proofs *)

(** ** Matrix algebra *)

Lemma det3_mscale c m : det3 (mscale c m) = c * c * c * det3 m.
Proof. destruct m; unfold det3, mscale; cbn; ring. Qed.

Lemma det3_transpose m : det3 (transpose m) = det3 m.
Proof. destruct m; unfold det3, transpose; cbn; ring. Qed.

Lemma det3_adj3 m : det3 (adj3 m) = det3 m * det3 m.
Proof. destruct m; unfold det3, adj3; cbn; ring. Qed.

Lemma adj3_mscale c m : adj3 (mscale c m) = mscale (c * c) (adj3 m).
Proof. destruct m; unfold adj3, mscale; cbn; f_equal; ring. Qed.

Lemma adj3_transpose m : adj3 (transpose m) = transpose (adj3 m).
Proof. destruct m; unfold adj3, transpose; cbn; f_equal; ring. Qed.

Lemma adj3_adj3 m : adj3 (adj3 m) = mscale (det3 m) m.
Proof. destruct m; unfold adj3, mscale, det3; cbn; f_equal; ring. Qed.

Lemma transpose_mscale c m : transpose (mscale c m) = mscale c (transpose m).
Proof. destruct m; reflexivity. Qed.

Lemma transpose_transpose m : transpose (transpose m) = m.
Proof. destruct m; reflexivity. Qed.

Lemma mscale_mscale c d m : mscale c (mscale d m) = mscale (c * d) m.
Proof. destruct m; unfold mscale; cbn; f_equal; ring. Qed.

Lemma mscale_1 m : mscale 1 m = m.
Proof. destruct m; unfold mscale; cbn; f_equal; ring. Qed.

Lemma two_pi_pos : 0 < 2 * PI.
Proof. pose proof PI_RGT_0; lra. Qed.

Lemma cube_pos (t : R) : 0 < t -> 0 < t * t * t.
Proof. intros Ht. apply Rmult_lt_0_compat; [apply Rmult_lt_0_compat|]; assumption. Qed.

Lemma two_pi_inv_transpose_ok m :
  det3 m <> 0 ->
  two_pi_inv_transpose m = Ok (mscale (2 * PI / det3 m) (transpose (adj3 m))).
Proof.
  intros Hd. unfold two_pi_inv_transpose, inv3.
  destruct (Req_EM_T (det3 m) 0) as [E|_]; [contradiction|].
  cbn. rewrite transpose_mscale, mscale_mscale. reflexivity.
Qed.

Lemma two_pi_inv_transpose_singular m :
  det3 m = 0 -> two_pi_inv_transpose m = Err LinAlgError.
Proof.
  intros Hd. unfold two_pi_inv_transpose, inv3.
  destruct (Req_EM_T (det3 m) 0) as [_|E]; [reflexivity|contradiction].
Qed.

Lemma two_pi_inv_transpose_det m T :
  two_pi_inv_transpose m = Ok T -> det3 m <> 0.
Proof.
  intros H Hd. rewrite two_pi_inv_transpose_singular in H by exact Hd. discriminate.
Qed.

Lemma det3_two_pi_inv_transpose m :
  det3 m <> 0 ->
  det3 (mscale (2 * PI / det3 m) (transpose (adj3 m)))
  = (2 * PI) * (2 * PI) * (2 * PI) / det3 m.
Proof.
  intros Hd. rewrite det3_mscale, det3_transpose, det3_adj3. field. exact Hd.
Qed.

(** [X |-> 2 pi inv(X)^T] is an involution on invertible matrices. *)
Lemma two_pi_inv_transpose_involutive m :
  det3 m <> 0 ->
  exists T, two_pi_inv_transpose m = Ok T /\ det3 T <> 0 /\ two_pi_inv_transpose T = Ok m.
Proof.
  intros Hd. rewrite two_pi_inv_transpose_ok by exact Hd.
  eexists; split; [reflexivity|].
  assert (HT : det3 (mscale (2 * PI / det3 m) (transpose (adj3 m))) <> 0).
  { rewrite det3_two_pi_inv_transpose by exact Hd.
    pose proof (cube_pos _ two_pi_pos).
    unfold Rdiv. apply Rmult_integral_contrapositive_currified; [lra|].
    apply Rinv_neq_0_compat; exact Hd. }
  split; [exact HT|].
  rewrite two_pi_inv_transpose_ok by exact HT.
  rewrite det3_two_pi_inv_transpose by exact Hd.
  rewrite adj3_mscale, adj3_transpose, adj3_adj3, !transpose_mscale, transpose_transpose,
    !mscale_mscale.
  pose proof PI_neq0.
  match goal with
  | |- Ok (mscale ?c m) = Ok m => replace c with 1 by (field; split; [exact Hd | lra])
  end.
  now rewrite mscale_1.
Qed.

(** ** Determinant of the construction matrix *)

Ltac trig_nsatz i o g :=
  pose proof (sin2_cos2 i) as Hi; pose proof (sin2_cos2 o) as Ho;
  pose proof (sin2_cos2 g) as Hg;
  unfold Rsqr in Hi, Ho, Hg;
  generalize dependent (sin i); generalize dependent (cos i);
  generalize dependent (sin o); generalize dependent (cos o);
  generalize dependent (sin g); generalize dependent (cos g);
  intros; nsatz.

Lemma det_mymatrix r g o i t d lz px py nz ny nx bl :
  det3 (mymatrix_of r g o i t d lz px py nz ny nx bl)
  = cx lz nx * cy lz ny * cz lz nz * px * py * t * d * branch_factor bl r g o i.
Proof.
  destruct bl, r as [[|]|]; cbn -[cx cy cz];
  try (destruct (Req_EM_T g 0) as [E|_]; [rewrite E|]);
  rewrite ?cos_0, ?sin_0; unfold det3; cbn; try ring; trig_nsatz i o g.
Qed.

Lemma mymatrix_undefined r g o i t d lz px py nz ny nx bl :
  branch_defined bl r = false ->
  mymatrix_of r g o i t d lz px py nz ny nx bl = zeros3.
Proof. destruct bl, r as [[|]|]; cbn; try discriminate; reflexivity. Qed.

(** ** Reading the attributes *)

Lemma bind_Ok_inv {A B} (m : result A) (k : A -> result B) b :
  bind m k = Ok b -> exists a, m = Ok a /\ k a = Ok b.
Proof. destruct m; cbn; [eauto | discriminate]. Qed.

Lemma wavelength_pos s e :
  energy s = Some e -> 0 < e -> wavelength s = Some (12.398 * 1e-7 / e).
Proof.
  intros He Hpos. unfold wavelength. rewrite He.
  destruct (Req_EM_T e 0); [lra | reflexivity].
Qed.

Lemma build_matrix_ok s nbz nby nbx e d x y o i g t :
  energy s = Some e -> 0 < e -> distance s = Some d ->
  outofplane_angle s = Some o -> inplane_angle s = Some i -> grazing_angle s = Some g ->
  build_matrix s (nbz, nby, nbx) (Some t) (Some x) (Some y)
  = Ok (mymatrix_of (rocking_angle s) (radians g) (radians o) (radians i) (radians t)
          (d * 1e9) (12.398 * 1e-7 / e * 1e9 * (d * 1e9)) (x * 1e9) (y * 1e9)
          (IZR nbz) (IZR nby) (IZR nbx) (beamline s)).
Proof.
  intros He Hpos Hd Ho Hi Hg. unfold build_matrix.
  rewrite (wavelength_pos s e He Hpos). cbn.
  rewrite Hd, Ho, Hi. cbn. unfold read_grazing_angle. rewrite Hg. reflexivity.
Qed.

(** ** Trigonometric bounds in degrees *)

Lemma radians_sin_pos a : 0 < a < 180 -> 0 < sin (radians a).
Proof.
  intros Ha. pose proof PI_RGT_0. apply sin_gt_0; unfold radians.
  - apply Rmult_lt_0_compat; [nra | lra].
  - apply (Rmult_lt_reg_r 180); [lra|]. unfold Rdiv. rewrite Rmult_assoc, Rinv_l by lra. nra.
Qed.

Lemma radians_cos_pos a : -90 < a < 90 -> 0 < cos (radians a).
Proof.
  intros Ha. pose proof PI_RGT_0. apply cos_gt_0; unfold radians.
  - apply (Rmult_lt_reg_r 180); [lra|]. unfold Rdiv. rewrite Rmult_assoc, Rinv_l by lra. nra.
  - apply (Rmult_lt_reg_r 180); [lra|]. unfold Rdiv. rewrite Rmult_assoc, Rinv_l by lra. nra.
Qed.

Lemma radians_neq0 a : a <> 0 -> radians a <> 0.
Proof.
  intros Ha E. pose proof PI_RGT_0. unfold radians, Rdiv in E.
  rewrite Rmult_assoc in E. apply Rmult_integral in E. destruct E as [E|E]; [lra|].
  apply Rmult_integral in E. destruct E as [E|E]; [lra|].
  assert (0 < / 180) by (apply Rinv_0_lt_compat; lra). lra.
Qed.

(** ** Non-degenerate inputs give an invertible construction matrix *)

Lemma prod8_neq0 (a b c d e f g h : R) :
  a <> 0 -> b <> 0 -> c <> 0 -> d <> 0 -> e <> 0 -> f <> 0 -> g <> 0 -> h <> 0 ->
  a * b * c * d * e * f * g * h <> 0.
Proof.
  intros.
  repeat (apply Rmult_integral_contrapositive_currified; [|assumption]); assumption.
Qed.

Lemma coeff_pos (lz n : R) : 0 < lz -> 0 < n -> 0 < 2 * PI * n / lz.
Proof.
  intros Hl Hn. unfold Rdiv. apply Rmult_lt_0_compat.
  - apply Rmult_lt_0_compat; [exact two_pi_pos | exact Hn].
  - apply Rinv_0_lt_compat; exact Hl.
Qed.

Lemma branch_factor_neq0 bl r g o i :
  branch_defined bl r = true ->
  (r = Some Outofplane -> 0 < sin o) ->
  (r = Some Inplane -> 0 < sin i /\ 0 < cos o /\ 0 < cos g) ->
  branch_factor bl r g o i <> 0.
Proof.
  intros Hdef Hout Hin.
  destruct r as [[|]|]; [specialize (Hout eq_refl) | destruct (Hin eq_refl) as (H1 & H2 & H3) |];
  destruct bl; cbn in *; try discriminate;
  try lra;
  (assert (0 < sin i * cos o * cos g)
     by (apply Rmult_lt_0_compat; [apply Rmult_lt_0_compat|]; assumption); lra).
Qed.

Lemma mymatrix_nonsingular s nbz nby nbx e d x y o i g t :
  branch_defined (beamline s) (rocking_angle s) = true ->
  energy s = Some e -> 0 < e -> distance s = Some d -> 0 < d -> 0 < x -> 0 < y ->
  (0 < nbz)%Z -> (0 < nby)%Z -> (0 < nbx)%Z -> t <> 0 ->
  outofplane_angle s = Some o -> inplane_angle s = Some i -> grazing_angle s = Some g ->
  (rocking_angle s = Some Outofplane -> 0 < o < 180) ->
  (rocking_angle s = Some Inplane -> -90 < o < 90 /\ 0 < i < 180 /\ -90 < g < 90) ->
  exists m, build_matrix s (nbz, nby, nbx) (Some t) (Some x) (Some y) = Ok m /\ det3 m <> 0.
Proof.
  intros Hdef He Hepos Hd Hdpos Hx Hy Hz Hyy Hxx Ht Ho Hi Hg Hout Hin.
  eexists; split; [apply build_matrix_ok; eassumption|].
  rewrite det_mymatrix.
  assert (Hw : 0 < 12.398 * 1e-7 / e) by (apply Rdiv_lt_0_compat; lra).
  assert (Hlz : 0 < 12.398 * 1e-7 / e * 1e9 * (d * 1e9)).
  { apply Rmult_lt_0_compat; apply Rmult_lt_0_compat; lra. }
  apply IZR_lt in Hz, Hyy, Hxx.
  apply prod8_neq0.
  - apply Rgt_not_eq, coeff_pos; assumption.
  - apply Rgt_not_eq, coeff_pos; assumption.
  - apply Rgt_not_eq, coeff_pos; assumption.
  - lra.
  - lra.
  - apply radians_neq0; exact Ht.
  - lra.
  - apply branch_factor_neq0; [exact Hdef | |].
    + intros Hr. apply radians_sin_pos, Hout, Hr.
    + intros Hr. destruct (Hin Hr) as (H1 & H2 & H3).
      split; [apply radians_sin_pos | split; apply radians_cos_pos]; assumption.
Qed.

Lemma update_coords_nonsingular s nbz nby nbx e d x y o i g t :
  branch_defined (beamline s) (rocking_angle s) = true ->
  energy s = Some e -> 0 < e -> distance s = Some d -> 0 < d -> 0 < x -> 0 < y ->
  (0 < nbz)%Z -> (0 < nby)%Z -> (0 < nbx)%Z -> t <> 0 ->
  outofplane_angle s = Some o -> inplane_angle s = Some i -> grazing_angle s = Some g ->
  (rocking_angle s = Some Outofplane -> 0 < o < 180) ->
  (rocking_angle s = Some Inplane -> -90 < o < 90 /\ 0 < i < 180 /\ -90 < g < 90) ->
  exists T, update_coords s (nbz, nby, nbx) (Some t) (Some x) (Some y) = Ok T /\ det3 T <> 0.
Proof.
  intros.
  destruct (mymatrix_nonsingular s nbz nby nbx e d x y o i g t) as (m & Hm & Hdet);
    try assumption.
  destruct (two_pi_inv_transpose_involutive m Hdet) as (T & HT & HdT & _).
  exists T. unfold update_coords. rewrite Hm. cbn. split; assumption.
Qed.

(** ** The validating setters and the constructor *)

Lemma set_strictly_positive_pos r : 0 < r -> set_strictly_positive (PyNum r) = Ok (Some r).
Proof. intros H. cbn. destruct (Rle_dec r 0); [lra | reflexivity]. Qed.

Lemma set_strictly_positive_nonpos r : r <= 0 -> set_strictly_positive (PyNum r) = Err ValueError.
Proof. intros H. cbn. destruct (Rle_dec r 0); [reflexivity | lra]. Qed.

Lemma set_strictly_positive_some v e : set_strictly_positive v = Ok (Some e) -> 0 < e.
Proof.
  destruct v; cbn; try discriminate.
  destruct (Rle_dec r 0); intros H; inversion H; subst; lra.
Qed.

Lemma set_beam_direction_x :
  set_beam_direction (PySeq [PyNum 1; PyNum 0; PyNum 0]) = Ok (1, 0, 0).
Proof.
  unfold set_beam_direction, norm3.
  replace (1 * 1 + 0 * 0 + 0 * 0) with 1 by ring. rewrite sqrt_1.
  destruct (Req_EM_T 1 0); [lra|]. f_equal. f_equal; [f_equal|]; field.
Qed.

Lemma set_beam_direction_zero :
  set_beam_direction (PySeq [PyNum 0; PyNum 0; PyNum 0]) = Err ValueError.
Proof.
  unfold set_beam_direction, norm3.
  replace (0 * 0 + 0 * 0 + 0 * 0) with 0 by ring. rewrite sqrt_0.
  destruct (Req_EM_T 0 0); [reflexivity | lra].
Qed.

Ltac peel H :=
  repeat match type of H with
         | bind _ _ = Ok _ =>
             let a := fresh "a" in let Ha := fresh "Ha" in
             apply bind_Ok_inv in H; destruct H as (a & Ha & H)
         end.

Lemma Setup_init_inv bl bd en di oo ii ti ro pxv pyv s :
  Setup_init bl bd en di oo ii ti ro pxv pyv = Ok s ->
  grazing_angle s = None /\ (forall e, energy s = Some e -> 0 < e).
Proof.
  intros H. unfold Setup_init in H. peel H.
  inversion H; subst; cbn. split; [reflexivity|].
  intros e He; subst. eapply set_strictly_positive_some; eassumption.
Qed.

(** ** Reading the absent [grazing_angle] attribute *)

Lemma update_coords_no_grazing s shape tilt px py :
  grazing_angle s = None ->
  (forall T, update_coords s shape tilt px py <> Ok T) /\
  (wavelength s <> None -> distance s <> None -> px <> None -> py <> None ->
   outofplane_angle s <> None -> inplane_angle s <> None ->
   update_coords s shape tilt px py = Err AttributeError).
Proof.
  intros Hg. unfold update_coords, build_matrix, read_grazing_angle. rewrite Hg.
  destruct (wavelength s), (distance s), px, py, (outofplane_angle s), (inplane_angle s);
    cbn; split; try discriminate; intros; try reflexivity; congruence.
Qed.

Lemma Setup_init_id01_scenario :
  Setup_init "ID01" (PySeq [PyNum 1; PyNum 0; PyNum 0]) (PyNum 8800) (PyNum 7.25)
    (PyNum 0) (PyNum 7.248) (PyNum 0.01) (PyStr "inplane") (PyNum 110e-6) (PyNum 110e-6)
  = Ok (mkSetup ID01 (1, 0, 0) (Some 8800) (Some 7.25) (Some 0) (Some 7.248) (Some 0.01)
          (Some Inplane) (Some 110e-6) (Some 110e-6) None).
Proof.
  unfold Setup_init, set_energy, set_distance, set_pixel_x, set_pixel_y.
  rewrite set_beam_direction_x.
  rewrite !set_strictly_positive_pos by lra. reflexivity.
Qed.

Lemma voxel_sizes_not_ok_of_update_coords s shape tilt px py :
  (forall T, update_coords s shape tilt px py <> Ok T) ->
  forall v, voxel_sizes s shape tilt px py <> Ok v.
Proof.
  intros HT v H. unfold voxel_sizes in H.
  apply bind_Ok_inv in H. destruct H as (T & H & _). exact (HT T H).
Qed.

(* ================================================================== *)
(** * The claims *)

(** C10: for each of the seven beamlines [detector_ver] is ['z-'], so
    [outofplane_coeff] is the constant [+1] and never returns [-1]. *)
Theorem outofplane_coeff_always_one :
  forall s : Setup, detector_ver s = Z_minus /\ outofplane_coeff s = 1%Z.
Proof. intros s. unfold outofplane_coeff, detector_ver. destruct (beamline s); auto. Qed.

(** C6 (as the code has it): assigning an energy, a distance or a pixel
    size [<= 0] raises [ValueError] in the setter itself, so the
    constructor stops there; a [beam_direction] of [(0, 0, 0)] raises
    [ValueError] as well. *)
Theorem setters_reject_nonpositive :
  forall (r : R), r <= 0 ->
  set_energy (PyNum r) = Err ValueError /\ set_distance (PyNum r) = Err ValueError /\
  set_pixel_x (PyNum r) = Err ValueError /\ set_pixel_y (PyNum r) = Err ValueError /\
  (forall bl bd di oo ii ti ro pxv pyv,
     (exists b, set_beamline bl = Ok b) -> (exists d, set_beam_direction bd = Ok d) ->
     Setup_init bl bd (PyNum r) di oo ii ti ro pxv pyv = Err ValueError) /\
  set_beam_direction (PySeq [PyNum 0; PyNum 0; PyNum 0]) = Err ValueError.
Proof.
  intros r Hr. unfold set_energy, set_distance, set_pixel_x, set_pixel_y.
  rewrite set_strictly_positive_nonpos by exact Hr.
  split; [reflexivity|]. split; [reflexivity|]. split; [reflexivity|].
  split; [reflexivity|]. split; [|exact set_beam_direction_zero].
  intros bl bd di oo ii ti ro pxv pyv [b Hb] [d Hd].
  unfold Setup_init, set_energy. rewrite Hb, Hd.
  rewrite set_strictly_positive_nonpos by exact Hr. reflexivity.
Qed.

Lemma setters_reject_nonpositive_witness :
  -1 <= 0 /\ set_energy (PyNum (-1)) = Err ValueError /\
  Setup_init "ID01" (PySeq [PyNum 1; PyNum 0; PyNum 0]) (PyNum (-1)) PyNone PyNone PyNone
    PyNone PyNone PyNone PyNone = Err ValueError.
Proof.
  assert (H : -1 <= 0) by lra. split; [exact H|].
  destruct (setters_reject_nonpositive (-1) H) as (He & _ & _ & _ & Hi & _).
  split; [exact He|]. apply Hi.
  - exists ID01. reflexivity.
  - exists (1, 0, 0). exact set_beam_direction_x.
Defined.

(** C6 counterexample: the exception raised for [energy = 0] is the
    builtin [ValueError]; the code has no [InvalidParameterError]. *)
Lemma setters_reject_nonpositive_counterexample :
  set_energy (PyNum 0) = Err ValueError.
Proof.
  unfold set_energy. rewrite set_strictly_positive_nonpos by lra. reflexivity.
Qed.

(** C2 (as the code has it): on an instance built by the constructor, which
    never assigns [grazing_angle], no call to [update_coords] returns: it
    raises [AttributeError] when the energy, distance, pixel sizes and
    both detector angles are numbers, and [TypeError] before that when one
    of them is [None].
    [voxel_sizes], [orthogonalize], [detector_frame] and
    [orthogonalize_vector] go through it and never return either. *)
Theorem update_coords_never_returns :
  forall bl bd en di oo ii ti ro pxv pyv s,
  Setup_init bl bd en di oo ii ti ro pxv pyv = Ok s ->
  (forall shape tilt px py T, update_coords s shape tilt px py <> Ok T) /\
  (forall shape tilt px py,
     energy s <> None -> distance s <> None -> px <> None -> py <> None ->
     outofplane_angle s <> None -> inplane_angle s <> None ->
     update_coords s shape tilt px py = Err AttributeError) /\
  (forall shape tilt px py,
     energy s = None \/ distance s = None \/ px = None \/ py = None \/
     outofplane_angle s = None \/ inplane_angle s = None ->
     update_coords s shape tilt px py = Err TypeError) /\
  (forall shape tilt px py v, voxel_sizes s shape tilt px py <> Ok v) /\
  (forall obj ish vsz r, orthogonalize s obj ish vsz <> Ok r) /\
  (forall obj vsz r, detector_frame s obj vsz <> Ok r) /\
  (forall vec shape tilt px py r, orthogonalize_vector s vec shape tilt px py <> Ok r).
Proof.
  intros bl bd en di oo ii ti ro pxv pyv s Hs.
  destruct (Setup_init_inv _ _ _ _ _ _ _ _ _ _ _ Hs) as [Hg Hen].
  assert (HT : forall shape tilt px py T, update_coords s shape tilt px py <> Ok T).
  { intros shape tilt px py. exact (proj1 (update_coords_no_grazing s shape tilt px py Hg)). }
  assert (HV : forall shape tilt px py v, voxel_sizes s shape tilt px py <> Ok v).
  { intros shape tilt px py. apply voxel_sizes_not_ok_of_update_coords, HT. }
  split; [exact HT|]. split.
  { intros shape tilt px py He Hd Hx Hy Ho Hi.
    apply (proj2 (update_coords_no_grazing s shape tilt px py Hg)); try assumption.
    destruct (energy s) as [e|] eqn:E; [|congruence].
    rewrite (wavelength_pos s e E (Hen e eq_refl)). discriminate. }
  split.
  { intros shape tilt px py Hn. unfold update_coords, build_matrix, wavelength.
    destruct (energy s) as [e|] eqn:E; [|reflexivity].
    destruct (Req_EM_T e 0); [reflexivity|]. cbn [py_scale_1e9 bind].
    destruct (distance s) eqn:D; [|reflexivity]. cbn [py_scale_1e9 bind].
    destruct px eqn:X; [|reflexivity]. cbn [py_scale_1e9 bind].
    destruct py eqn:Y; [|reflexivity]. cbn [py_scale_1e9 bind].
    destruct (outofplane_angle s) eqn:O; [|reflexivity]. cbn [py_radians bind].
    destruct (inplane_angle s) eqn:I; [|reflexivity].
    exfalso. destruct Hn as [H|[H|[H|[H|[H|H]]]]]; discriminate H. }
  split; [exact HV|]. split; [|split].
  - intros obj ish vsz r H. unfold orthogonalize in H. cbv zeta in H.
    apply bind_Ok_inv in H. destruct H as (t & _ & H). cbv beta in H.
    apply bind_Ok_inv in H. destruct H as (v & Hv & _). exact (HV _ _ _ _ _ Hv).
  - intros obj vsz r H. unfold detector_frame in H.
    apply bind_Ok_inv in H. destruct H as (v & _ & H). cbv beta zeta in H.
    apply bind_Ok_inv in H. destruct H as (T & HT' & _). exact (HT _ _ _ _ _ HT').
  - intros vec shape tilt px py r H. unfold orthogonalize_vector in H.
    apply bind_Ok_inv in H. destruct H as (T & HT' & _). exact (HT _ _ _ _ _ HT').
Qed.

Lemma update_coords_never_returns_witness :
  Setup_init "ID01" (PySeq [PyNum 1; PyNum 0; PyNum 0]) (PyNum 8800) (PyNum 7.25)
    (PyNum 0) (PyNum 7.248) (PyNum 0.01) (PyStr "inplane") (PyNum 110e-6) (PyNum 110e-6)
  = Ok (mkSetup ID01 (1, 0, 0) (Some 8800) (Some 7.25) (Some 0) (Some 7.248) (Some 0.01)
          (Some Inplane) (Some 110e-6) (Some 110e-6) None) /\
  update_coords (mkSetup ID01 (1, 0, 0) (Some 8800) (Some 7.25) (Some 0) (Some 7.248)
                   (Some 0.01) (Some Inplane) (Some 110e-6) (Some 110e-6) None)
    (41, 256, 256)%Z (Some 0.01) (Some 110e-6) (Some 110e-6) = Err AttributeError /\
  exists s,
    Setup_init "ID01" (PySeq [PyNum 1; PyNum 0; PyNum 0]) PyNone PyNone PyNone PyNone
      PyNone PyNone PyNone PyNone = Ok s /\
    update_coords s (41, 256, 256)%Z (Some 0.01) (Some 110e-6) (Some 110e-6) = Err TypeError.
Proof.
  split; [exact Setup_init_id01_scenario|]. split.
  - apply (update_coords_never_returns "ID01" (PySeq [PyNum 1; PyNum 0; PyNum 0])
             (PyNum 8800) (PyNum 7.25) (PyNum 0) (PyNum 7.248) (PyNum 0.01) (PyStr "inplane")
             (PyNum 110e-6) (PyNum 110e-6) _ Setup_init_id01_scenario);
      cbn; discriminate.
  - assert (Hs : Setup_init "ID01" (PySeq [PyNum 1; PyNum 0; PyNum 0]) PyNone PyNone PyNone
                   PyNone PyNone PyNone PyNone PyNone
                 = Ok (mkSetup ID01 (1, 0, 0) None None None None None None None None None)).
    { unfold Setup_init. rewrite set_beam_direction_x. reflexivity. }
    exists (mkSetup ID01 (1, 0, 0) None None None None None None None None None).
    split; [exact Hs|].
    apply (proj1 (proj2 (proj2 (update_coords_never_returns _ _ _ _ _ _ _ _ _ _ _ Hs)))).
    left. reflexivity.
Defined.

(** C2 counterexample: the default instance [Setup('ID01')] has
    [energy = None], so [self.wavelength * 1e9] raises [TypeError] before
    [grazing_angle] is read: not every instance raises [AttributeError]. *)
Lemma update_coords_never_returns_counterexample :
  exists s,
  Setup_init "ID01" (PySeq [PyNum 1; PyNum 0; PyNum 0]) PyNone PyNone PyNone PyNone
    PyNone PyNone PyNone PyNone = Ok s /\
  update_coords s (1, 1, 1)%Z None None None = Err TypeError.
Proof.
  eexists. split.
  - unfold Setup_init. rewrite set_beam_direction_x. reflexivity.
  - reflexivity.
Qed.

(** C1 (fails in the code): the spec's ID01 scenario does not return three
    voxel sizes. The constructor succeeds, then [voxel_sizes] raises
    [AttributeError] when [update_coords] reads [self.grazing_angle]. *)
Theorem voxel_sizes_id01_scenario :
  exists s,
  Setup_init "ID01" (PySeq [PyNum 1; PyNum 0; PyNum 0]) (PyNum 8800) (PyNum 7.25)
    (PyNum 0) (PyNum 7.248) (PyNum 0.01) (PyStr "inplane") (PyNum 110e-6) (PyNum 110e-6)
  = Ok s /\
  voxel_sizes s (41, 256, 256)%Z (Some 0.01) (Some 110e-6) (Some 110e-6) = Err AttributeError.
Proof.
  eexists. split; [exact Setup_init_id01_scenario|].
  unfold voxel_sizes.
  match goal with
  | |- bind (update_coords ?s ?sh ?t ?x ?y) _ = _ =>
      destruct (update_coords_no_grazing s sh t x y eq_refl) as [_ H];
      rewrite (wavelength_pos s 8800 eq_refl) in H by lra;
      rewrite H by discriminate; reflexivity
  end.
Qed.

Lemma det3_zeros3 : det3 zeros3 = 0.
Proof. unfold det3, zeros3; cbn; ring. Qed.

Lemma build_matrix_cristal_inplane :
  build_matrix setup_cristal_inplane (41, 256, 256)%Z (Some 0.01) (Some 110e-6) (Some 110e-6)
  = Ok zeros3.
Proof.
  rewrite (build_matrix_ok setup_cristal_inplane 41 256 256 8800 7.25 110e-6 110e-6
             0 7.248 0 0.01) by (reflexivity || lra).
  rewrite mymatrix_undefined; reflexivity.
Qed.

(** C3 (as the code has it): when the beamline has no formula for the
    rocking angle (CRISTAL with ['inplane'], SIXS with ['outofplane'], or no
    rocking angle), no branch assigns [mymatrix], which stays
    [np.zeros((3, 3))]; [update_coords] then fails in [np.linalg.inv] with
    [LinAlgError]. *)
Theorem undefined_branch_singular :
  forall s shape tilt px py m,
  branch_defined (beamline s) (rocking_angle s) = false ->
  build_matrix s shape tilt px py = Ok m ->
  m = zeros3 /\ update_coords s shape tilt px py = Err LinAlgError.
Proof.
  intros s [[nbz nby] nbx] tilt px py m Hdef Hb.
  assert (Hm : m = zeros3).
  { unfold build_matrix in Hb.
    repeat (apply bind_Ok_inv in Hb; destruct Hb as (? & _ & Hb); cbv beta zeta iota in Hb).
    injection Hb as <-. apply mymatrix_undefined, Hdef. }
  split; [exact Hm|]. subst m.
  unfold update_coords. rewrite Hb. cbn.
  apply two_pi_inv_transpose_singular, det3_zeros3.
Qed.

Lemma undefined_branch_singular_witness :
  exists m,
  branch_defined (beamline setup_cristal_inplane) (rocking_angle setup_cristal_inplane) = false /\
  build_matrix setup_cristal_inplane (41, 256, 256)%Z (Some 0.01) (Some 110e-6) (Some 110e-6)
  = Ok m /\
  m = zeros3 /\
  update_coords setup_cristal_inplane (41, 256, 256)%Z (Some 0.01) (Some 110e-6) (Some 110e-6)
  = Err LinAlgError.
Proof.
  exists zeros3. split; [reflexivity|]. split; [exact build_matrix_cristal_inplane|].
  apply (undefined_branch_singular setup_cristal_inplane (41, 256, 256)%Z (Some 0.01)
           (Some 110e-6) (Some 110e-6) zeros3); [reflexivity | exact build_matrix_cristal_inplane].
Defined.

(** C3 counterexample: [Setup('CRISTAL', ..., rocking_angle='inplane')]
    raises [AttributeError] in [update_coords] (the unassigned
    [grazing_angle]); once [grazing_angle] is assigned, the same geometry
    raises [LinAlgError]. Neither is a dedicated unsupported-mode error. *)
Lemma undefined_branch_singular_counterexample :
  (exists s,
   Setup_init "CRISTAL" (PySeq [PyNum 1; PyNum 0; PyNum 0]) (PyNum 8800) (PyNum 7.25)
     (PyNum 0) (PyNum 7.248) (PyNum 0.01) (PyStr "inplane") (PyNum 110e-6) (PyNum 110e-6)
   = Ok s /\
   update_coords s (41, 256, 256)%Z (Some 0.01) (Some 110e-6) (Some 110e-6) = Err AttributeError) /\
  update_coords setup_cristal_inplane (41, 256, 256)%Z (Some 0.01) (Some 110e-6) (Some 110e-6)
  = Err LinAlgError.
Proof.
  split.
  - eexists. split.
    + unfold Setup_init, set_energy, set_distance, set_pixel_x, set_pixel_y.
      rewrite set_beam_direction_x, !set_strictly_positive_pos by lra. reflexivity.
    + match goal with
      | |- update_coords ?s ?sh ?t ?x ?y = _ =>
          destruct (update_coords_no_grazing s sh t x y eq_refl) as [_ H];
          rewrite (wavelength_pos s 8800 eq_refl) in H by lra;
          apply H; discriminate
      end.
  - unfold update_coords. rewrite build_matrix_cristal_inplane. cbn.
    apply two_pi_inv_transpose_singular, det3_zeros3.
Qed.

Lemma update_coords_Ok_inv s shape tilt px py T :
  update_coords s shape tilt px py = Ok T ->
  exists m, build_matrix s shape tilt px py = Ok m /\ two_pi_inv_transpose m = Ok T.
Proof. intros H. unfold update_coords in H. apply bind_Ok_inv in H. exact H. Qed.

Lemma id01_grazing0_nonsingular :
  exists T, update_coords setup_id01_grazing0 (41, 256, 256)%Z (Some 0.01) (Some 110e-6)
              (Some 110e-6) = Ok T /\ det3 T <> 0.
Proof.
  apply (update_coords_nonsingular setup_id01_grazing0 41 256 256 8800 7.25 110e-6 110e-6
           0 7.248 0 0.01); try reflexivity; try lia; try lra; intros H; try discriminate; lra.
Qed.

(** C4: [X |-> 2 pi inv(X)^T] is an involution on invertible matrices; so
    when [voxel_sizes] returns, its [rec_matrix] is the construction matrix
    [mymatrix] of [update_coords], the voxel sizes are [2 pi] over the norms
    of rows 2, 1 and 0 of [mymatrix], and recomputing the transfer matrix
    from [mymatrix] and the voxel sizes from it gives back the same
    transfer matrix and the same voxel sizes. *)
Theorem voxel_sizes_round_trip :
  (forall m T, det3 m <> 0 -> two_pi_inv_transpose m = Ok T ->
     det3 T <> 0 /\ two_pi_inv_transpose T = Ok m) /\
  (forall s shape tilt px py v,
     voxel_sizes s shape tilt px py = Ok v ->
     exists m T,
       build_matrix s shape tilt px py = Ok m /\ det3 m <> 0 /\
       update_coords s shape tilt px py = Ok T /\ two_pi_inv_transpose T = Ok m /\
       v = (2 * PI / norm3 (a20 m) (a21 m) (a22 m),
            2 * PI / norm3 (a10 m) (a11 m) (a12 m),
            2 * PI / norm3 (a00 m) (a01 m) (a02 m)) /\
       (forall T', two_pi_inv_transpose m = Ok T' ->
          T' = T /\ voxel_sizes_of_transfer T' = Ok v)).
Proof.
  split.
  - intros m T Hd HT.
    destruct (two_pi_inv_transpose_involutive m Hd) as (T0 & H0 & Hd0 & Hback).
    rewrite HT in H0. injection H0 as <-. split; assumption.
  - intros s shape tilt px py v Hv.
    unfold voxel_sizes in Hv. apply bind_Ok_inv in Hv. destruct Hv as (T & HT & Hv).
    destruct (update_coords_Ok_inv _ _ _ _ _ _ HT) as (m & Hm & HmT).
    pose proof (two_pi_inv_transpose_det _ _ HmT) as Hd.
    destruct (two_pi_inv_transpose_involutive m Hd) as (T0 & H0 & _ & Hback).
    rewrite HmT in H0. injection H0 as <-.
    exists m, T. split; [exact Hm|]. split; [exact Hd|]. split; [exact HT|].
    split; [exact Hback|].
    assert (Hvm : v = (2 * PI / norm3 (a20 m) (a21 m) (a22 m),
                       2 * PI / norm3 (a10 m) (a11 m) (a12 m),
                       2 * PI / norm3 (a00 m) (a01 m) (a02 m))).
    { unfold voxel_sizes_of_transfer in Hv. rewrite Hback in Hv. cbn in Hv.
      injection Hv as <-. reflexivity. }
    split; [exact Hvm|].
    intros T' HT'. rewrite HmT in HT'. injection HT' as <-. split; [reflexivity | exact Hv].
Qed.

Lemma voxel_sizes_round_trip_witness :
  (exists T, two_pi_inv_transpose (M3 1 0 0 0 1 0 0 0 1) = Ok T /\
     det3 T <> 0 /\ two_pi_inv_transpose T = Ok (M3 1 0 0 0 1 0 0 0 1)) /\
  (exists v, voxel_sizes setup_id01_grazing0 (41, 256, 256)%Z (Some 0.01) (Some 110e-6)
               (Some 110e-6) = Ok v /\
     exists m T,
       build_matrix setup_id01_grazing0 (41, 256, 256)%Z (Some 0.01) (Some 110e-6)
         (Some 110e-6) = Ok m /\
       update_coords setup_id01_grazing0 (41, 256, 256)%Z (Some 0.01) (Some 110e-6)
         (Some 110e-6) = Ok T /\ two_pi_inv_transpose T = Ok m /\
       v = (2 * PI / norm3 (a20 m) (a21 m) (a22 m),
            2 * PI / norm3 (a10 m) (a11 m) (a12 m),
            2 * PI / norm3 (a00 m) (a01 m) (a02 m))).
Proof.
  destruct voxel_sizes_round_trip as [Hinv Hvox].
  split.
  - assert (Hd : det3 (M3 1 0 0 0 1 0 0 0 1) <> 0) by (unfold det3; cbn; lra).
    destruct (two_pi_inv_transpose_involutive _ Hd) as (T & HT & _).
    exists T. split; [exact HT|]. exact (Hinv _ _ Hd HT).
  - destruct id01_grazing0_nonsingular as (T & HT & HdT).
    destruct (two_pi_inv_transpose_involutive T HdT) as (R0 & HR0 & _).
    assert (Hv : voxel_sizes setup_id01_grazing0 (41, 256, 256)%Z (Some 0.01) (Some 110e-6)
                   (Some 110e-6) = Ok (2 * PI / norm3 (a20 R0) (a21 R0) (a22 R0),
                                       2 * PI / norm3 (a10 R0) (a11 R0) (a12 R0),
                                       2 * PI / norm3 (a00 R0) (a01 R0) (a02 R0))).
    { unfold voxel_sizes. rewrite HT. cbn. unfold voxel_sizes_of_transfer. rewrite HR0.
      reflexivity. }
    eexists. split; [exact Hv|].
    destruct (Hvox _ _ _ _ _ _ Hv) as (m & T' & Hm & _ & HT' & Hback & Heq & _).
    exists m, T'. split; [exact Hm|]. split; [exact HT'|]. split; [exact Hback | exact Heq].
Defined.

(** C5: for each beamline and each rocking angle the beamline defines,
    the construction matrix has a non-zero determinant when the energy,
    distance, pixel sizes and array shape are positive, the tilt is
    non-zero, and the angles are non-degenerate: [0 < outofplane < 180] for
    ['outofplane']; for ['inplane'], [0 < inplane < 180] and
    [-90 < outofplane, grazing_angle < 90] (grazing angle zero or not).
    The inversion in [update_coords] then succeeds. *)
Theorem construction_matrix_nonsingular :
  forall s nbz nby nbx e d x y o i g t,
  branch_defined (beamline s) (rocking_angle s) = true ->
  energy s = Some e -> 0 < e -> distance s = Some d -> 0 < d -> 0 < x -> 0 < y ->
  (0 < nbz)%Z -> (0 < nby)%Z -> (0 < nbx)%Z -> t <> 0 ->
  outofplane_angle s = Some o -> inplane_angle s = Some i -> grazing_angle s = Some g ->
  (rocking_angle s = Some Outofplane -> 0 < o < 180) ->
  (rocking_angle s = Some Inplane -> -90 < o < 90 /\ 0 < i < 180 /\ -90 < g < 90) ->
  exists m T,
    build_matrix s (nbz, nby, nbx) (Some t) (Some x) (Some y) = Ok m /\ det3 m <> 0 /\
    two_pi_inv_transpose m = Ok T /\
    update_coords s (nbz, nby, nbx) (Some t) (Some x) (Some y) = Ok T.
Proof.
  intros s nbz nby nbx e d x y o i g t Hdef He Hepos Hd Hdpos Hx Hy Hz Hyy Hxx Ht Ho Hi Hg
    Hout Hin.
  destruct (mymatrix_nonsingular s nbz nby nbx e d x y o i g t) as (m & Hm & Hdet);
    try assumption.
  destruct (two_pi_inv_transpose_involutive m Hdet) as (T & HT & _).
  exists m, T. split; [exact Hm|]. split; [exact Hdet|]. split; [exact HT|].
  unfold update_coords. rewrite Hm. exact HT.
Qed.

Lemma construction_matrix_nonsingular_witness :
  exists m T,
    build_matrix setup_id01_grazing0 (41, 256, 256)%Z (Some 0.01) (Some 110e-6) (Some 110e-6)
    = Ok m /\ det3 m <> 0 /\ two_pi_inv_transpose m = Ok T /\
    update_coords setup_id01_grazing0 (41, 256, 256)%Z (Some 0.01) (Some 110e-6) (Some 110e-6)
    = Ok T.
Proof.
  apply (construction_matrix_nonsingular setup_id01_grazing0 41 256 256 8800 7.25 110e-6
           110e-6 0 7.248 0 0.01);
    try reflexivity; try lia; try lra; intros H; try discriminate; lra.
Defined.

Lemma centered_arange_span (n : Z) : (n / 2 - (- n) / 2 = n)%Z.
Proof. Z.div_mod_to_equations. lia. Qed.

(** C7 (as the code has it): both methods build each axis with
    [np.arange(-n // 2, n // 2)], that is the [n] consecutive integers from
    [(-n) // 2 = -((n + 1) // 2)]: [-(n // 2)] for even [n] but
    [-(n // 2) - 1] for odd [n]. [orthogonalize] scales the meshgrid axes
    by the voxel size and interpolates on the unscaled ones;
    [detector_frame] does the reverse with the same two grids. *)
Theorem centered_grid_convention :
  (forall n : Z, (0 <= n)%Z ->
     centered_arange n = arange ((- n) / 2) ((- n) / 2 + n) /\
     List.length (centered_arange n) = Z.to_nat n /\
     ((- n) / 2 = - ((n + 1) / 2))%Z /\
     (Z.even n = true -> (- n) / 2 = - (n / 2))%Z /\
     (Z.odd n = true -> (- n) / 2 = - (n / 2) - 1)%Z) /\
  (forall (nbz nby nbx : Z) (vz vy vx : R),
     ortho_rgi_axes (nbz, nby, nbx)
     = (map IZR (centered_arange nbz), map IZR (centered_arange nby),
        map IZR (centered_arange nbx)) /\
     ortho_mesh_axes (nbz, nby, nbx) (vz, vy, vx)
     = (map (fun k => IZR k * vz) (centered_arange nbz),
        map (fun k => IZR k * vy) (centered_arange nby),
        map (fun k => IZR k * vx) (centered_arange nbx)) /\
     detframe_mesh_axes (nbz, nby, nbx) = ortho_rgi_axes (nbz, nby, nbx) /\
     detframe_rgi_axes (nbz, nby, nbx) (vz, vy, vx) = ortho_mesh_axes (nbz, nby, nbx) (vz, vy, vx)).
Proof.
  split.
  - intros n Hn. pose proof (centered_arange_span n) as Hspan.
    split; [unfold centered_arange; f_equal; lia|].
    split; [unfold centered_arange, arange; rewrite length_map, length_seq; f_equal; lia|].
    split; [Z.div_mod_to_equations; lia|].
    split.
    + intros He. apply Z.even_spec in He. destruct He as [k ->].
      Z.div_mod_to_equations; lia.
    + intros Ho. apply Z.odd_spec in Ho. destruct Ho as [k ->].
      Z.div_mod_to_equations; lia.
  - intros. repeat split.
Qed.

Lemma centered_grid_convention_witness :
  (0 <= 5)%Z /\ centered_arange 5 = arange (-3) 2 /\ List.length (centered_arange 5) = 5%nat.
Proof.
  assert (H : (0 <= 5)%Z) by lia. split; [exact H|].
  destruct (proj1 centered_grid_convention 5%Z H) as (H1 & H2 & _).
  split; [exact H1 | exact H2].
Defined.

(** C7 counterexample: for [n = 5] the grid starts at [-3], not at
    [-(5 // 2) = -2]; for [n = 1] it is [[-1]], not [[0]]. *)
Lemma centered_grid_convention_counterexample :
  centered_arange 5 = [-3; -2; -1; 0; 1]%Z /\ (- (5 / 2) = -2)%Z /\
  centered_arange 1 = [-1]%Z /\ (- (1 / 2) = 0)%Z.
Proof. vm_compute. repeat split. Qed.

Lemma length_arange a b : List.length (arange a b) = Z.to_nat (b - a).
Proof. unfold arange. rewrite length_map, length_seq. reflexivity. Qed.

Lemma length_centered_arange n : List.length (centered_arange n) = Z.to_nat n.
Proof. unfold centered_arange. rewrite length_arange, centered_arange_span. reflexivity. Qed.

Lemma length_meshgrid_ij az ay ax :
  List.length (meshgrid_ij (az, ay, ax))
  = (List.length az * List.length ay * List.length ax)%nat.
Proof.
  unfold meshgrid_ij.
  induction az as [|z az IH]; [reflexivity|]. cbn.
  rewrite length_app, IH.
  assert (Hz : List.length (flat_map (fun y => map (fun x => (z, y, x)) ax) ay)
               = (List.length ay * List.length ax)%nat).
  { clear IH. induction ay as [|y ay IHy]; [reflexivity|]. cbn.
    rewrite length_app, length_map, IHy. reflexivity. }
  rewrite Hz. lia.
Qed.

Lemma cast_value_idem dt v : cast_value dt (cast_value dt v) = cast_value dt v.
Proof. destruct dt; reflexivity. Qed.

Lemma cast_value_czero dt : cast_value dt czero = czero.
Proof. destruct dt; reflexivity. Qed.

Lemma orthogonalize_Ok_inv s nbz nby nbx dt dat ish vsz o voxel :
  orthogonalize s (mkArray3 (nbz, nby, nbx) dt dat) ish vsz = Ok (o, voxel) ->
  exists tilt px py T imatrix,
    update_coords s (nbz, nby, nbx) tilt px py = Ok T /\ inv3 T = Ok imatrix /\
    o = reshape_astype (nbz, nby, nbx) dt
          (rgi_linear_fill0 (ortho_rgi_axes (nbz, nby, nbx)) dat
             (map (map_node imatrix) (meshgrid_ij (ortho_mesh_axes (nbz, nby, nbx) voxel)))).
Proof.
  intros H. unfold orthogonalize in H. cbn [shape3 dtype data3] in H.
  cbv beta zeta iota in H.
  destruct (match ish with Some sh => sh | None => (nbz, nby, nbx) end) as [[s0 s1] s2].
  apply bind_Ok_inv in H; destruct H as (abs_tilt & _ & H). cbv beta iota in H.
  apply bind_Ok_inv in H; destruct H as (vs0 & _ & H). cbv beta iota in H.
  apply bind_Ok_inv in H; destruct H as ([[[vs tilt] px] py] & _ & H). cbv beta iota in H.
  apply bind_Ok_inv in H; destruct H as (voxel' & _ & H). cbv beta in H.
  apply bind_Ok_inv in H; destruct H as (T & HT & H). cbv beta in H.
  apply bind_Ok_inv in H; destruct H as (im & Him & H). cbv beta zeta in H.
  injection H as <- <-.
  exists tilt, px, py, T, im. split; [exact HT|]. split; [exact Him|]. reflexivity.
Qed.

Lemma inv3_nonsingular m : det3 m <> 0 -> exists i, inv3 m = Ok i.
Proof.
  intros Hd. unfold inv3. destruct (Req_EM_T (det3 m) 0); [contradiction|]. eexists; reflexivity.
Qed.

Lemma voxel_sizes_of_nonsingular s shape tilt px py T :
  update_coords s shape tilt px py = Ok T -> det3 T <> 0 ->
  exists v, voxel_sizes s shape tilt px py = Ok v.
Proof.
  intros HT Hd. destruct (two_pi_inv_transpose_involutive T Hd) as (R0 & HR0 & _).
  eexists. unfold voxel_sizes. rewrite HT. cbn. unfold voxel_sizes_of_transfer. rewrite HR0.
  reflexivity.
Qed.

Lemma id01_grazing0_2x2x2_nonsingular :
  exists T, update_coords setup_id01_grazing0 (2, 2, 2)%Z (Some 0.01) (Some 110e-6)
              (Some 110e-6) = Ok T /\ det3 T <> 0.
Proof.
  apply (update_coords_nonsingular setup_id01_grazing0 2 2 2 8800 7.25 110e-6 110e-6
           0 7.248 0 0.01); try reflexivity; try lia; try lra; intros H; try discriminate; lra.
Qed.

Lemma orthogonalize_id01_2x2x2 :
  exists r, orthogonalize setup_id01_grazing0 obj_2x2x2 None None = Ok r.
Proof.
  destruct id01_grazing0_2x2x2_nonsingular as (T & HT & Hd).
  destruct (voxel_sizes_of_nonsingular _ _ _ _ _ _ HT Hd) as (v & Hv).
  destruct (inv3_nonsingular T Hd) as (im & Him).
  eexists. unfold orthogonalize. cbn [shape3 obj_2x2x2 tilt_angle setup_id01_grazing0 py_abs bind].
  replace (Rabs 0.01) with 0.01 by (rewrite Rabs_right; lra).
  replace (pixel_x setup_id01_grazing0) with (Some 110e-6) by reflexivity.
  replace (pixel_y setup_id01_grazing0) with (Some 110e-6) by reflexivity.
  rewrite Hv. cbn [bind Z.eqb negb andb Pos.eqb].
  rewrite HT. cbn [bind]. rewrite Him. reflexivity.
Qed.

(** C8: when [orthogonalize] returns [(ortho_obj, voxel_size)], the array
    [ortho_obj] has the shape and the element type of [obj], one value per
    grid point, every value already cast to that type (a real array keeps a
    zero imaginary part), and it is the fill-0 linear interpolation of
    [obj] at the query points obtained from the inverse transfer matrix:
    every query point outside the source grid gives the value 0, and the
    interpolation raises no error. *)
Theorem orthogonalize_shape_dtype_fill :
  forall s obj ish vsz ortho_obj voxel_size,
  orthogonalize s obj ish vsz = Ok (ortho_obj, voxel_size) ->
  shape3 ortho_obj = shape3 obj /\ dtype ortho_obj = dtype obj /\
  (let '(nbz, nby, nbx) := shape3 obj in
   List.length (data3 ortho_obj) = (Z.to_nat nbz * Z.to_nat nby * Z.to_nat nbx)%nat) /\
  (forall k v, nth_error (data3 ortho_obj) k = Some v -> cast_value (dtype obj) v = v) /\
  exists tilt px py T imatrix,
    update_coords s (shape3 obj) tilt px py = Ok T /\ inv3 T = Ok imatrix /\
    let points := map (map_node imatrix) (meshgrid_ij (ortho_mesh_axes (shape3 obj) voxel_size)) in
    data3 ortho_obj
    = map (cast_value (dtype obj)) (rgi_linear_fill0 (ortho_rgi_axes (shape3 obj)) (data3 obj) points) /\
    (forall k p, nth_error points k = Some p ->
       out_of_bounds (ortho_rgi_axes (shape3 obj)) p = true ->
       nth_error (data3 ortho_obj) k = Some czero).
Proof.
  intros s [[[nbz nby] nbx] dt dat] ish vsz o voxel H.
  destruct (orthogonalize_Ok_inv _ _ _ _ _ _ _ _ _ _ H) as (tilt & px & py & T & im & HT & Him & ->).
  cbn [shape3 dtype data3 reshape_astype].
  destruct voxel as [[vz vy] vx].
  split; [reflexivity|]. split; [reflexivity|]. split.
  { unfold rgi_linear_fill0. rewrite !length_map.
    unfold ortho_mesh_axes. rewrite length_meshgrid_ij, !length_map, !length_arange,
      !centered_arange_span. reflexivity. }
  split.
  { intros k v Hk. rewrite nth_error_map in Hk.
    destruct (nth_error _ k) as [w|] eqn:E; cbn in Hk; [|discriminate].
    injection Hk as <-. apply cast_value_idem. }
  exists tilt, px, py, T, im. split; [exact HT|]. split; [exact Him|]. cbv zeta.
  split; [reflexivity|].
  intros k p Hp Hout. unfold rgi_linear_fill0. do 2 rewrite nth_error_map. rewrite Hp. cbn [option_map].
  rewrite Hout. rewrite cast_value_czero. reflexivity.
Qed.

Lemma orthogonalize_shape_dtype_fill_witness :
  exists ortho_obj voxel_size,
  orthogonalize setup_id01_grazing0 obj_2x2x2 None None = Ok (ortho_obj, voxel_size) /\
  shape3 ortho_obj = (2, 2, 2)%Z /\ dtype ortho_obj = DReal /\
  List.length (data3 ortho_obj) = 8%nat.
Proof.
  destruct orthogonalize_id01_2x2x2 as ([o v] & H).
  exists o, v. split; [exact H|].
  destruct (orthogonalize_shape_dtype_fill _ _ _ _ _ _ H) as (Hs & Hd & Hl & _).
  split; [exact Hs|]. split; [exact Hd|]. exact Hl.
Defined.

(** ** The gap table of [Detector.mask_detector] *)

Open Scope Z_scope.

Lemma setitem_Ok_inv a ir ic v a' :
  setitem a ir ic v = Ok a' ->
  exists r c, subscript_range ir (nrows a) = Ok r /\ subscript_range ic (ncols a) = Ok c /\
    a' = mkArr2 (nrows a) (ncols a)
           (fun i j => if in_range r i && in_range c j then v else item a i j).
Proof.
  unfold setitem. intros H.
  apply bind_Ok_inv in H. destruct H as (r & Hr & H).
  apply bind_Ok_inv in H. destruct H as (c & Hc & H).
  injection H as <-. exists r, c. auto.
Qed.

Lemma setitem_keep a ir ic v a' i j :
  setitem a ir ic v = Ok a' -> item a i j = v -> item a' i j = v.
Proof.
  intros H Hv. destruct (setitem_Ok_inv _ _ _ _ _ H) as (r & c & _ & _ & ->). cbn.
  destruct (in_range r i && in_range c j); auto.
Qed.

Lemma setitem_hit a ir ic v a' r c i j :
  setitem a ir ic v = Ok a' ->
  subscript_range ir (nrows a) = Ok r -> subscript_range ic (ncols a) = Ok c ->
  in_range r i = true -> in_range c j = true -> item a' i j = v.
Proof.
  intros H Hr Hc Hi Hj. destruct (setitem_Ok_inv _ _ _ _ _ H) as (r' & c' & Hr' & Hc' & ->).
  rewrite Hr in Hr'. rewrite Hc in Hc'. injection Hr' as <-. injection Hc' as <-.
  cbn. rewrite Hi, Hj. reflexivity.
Qed.

Lemma setitem_shape a ir ic v a' :
  setitem a ir ic v = Ok a' -> nrows a' = nrows a /\ ncols a' = ncols a.
Proof.
  intros H. destruct (setitem_Ok_inv _ _ _ _ _ H) as (r & c & _ & _ & ->). auto.
Qed.

Lemma in_range_intro lo hi i : lo <= i < hi -> in_range (lo, hi) i = true.
Proof.
  intros H. unfold in_range. cbn. apply andb_true_intro.
  split; [apply Z.leb_le | apply Z.ltb_lt]; lia.
Qed.

Lemma setwhere_keep a cond v i j : item a i j = v -> item (setwhere a cond v) i j = v.
Proof. intros H. cbn. destruct (cond i j); auto. Qed.

(** Carry a value [v] at one position forward through the assignments
    [a[...] = v] that follow. *)
Ltac carry :=
  repeat match goal with
         | Hv : item ?a ?i ?j = ?v, H : setitem ?a _ _ ?v = Ok ?b |- _ =>
             pose proof (setitem_keep _ _ _ _ _ i j H Hv); clear H
         end.

(** Carry the shape of an array through the assignments. *)
Ltac carry_shape :=
  repeat match goal with
         | Hn : nrows ?a = ?n, Hc : ncols ?a = ?m, H : setitem ?a _ _ _ = Ok ?b |- _ =>
             lazymatch goal with
             | _ : nrows b = _ |- _ => fail
             | _ => destruct (setitem_shape _ _ _ _ _ H) as [?Hn ?Hc];
                    rewrite Hn in *; rewrite Hc in *
             end
         end.

Lemma mask_detector_eiger2m_eq data mask nb :
  same_shape data mask = true ->
  mask_detector "Eiger2M" data mask nb None None None
  = (d1 <- eiger2m_data data ;; m1 <- eiger2m_mask mask ;; Ok (mask_hot d1 m1 (1000000 * nb)%Q)).
Proof. intros H. unfold mask_detector. rewrite H. reflexivity. Qed.

Lemma mask_detector_eiger2m_inv f g nb d m :
  mask_detector "Eiger2M" (mkArr2 2164 1030 f) (mkArr2 2164 1030 g) nb None None None
  = Ok (d, m) ->
  exists d1 m1,
    eiger2m_data (mkArr2 2164 1030 f) = Ok d1 /\ eiger2m_mask (mkArr2 2164 1030 g) = Ok m1 /\
    d = setwhere d1 (gt_mask d1 (1000000 * nb)%Q) 0%Q /\
    m = setwhere m1 (gt_mask d1 (1000000 * nb)%Q) 1%Q.
Proof.
  intros H. rewrite mask_detector_eiger2m_eq in H by reflexivity.
  apply bind_Ok_inv in H. destruct H as (d1 & Hd & H).
  apply bind_Ok_inv in H. destruct H as (m1 & Hm & H).
  unfold mask_hot in H. injection H as Hd' Hm'. exists d1, m1. auto.
Qed.

(** After the Eiger2M table, column 256 and row 256 hold 0 in the data
    and 1 in the mask. *)
Lemma eiger2m_data_col_row_256 f d1 :
  eiger2m_data (mkArr2 2164 1030 f) = Ok d1 ->
  (forall i, 0 <= i < 2164 -> item d1 i 256 = 0%Q) /\
  (forall j, 0 <= j < 1030 -> item d1 256 j = 0%Q).
Proof.
  unfold eiger2m_data. intros H. peel H. split.
  - intros i Hi.
    match goal with
    | H1 : setitem (mkArr2 2164 1030 f) _ _ _ = Ok ?a1 |- _ =>
        pose proof (setitem_hit _ _ _ _ _ (0, 2164) (255, 259) i 256 H1 eq_refl eq_refl
                      (in_range_intro _ _ _ Hi) eq_refl)
    end.
    carry. assumption.
  - intros j Hj.
    pose proof (eq_refl : nrows (mkArr2 2164 1030 f) = 2164) as Hn0.
    pose proof (eq_refl : ncols (mkArr2 2164 1030 f) = 1030) as Hc0.
    carry_shape.
    match goal with
    | H5 : setitem ?a4 (Sl (Some 255) (Some 259)) (Sl all_ all_) _ = Ok _,
      Hn : nrows ?a4 = _, Hc : ncols ?a4 = _ |- _ =>
        pose proof (setitem_hit _ _ _ _ _ (255, 259) (0, 1030) 256 j H5
                      ltac:(rewrite Hn; reflexivity) ltac:(rewrite Hc; reflexivity)
                      eq_refl (in_range_intro _ _ _ Hj))
    end.
    carry. assumption.
Qed.

Lemma eiger2m_mask_col_row_256 g m1 :
  eiger2m_mask (mkArr2 2164 1030 g) = Ok m1 ->
  (forall i, 0 <= i < 2164 -> item m1 i 256 = 1%Q) /\
  (forall j, 0 <= j < 1030 -> item m1 256 j = 1%Q) /\
  (forall j, 0 <= j < 1030 -> item m1 520 j = 1%Q).
Proof.
  unfold eiger2m_mask. intros H. peel H.
  pose proof (eq_refl : nrows (mkArr2 2164 1030 g) = 2164) as Hn0.
  pose proof (eq_refl : ncols (mkArr2 2164 1030 g) = 1030) as Hc0.
  carry_shape. split; [|split].
  - intros i Hi.
    match goal with
    | H1 : setitem (mkArr2 2164 1030 g) _ _ _ = Ok ?a1 |- _ =>
        pose proof (setitem_hit _ _ _ _ _ (0, 2164) (255, 259) i 256 H1 eq_refl eq_refl
                      (in_range_intro _ _ _ Hi) eq_refl)
    end.
    carry. assumption.
  - intros j Hj.
    match goal with
    | H5 : setitem ?a4 (Sl (Some 255) (Some 259)) (Sl all_ all_) _ = Ok _,
      Hn : nrows ?a4 = _, Hc : ncols ?a4 = _ |- _ =>
        pose proof (setitem_hit _ _ _ _ _ (255, 259) (0, 1030) 256 j H5
                      ltac:(rewrite Hn; reflexivity) ltac:(rewrite Hc; reflexivity)
                      eq_refl (in_range_intro _ _ _ Hj))
    end.
    carry. assumption.
  - intros j Hj.
    match goal with
    | H6 : setitem ?a5 (Sl (Some 511) (Some 552)) (Sl all_ all_) _ = Ok _,
      Hn : nrows ?a5 = _, Hc : ncols ?a5 = _ |- _ =>
        pose proof (setitem_hit _ _ _ _ _ (511, 552) (0, 1030) 520 j H6
                      ltac:(rewrite Hn; reflexivity) ltac:(rewrite Hc; reflexivity)
                      eq_refl (in_range_intro _ _ _ Hj))
    end.
    carry. assumption.
Qed.

(** C9 (fails in the code): on the full Eiger2M shape, column 256 and
    row 256 do end with mask 1 and data 0 for any input, and the mask is 1
    on rows 511 to 551; but the data assignment for those rows is
    [data[511: 552, :0] = 0], an empty column slice, so the data there keep
    their values: with data 5 everywhere, [data[520, 100]] stays 5 while
    [mask[520, 100]] is 1. *)
Theorem eiger2m_gap_rows_511_552 :
  (forall f g nb d m,
     mask_detector "Eiger2M" (mkArr2 2164 1030 f) (mkArr2 2164 1030 g) nb None None None
     = Ok (d, m) ->
     (forall i, 0 <= i < 2164 -> item m i 256 = 1%Q /\ item d i 256 = 0%Q) /\
     (forall j, 0 <= j < 1030 -> item m 256 j = 1%Q /\ item d 256 j = 0%Q) /\
     (forall j, 0 <= j < 1030 -> item m 520 j = 1%Q)) /\
  (exists d m,
     mask_detector "Eiger2M" (eiger2m_const 5) (eiger2m_const 0) 1 None None None
     = Ok (d, m) /\
     (item m 520 100 == 1)%Q /\ (item d 520 100 == 5)%Q).
Proof.
  split.
  - intros f g nb d m H.
    destruct (mask_detector_eiger2m_inv _ _ _ _ _ H) as (d1 & m1 & Hd & Hm & -> & ->).
    destruct (eiger2m_data_col_row_256 _ _ Hd) as (Hdc & Hdr).
    destruct (eiger2m_mask_col_row_256 _ _ Hm) as (Hmc & Hmr & Hm520).
    split; [|split].
    + intros i Hi. split; apply setwhere_keep; auto.
    + intros j Hj. split; apply setwhere_keep; auto.
    + intros j Hj. apply setwhere_keep; auto.
  - assert (Hc : match mask_detector "Eiger2M" (eiger2m_const 5) (eiger2m_const 0) 1
                         None None None with
                 | Ok (d, m) => Qeq_bool (item m 520 100) 1 && Qeq_bool (item d 520 100) 5
                 | Err _ => false
                 end = true) by (vm_compute; reflexivity).
    revert Hc.
    destruct (mask_detector "Eiger2M" (eiger2m_const 5) (eiger2m_const 0) 1 None None None)
      as [[d m]|e]; [|discriminate].
    intros Hc. apply andb_prop in Hc. destruct Hc as [H1 H2].
    exists d, m. split; [reflexivity|].
    split; apply Qeq_bool_iff; assumption.
Qed.

Lemma eiger2m_gap_rows_511_552_witness :
  exists d m,
    mask_detector "Eiger2M" (eiger2m_const 5) (eiger2m_const 0) 1 None None None = Ok (d, m) /\
    item m 3 256 = 1%Q /\ item d 3 256 = 0%Q /\ item m 256 3 = 1%Q /\ item d 256 3 = 0%Q /\
    item m 520 100 = 1%Q /\ (item d 520 100 == 5)%Q.
Proof.
  destruct eiger2m_gap_rows_511_552 as [Hall (d & m & E & _ & H5)].
  exists d, m. split; [exact E|].
  destruct (Hall (fun _ _ => 5%Q) (fun _ _ => 0%Q) 1%Q d m E) as (Hc & Hr & H520).
  destruct (Hc 3 ltac:(lia)) as [Hc1 Hc2]. destruct (Hr 3 ltac:(lia)) as [Hr1 Hr2].
  repeat split; try assumption. apply H520. lia.
Defined.

Close Scope Z_scope.

(* ================================================================== *)
(** * Further properties of the code *)

(* ------------------------------------------------------------------ *)
(** ** The [beam_direction] setter *)

Lemma norm3_scale_pos k u v w : 0 < k -> norm3 (k * u) (k * v) (k * w) = k * norm3 u v w.
Proof.
  intros Hk. unfold norm3.
  replace (k * u * (k * u) + k * v * (k * v) + k * w * (k * w))
    with ((k * k) * (u * u + v * v + w * w)) by ring.
  rewrite sqrt_mult_alt by nra. rewrite sqrt_square by lra. reflexivity.
Qed.

Lemma norm3_sqr u v w : norm3 u v w * norm3 u v w = u * u + v * v + w * w.
Proof. unfold norm3. apply sqrt_sqrt. nra. Qed.

Lemma set_beam_direction_Ok_inv value a b c :
  set_beam_direction value = Ok (a, b, c) ->
  exists u v w, value = PySeq [PyNum u; PyNum v; PyNum w] /\ norm3 u v w <> 0 /\
    a = u / norm3 u v w /\ b = v / norm3 u v w /\ c = w / norm3 u v w.
Proof.
  unfold set_beam_direction. intros H.
  destruct value as [| | |l|]; try discriminate.
  destruct l as [|[|u| | |] l]; try discriminate.
  destruct l as [|[|v| | |] l]; try discriminate.
  destruct l as [|[|w| | |] l]; try discriminate.
  destruct l; try discriminate.
  destruct (Req_EM_T (norm3 u v w) 0); [discriminate|].
  injection H as <- <- <-. exists u, v, w. auto.
Qed.

(** X1: the [beam_direction] setter stores the normalised vector, so scaling the three components by any positive factor stores the same direction (and a zero vector is rejected in both cases). *)
Theorem beam_direction_scale_invariant k u v w :
  0 < k ->
  set_beam_direction (PySeq [PyNum (k * u); PyNum (k * v); PyNum (k * w)])
  = set_beam_direction (PySeq [PyNum u; PyNum v; PyNum w]).
Proof.
  intros Hk. unfold set_beam_direction. rewrite norm3_scale_pos by exact Hk.
  destruct (Req_EM_T (k * norm3 u v w) 0) as [E|E];
    destruct (Req_EM_T (norm3 u v w) 0) as [F|F].
  - reflexivity.
  - exfalso. apply F. apply Rmult_integral in E. destruct E; [lra | assumption].
  - exfalso. apply E. rewrite F. ring.
  - f_equal. f_equal; [f_equal|]; field; split; lra.
Qed.

Lemma beam_direction_scale_invariant_witness :
  0 < 2 /\
  set_beam_direction (PySeq [PyNum (2 * 3); PyNum (2 * 0); PyNum (2 * 4)])
  = set_beam_direction (PySeq [PyNum 3; PyNum 0; PyNum 4]).
Proof. split; [lra | apply beam_direction_scale_invariant; lra]. Defined.

(* ------------------------------------------------------------------ *)
(** ** The constructor, [exit_wavevector] and [inplane_coeff] *)

Lemma set_beam_direction_unit value a b c :
  set_beam_direction value = Ok (a, b, c) -> norm3 a b c = 1.
Proof.
  intros H. destruct (set_beam_direction_Ok_inv _ _ _ _ H) as (u & v & w & _ & Hn & -> & -> & ->).
  pose proof (norm3_sqr u v w) as Hs.
  unfold norm3 at 1.
  replace (u / norm3 u v w * (u / norm3 u v w) + v / norm3 u v w * (v / norm3 u v w)
           + w / norm3 u v w * (w / norm3 u v w))
    with ((u * u + v * v + w * w) / (norm3 u v w * norm3 u v w)) by (field; exact Hn).
  rewrite <- Hs. unfold Rdiv. rewrite Rinv_r by (intro H0; apply Hn; nra).
  apply sqrt_1.
Qed.

Lemma set_strictly_positive_Ok v x :
  set_strictly_positive v = Ok x -> forall r, x = Some r -> 0 < r.
Proof. intros H r ->. exact (set_strictly_positive_some _ _ H). Qed.

(** X2: a successfully constructed [Setup] has a unit [beam_direction] (and a unit [beam_direction_xrutils]); its energy, distance and pixel sizes are positive when present; its [wavelength] is present exactly when the energy is, and is then positive. *)
Theorem Setup_init_invariants bl bd en di oo ii ti ro pxv pyv s :
  Setup_init bl bd en di oo ii ti ro pxv pyv = Ok s ->
  (let '(u, v, w) := beam_direction s in norm3 u v w = 1) /\
  (let '(x, y, z) := beam_direction_xrutils s in norm3 x y z = 1) /\
  (forall e, energy s = Some e -> 0 < e) /\ (forall d, distance s = Some d -> 0 < d) /\
  (forall p, pixel_x s = Some p -> 0 < p) /\ (forall p, pixel_y s = Some p -> 0 < p) /\
  (wavelength s = None <-> energy s = None) /\
  (forall w, wavelength s = Some w -> 0 < w).
Proof.
  intros H. unfold Setup_init in H. peel H. injection H as <-.
  unfold beam_direction_xrutils. cbn [beam_direction energy distance pixel_x pixel_y grazing_angle].
  destruct a0 as [[u v] w].
  pose proof (set_beam_direction_unit _ _ _ _ Ha0) as Hu.
  unfold set_energy, set_distance, set_pixel_x, set_pixel_y in *.
  pose proof (set_strictly_positive_Ok _ _ Ha1) as He.
  split; [exact Hu|]. split.
  { unfold norm3 in *. rewrite <- Hu. f_equal. ring. }
  split; [exact He|]. split; [exact (set_strictly_positive_Ok _ _ Ha2)|].
  split; [exact (set_strictly_positive_Ok _ _ Ha7)|].
  split; [exact (set_strictly_positive_Ok _ _ Ha8)|].
  unfold wavelength. cbn [energy].
  destruct a1 as [e|].
  - pose proof (He e eq_refl) as Hp.
    destruct (Req_EM_T e 0); [lra|].
    split; [split; discriminate|].
    intros w' Hw. injection Hw as <-. apply Rdiv_lt_0_compat; lra.
  - split; [tauto|]. discriminate.
Qed.

(** ** Exit wavevector *)

Lemma py_some_Ok x v : py_some x = Ok v -> x = Some v.
Proof. destruct x; cbn; intros H; [injection H as ->; reflexivity | discriminate]. Qed.

(** X3: when [exit_wavevector] returns [kout], the wavelength is defined and the norm of [kout] is [|2 pi / wavelength|], for every beamline and all angles. *)
Theorem exit_wavevector_norm s kz ky kx :
  exit_wavevector s = Ok (kz, ky, kx) ->
  exists w, wavelength s = Some w /\ norm3 kz ky kx = Rabs (2 * PI / w).
Proof.
  unfold exit_wavevector. intros H. peel H.
  exists a. split; [exact (py_some_Ok _ _ Ha)|].
  set (k := 2 * PI / a) in *.
  set (i := PI * a0 / 180) in *. set (o := PI * a1 / 180) in *.
  assert (Hn : forall sx, sx * sx = sin i * sin i ->
     norm3 (k * (cos i * cos o)) (k * sin o) (k * (sx * cos o)) = Rabs k).
  { intros sx Hsx. unfold norm3. rewrite <- sqrt_Rsqr_abs. f_equal. unfold Rsqr.
    pose proof (sin2_cos2 i) as Hi. pose proof (sin2_cos2 o) as Ho. unfold Rsqr in Hi, Ho.
    nsatz. }
  destruct (beamline s); injection H as <- <- <-; apply Hn; ring.
Qed.

(** ** In-plane coefficient *)

(** X4: [inplane_coeff] is +1 for SIXS_2018, SIXS_2019 and CRISTAL and -1 for ID01, 34ID, P10 and NANOMAX. *)
Theorem inplane_coeff_table s :
  (inplane_coeff s = 1%Z /\
   (beamline s = SIXS_2018 \/ beamline s = SIXS_2019 \/ beamline s = CRISTAL)) \/
  (inplane_coeff s = (-1)%Z /\
   (beamline s = ID01 \/ beamline s = B34ID \/ beamline s = P10 \/ beamline s = NANOMAX)).
Proof.
  unfold inplane_coeff, detector_hor.
  destruct (beamline s); [right|left|left|right|right|left|right]; split; auto; tauto.
Qed.

Lemma Setup_init_invariants_witness :
  exists s,
    Setup_init "ID01" (PySeq [PyNum 1; PyNum 0; PyNum 0]) (PyNum 8800) (PyNum 7.25)
      (PyNum 0) (PyNum 7.248) (PyNum 0.01) (PyStr "inplane") (PyNum 110e-6) (PyNum 110e-6)
    = Ok s /\
    (forall w, wavelength s = Some w -> 0 < w).
Proof.
  eexists. split; [exact Setup_init_id01_scenario|].
  exact (proj2 (proj2 (proj2 (proj2 (proj2 (proj2 (proj2
    (Setup_init_invariants _ _ _ _ _ _ _ _ _ _ _ Setup_init_id01_scenario)))))))).
Defined.

Lemma exit_wavevector_id01 : exists k, exit_wavevector setup_id01_grazing0 = Ok k.
Proof.
  unfold exit_wavevector. rewrite (wavelength_pos setup_id01_grazing0 8800) by (reflexivity || lra).
  eexists. reflexivity.
Qed.

Lemma exit_wavevector_norm_witness :
  exists kz ky kx, exit_wavevector setup_id01_grazing0 = Ok (kz, ky, kx) /\
    exists w, wavelength setup_id01_grazing0 = Some w /\ norm3 kz ky kx = Rabs (2 * PI / w).
Proof.
  destruct exit_wavevector_id01 as ([[kz ky] kx] & H). exists kz, ky, kx.
  split; [exact H|]. exact (exit_wavevector_norm _ _ _ _ H).
Defined.

(* ------------------------------------------------------------------ *)
(** ** [voxel_sizes_detector], [orthogonalize], [orthogonalize_vector] and [detector_frame] *)

Lemma py_fdiv_ok a b : b <> 0 -> py_fdiv a b = Ok (a / b).
Proof. intros Hb. unfold py_fdiv. destruct (Req_EM_T b 0); [contradiction | reflexivity]. Qed.

(** X5: with a positive energy and distance, positive array lengths, a non-zero tilt and positive pixel sizes, [voxel_sizes_detector] returns three positive sizes, and the same sizes for the tilt [-tilt]. *)
Theorem voxel_sizes_detector_pos s n0 n1 n2 e d t px py :
  energy s = Some e -> 0 < e -> distance s = Some d -> 0 < d ->
  (0 < n0)%Z -> (0 < n1)%Z -> (0 < n2)%Z -> t <> 0 -> 0 < px -> 0 < py ->
  exists vz vy vx,
    voxel_sizes_detector s (n0, n1, n2) (Some t) (Some px) (Some py) = Ok (vz, vy, vx) /\
    0 < vz /\ 0 < vy /\ 0 < vx /\
    voxel_sizes_detector s (n0, n1, n2) (Some (- t)) (Some px) (Some py) = Ok (vz, vy, vx).
Proof.
  intros He Hep Hd Hdp H0 H1 H2 Ht Hpx Hpy.
  apply IZR_lt in H0, H1, H2.
  pose proof PI_RGT_0 as Hpi.
  pose proof (Rabs_pos_lt t Ht) as Hat.
  set (w := 12.398 * 1e-7 / e).
  assert (Hw : 0 < w) by (unfold w; apply Rdiv_lt_0_compat; lra).
  assert (Hz : 0 < IZR n0 * Rabs t * PI / 180).
  { apply Rdiv_lt_0_compat; [|lra]. apply Rmult_lt_0_compat; [|lra]. nra. }
  assert (Hy : 0 < IZR n1 * py) by nra.
  assert (Hx : 0 < IZR n2 * px) by nra.
  assert (E : forall t', Rabs t' = Rabs t ->
    voxel_sizes_detector s (n0, n1, n2) (Some t') (Some px) (Some py)
    = Ok (w / (IZR n0 * Rabs t * PI / 180) * 1e9, w * d / (IZR n1 * py) * 1e9,
          w * d / (IZR n2 * px) * 1e9)).
  { intros t' Ht'. unfold voxel_sizes_detector. cbn [py_some bind].
    rewrite (wavelength_pos s e He Hep). fold w. cbn [py_some bind].
    rewrite Ht'. rewrite py_fdiv_ok by lra. cbn [bind]. rewrite Hd. cbn [py_some bind].
    rewrite py_fdiv_ok by lra. cbn [bind]. rewrite py_fdiv_ok by lra. reflexivity. }
  do 3 eexists. split; [apply E; reflexivity|].
  split; [apply Rmult_lt_0_compat; [apply Rdiv_lt_0_compat|]; lra|].
  split; [apply Rmult_lt_0_compat; [apply Rdiv_lt_0_compat|]; nra|].
  split; [apply Rmult_lt_0_compat; [apply Rdiv_lt_0_compat|]; nra|].
  apply E. apply Rabs_Ropp.
Qed.

Lemma voxel_sizes_detector_pos_witness :
  exists vz vy vx,
    voxel_sizes_detector setup_id01_grazing0 (2, 2, 2)%Z (Some 0.01) (Some 110e-6) (Some 110e-6)
    = Ok (vz, vy, vx) /\ 0 < vz /\ 0 < vy /\ 0 < vx /\
    voxel_sizes_detector setup_id01_grazing0 (2, 2, 2)%Z (Some (- (0.01))) (Some 110e-6)
      (Some 110e-6) = Ok (vz, vy, vx).
Proof.
  apply (voxel_sizes_detector_pos setup_id01_grazing0 2 2 2 8800 7.25 0.01 110e-6 110e-6);
    try reflexivity; try lia; lra.
Defined.

(** ** Shape rescaling in [orthogonalize] *)

Section Rescale.
Variables (nz ny nx s0 s1 s2 t px py : R).
Hypotheses (Hnz : nz <> 0) (Hny : ny <> 0) (Hnx : nx <> 0).

Lemma mymatrix_of_rescaled rocking g o i d lz bl :
  mymatrix_of rocking g o i (radians (t * s0 / nz)) d lz (px * s2 / nx * 1e9)
    (py * s1 / ny * 1e9) nz ny nx bl
  = mymatrix_of rocking g o i (radians t) d lz (px * 1e9) (py * 1e9) s0 s1 s2 bl.
Proof.
  destruct rocking as [[|]|]; destruct bl;
    cbn [mymatrix_of block_ID01 block_P10 block_NANOMAX block_34ID block_SIXS block_CRISTAL
         set_col zeros3 a00 a01 a02 a10 a11 a12 a20 a21 a22];
    repeat match goal with |- context [Req_EM_T ?a ?b] => destruct (Req_EM_T a b) end;
    cbn [set_col a00 a01 a02 a10 a11 a12 a20 a21 a22];
    unfold cx, cy, cz, radians, Rdiv; generalize (/ lz); intros il;
    first [reflexivity | f_equal; field; auto].
Qed.
End Rescale.

Lemma build_matrix_rescaled s s0 s1 s2 nbz nby nbx t px py :
  (nbz <> 0)%Z -> (nby <> 0)%Z -> (nbx <> 0)%Z ->
  build_matrix s (nbz, nby, nbx) (Some (t * IZR s0 / IZR nbz)) (Some (px * IZR s2 / IZR nbx))
    (Some (py * IZR s1 / IZR nby))
  = build_matrix s (s0, s1, s2) (Some t) (Some px) (Some py).
Proof.
  intros Hz Hy Hx. apply not_0_IZR in Hz, Hy, Hx.
  unfold build_matrix. cbn [py_scale_1e9 py_radians bind].
  destruct (wavelength s), (distance s), (outofplane_angle s), (inplane_angle s);
    cbn [py_scale_1e9 py_radians bind]; try reflexivity.
  destruct (read_grazing_angle s); cbn [bind]; [|reflexivity].
  rewrite mymatrix_of_rescaled by assumption. reflexivity.
Qed.

Lemma Rabs_rescale t s0 nbz :
  (0 < nbz)%Z -> (0 <= s0)%Z -> Rabs (t * IZR s0 / IZR nbz) = Rabs t * IZR s0 / IZR nbz.
Proof.
  intros Hz Hs. apply IZR_lt in Hz. apply IZR_le in Hs.
  unfold Rdiv. rewrite !Rabs_mult, Rabs_inv, (Rabs_right (IZR s0)), (Rabs_right (IZR nbz))
    by lra. reflexivity.
Qed.

(** [orthogonalize] rescales [tilt], [pixel_y], [pixel_x] by [s0 / nbz],
    [s1 / nby], [s2 / nbx] when the object was cropped. *)
(** X6: [update_coords] and [voxel_sizes] on the shape [(nbz, nby, nbx)] with the tilt and pixel sizes rescaled by [s0/nbz], [s2/nbx], [s1/nby] (what [orthogonalize] does for a cropped object) give the same transfer matrix and voxel sizes as on the initial shape [(s0, s1, s2)]. *)
Theorem rescaled_geometry_invariant s s0 s1 s2 nbz nby nbx t px py :
  (0 < nbz)%Z -> (0 < nby)%Z -> (0 < nbx)%Z -> (0 <= s0)%Z ->
  update_coords s (nbz, nby, nbx) (Some (t * IZR s0 / IZR nbz)) (Some (px * IZR s2 / IZR nbx))
    (Some (py * IZR s1 / IZR nby))
  = update_coords s (s0, s1, s2) (Some t) (Some px) (Some py) /\
  voxel_sizes s (nbz, nby, nbx) (Some (Rabs (t * IZR s0 / IZR nbz)))
    (Some (px * IZR s2 / IZR nbx)) (Some (py * IZR s1 / IZR nby))
  = voxel_sizes s (s0, s1, s2) (Some (Rabs t)) (Some px) (Some py).
Proof.
  intros Hz Hy Hx Hs. split.
  - unfold update_coords. rewrite build_matrix_rescaled by lia. reflexivity.
  - unfold voxel_sizes, update_coords. rewrite Rabs_rescale by assumption.
    rewrite build_matrix_rescaled by lia. reflexivity.
Qed.

Lemma rescaled_geometry_invariant_witness :
  (0 < 4)%Z /\ (0 < 4)%Z /\ (0 < 4)%Z /\ (0 <= 2)%Z /\
  update_coords setup_id01_grazing0 (4, 4, 4)%Z (Some (0.01 * IZR 2 / IZR 4))
    (Some (110e-6 * IZR 2 / IZR 4)) (Some (110e-6 * IZR 2 / IZR 4))
  = update_coords setup_id01_grazing0 (2, 2, 2)%Z (Some 0.01) (Some 110e-6) (Some 110e-6) /\
  voxel_sizes setup_id01_grazing0 (4, 4, 4)%Z (Some (Rabs (0.01 * IZR 2 / IZR 4)))
    (Some (110e-6 * IZR 2 / IZR 4)) (Some (110e-6 * IZR 2 / IZR 4))
  = voxel_sizes setup_id01_grazing0 (2, 2, 2)%Z (Some (Rabs 0.01)) (Some 110e-6) (Some 110e-6).
Proof.
  split; [lia|]. split; [lia|]. split; [lia|]. split; [lia|].
  apply rescaled_geometry_invariant; lia.
Defined.

Lemma voxel_sizes_rescaled s s0 s1 s2 nbz nby nbx t px py :
  (0 < nbz)%Z -> (0 < nby)%Z -> (0 < nbx)%Z -> (0 <= s0)%Z ->
  voxel_sizes s (nbz, nby, nbx) (Some (Rabs (t * IZR s0 / IZR nbz)))
    (Some (px * IZR s2 / IZR nbx)) (Some (py * IZR s1 / IZR nby))
  = voxel_sizes s (s0, s1, s2) (Some (Rabs t)) (Some px) (Some py).
Proof.
  intros Hz Hy Hx Hs. unfold voxel_sizes, update_coords. rewrite Rabs_rescale by assumption.
  rewrite build_matrix_rescaled by lia. reflexivity.
Qed.

(** X7: when [orthogonalize] is called without [voxel_size], the voxel size it returns is [voxel_sizes] of the initial shape with [|tilt_angle|] and the setup's pixel sizes, whether or not the object was cropped. *)
Theorem orthogonalize_default_voxel_size s obj ish o v :
  orthogonalize s obj ish None = Ok (o, v) ->
  (let '(nbz, nby, nbx) := shape3 obj in (0 < nbz /\ 0 < nby /\ 0 < nbx)%Z) ->
  (let '(s0, _, _) := match ish with Some sh => sh | None => shape3 obj end in (0 <= s0)%Z) ->
  exists t, tilt_angle s = Some t /\
    voxel_sizes s (match ish with Some sh => sh | None => shape3 obj end)
      (Some (Rabs t)) (pixel_x s) (pixel_y s) = Ok v.
Proof.
  destruct obj as [[[nbz nby] nbx] dt dat]. cbn [shape3].
  destruct (match ish with Some sh => sh | None => (nbz, nby, nbx) end) as [[s0 s1] s2] eqn:Esh.
  intros H (Hz & Hy & Hx) Hs.
  unfold orthogonalize in H. cbn [shape3 dtype data3] in H. cbv zeta in H. rewrite Esh in H.
  apply bind_Ok_inv in H; destruct H as (abs_tilt & Habs & H). cbv beta in H.
  destruct (tilt_angle s) as [t|] eqn:Et; cbn in Habs; [|discriminate].
  injection Habs as <-. exists t. split; [reflexivity|].
  apply bind_Ok_inv in H; destruct H as (vs0 & Hvs0 & H). cbv beta iota in H.
  apply bind_Ok_inv in H; destruct H as ([[[vs tilt] px'] py'] & Hp & H). cbv beta iota in H.
  apply bind_Ok_inv in H; destruct H as (voxel' & Hv & H). cbv beta in H.
  injection Hv as <-.
  apply bind_Ok_inv in H; destruct H as (T & _ & H). cbv beta in H.
  apply bind_Ok_inv in H; destruct H as (im & _ & H). cbv beta zeta in H.
  injection H as _ <-.
  destruct (negb ((nbz =? s0)%Z && (nby =? s1)%Z && (nbx =? s2)%Z)).
  - cbn [bind] in Hp.
    unfold py_div_int in Hp.
    destruct (Z.eqb_spec nbz 0); [lia|]. cbn [bind] in Hp.
    destruct (pixel_y s) as [q|]; cbn [bind] in Hp; [|discriminate].
    destruct (Z.eqb_spec nby 0); [lia|]. cbn [bind] in Hp.
    destruct (pixel_x s) as [p|]; cbn [bind] in Hp; [|discriminate].
    destruct (Z.eqb_spec nbx 0); [lia|]. cbn [bind] in Hp.
    rewrite voxel_sizes_rescaled in Hp by assumption.
    apply bind_Ok_inv in Hp; destruct Hp as (vs1 & Hvs1 & Hp). injection Hp as <- _ _ _.
    exact Hvs1.
  - injection Hp as <- _ _ _. exact Hvs0.
Qed.

Lemma orthogonalize_default_voxel_size_witness :
  exists o v, orthogonalize setup_id01_grazing0 obj_2x2x2 None None = Ok (o, v) /\
    exists t, tilt_angle setup_id01_grazing0 = Some t /\
      voxel_sizes setup_id01_grazing0 (2, 2, 2)%Z (Some (Rabs t)) (pixel_x setup_id01_grazing0)
        (pixel_y setup_id01_grazing0) = Ok v.
Proof.
  destruct orthogonalize_id01_2x2x2 as ([o v] & H). exists o, v. split; [exact H|].
  exact (orthogonalize_default_voxel_size _ _ _ _ _ H ltac:(cbn; lia) ltac:(cbn; lia)).
Defined.

(** ** [orthogonalize_vector] and the transfer matrix *)

Lemma update_coords_det s sh t px py T : update_coords s sh t px py = Ok T -> det3 T <> 0.
Proof.
  intros H. destruct (update_coords_Ok_inv _ _ _ _ _ _ H) as (m & _ & Hm).
  pose proof (two_pi_inv_transpose_det _ _ Hm) as Hd.
  rewrite two_pi_inv_transpose_ok in Hm by exact Hd. injection Hm as <-.
  rewrite det3_two_pi_inv_transpose by exact Hd.
  pose proof (cube_pos _ two_pi_pos).
  unfold Rdiv. apply Rmult_integral_contrapositive_currified; [lra|].
  apply Rinv_neq_0_compat; exact Hd.
Qed.

(** X8: whenever [update_coords] returns a transfer matrix [T], [orthogonalize_vector] succeeds and mapping its result back by [T] gives the input vector. *)
Theorem orthogonalize_vector_round_trip s v sh t px py T :
  update_coords s sh t px py = Ok T ->
  exists w, orthogonalize_vector s v sh t px py = Ok w /\ map_node T w = v.
Proof.
  intros HT. pose proof (update_coords_det _ _ _ _ _ _ HT) as Hd.
  unfold orthogonalize_vector. rewrite HT. cbn [bind]. unfold inv3.
  destruct (Req_EM_T (det3 T) 0); [contradiction|]. cbn [bind].
  destruct v as [[v0 v1] v2]. eexists; split; [reflexivity|].
  unfold map_node, mscale, adj3. cbn [a00 a01 a02 a10 a11 a12 a20 a21 a22].
  unfold det3 in *. destruct T; cbn in *.
  f_equal; [f_equal|]; field; exact Hd.
Qed.

Lemma orthogonalize_vector_round_trip_witness :
  exists T w,
    update_coords setup_id01_grazing0 (2, 2, 2)%Z (Some 0.01) (Some 110e-6) (Some 110e-6) = Ok T /\
    orthogonalize_vector setup_id01_grazing0 (1, 2, 3) (2, 2, 2)%Z (Some 0.01) (Some 110e-6)
      (Some 110e-6) = Ok w /\ map_node T w = (1, 2, 3).
Proof.
  destruct id01_grazing0_2x2x2_nonsingular as (T & HT & _).
  destruct (orthogonalize_vector_round_trip _ (1, 2, 3) _ _ _ _ _ HT) as (w & Hw & Hm).
  exists T, w. auto.
Defined.

(** ** [detector_frame] *)

Lemma strictly_ascending_map_seq (f : nat -> R) m len :
  (forall k, f k < f (S k)) -> strictly_ascending (map f (seq m len)) = true.
Proof.
  intros Hf. revert m. induction len as [|len IH]; intros m; [reflexivity|].
  cbn [seq map]. destruct len as [|len]; [reflexivity|].
  specialize (IH (S m)). cbn [seq map] in IH |- *.
  change (Rltb (f m) (f (S m)) && strictly_ascending (f (S m) :: map f (seq (S (S m)) len))
          = true).
  rewrite IH. unfold Rltb. destruct (Rlt_dec (f m) (f (S m))) as [_|H]; [reflexivity|].
  exfalso. apply H, Hf.
Qed.

Lemma IZR_arange_succ (a : Z) (k : nat) : IZR (a + Z.of_nat (S k)) = IZR (a + Z.of_nat k) + 1.
Proof. rewrite Nat2Z.inj_succ, Z.add_succ_r, succ_IZR. reflexivity. Qed.

(** A grid [np.arange(-n // 2, n // 2) * v] is strictly ascending when
    [v > 0] or when it has at most one point, ... *)
Lemma detframe_axis_ascending (n : Z) (v : R) :
  (0 < v \/ (n <= 1)%Z) ->
  strictly_ascending (map (fun k => IZR k * v) (arange ((- n) / 2) (n / 2))) = true.
Proof.
  intros [Hv|Hn]; unfold arange; rewrite map_map.
  - apply strictly_ascending_map_seq. intros k. rewrite IZR_arange_succ. nra.
  - pose proof (centered_arange_span n) as Hs.
    destruct (Z.to_nat (n / 2 - - n / 2)) as [|[|len]] eqn:E; try reflexivity. lia.
Qed.

(** ... and it is not when [v <= 0] and it has two points or more. *)
Lemma detframe_axis_not_ascending (n : Z) (v : R) :
  v <= 0 -> (2 <= n)%Z ->
  strictly_ascending (map (fun k => IZR k * v) (arange ((- n) / 2) (n / 2))) = false.
Proof.
  intros Hv Hn. unfold arange. rewrite map_map.
  pose proof (centered_arange_span n) as Hs.
  destruct (Z.to_nat (n / 2 - - n / 2)) as [|[|len]] eqn:E; try lia.
  cbn [seq map strictly_ascending]. unfold Rltb.
  rewrite (IZR_arange_succ _ 0).
  destruct (Rlt_dec _ _) as [H|_]; [nra|reflexivity].
Qed.

(** The interpolator's grid check in [detector_frame]: it passes when every
    axis is scaled by a positive voxel size or has at most one point, and
    raises [ValueError] when an axis of two points or more is scaled by a
    voxel size [<= 0]. *)
Lemma rgi_check_grid_detframe_ok nbz nby nbx vz vy vx :
  (0 < vz \/ (nbz <= 1)%Z) -> (0 < vy \/ (nby <= 1)%Z) -> (0 < vx \/ (nbx <= 1)%Z) ->
  rgi_check_grid (detframe_rgi_axes (nbz, nby, nbx) (vz, vy, vx)) = Ok tt.
Proof.
  intros Hz Hy Hx. unfold rgi_check_grid, detframe_rgi_axes.
  rewrite !detframe_axis_ascending by assumption. reflexivity.
Qed.

Lemma rgi_check_grid_detframe_err nbz nby nbx vz vy vx :
  (vz <= 0 /\ (2 <= nbz)%Z) \/ (vy <= 0 /\ (2 <= nby)%Z) \/ (vx <= 0 /\ (2 <= nbx)%Z) ->
  rgi_check_grid (detframe_rgi_axes (nbz, nby, nbx) (vz, vy, vx)) = Err ValueError.
Proof.
  intros H. unfold rgi_check_grid, detframe_rgi_axes.
  destruct H as [[Hv Hn]|[[Hv Hn]|[Hv Hn]]]; rewrite (detframe_axis_not_ascending _ _ Hv Hn);
    rewrite ?andb_false_r; reflexivity.
Qed.

(** X9: a successful [detector_frame] returns an array of the input's shape and dtype, holds values cast to that dtype, and implies that [update_coords] succeeded on the object's shape; a voxel-size triple with a non-positive entry raises [AssertionError]. *)
Theorem detector_frame_shape_dtype s obj :
  (forall vs o, detector_frame s obj vs = Ok o ->
     shape3 o = shape3 obj /\ dtype o = dtype obj /\
     (let '(nbz, nby, nbx) := shape3 obj in
      List.length (data3 o) = (Z.to_nat nbz * Z.to_nat nby * Z.to_nat nbx)%nat) /\
     (forall k v, nth_error (data3 o) k = Some v -> cast_value (dtype obj) v = v) /\
     exists T, update_coords s (shape3 obj) (tilt_angle s) (pixel_x s) (pixel_y s) = Ok T) /\
  (forall a b c, ~ (0 < a /\ 0 < b /\ 0 < c) ->
     detector_frame s obj (VTriple (a, b, c)) = Err AssertionError).
Proof.
  split.
  - intros vs o H. unfold detector_frame in H.
    apply bind_Ok_inv in H; destruct H as (voxel & _ & H). cbv beta zeta in H.
    apply bind_Ok_inv in H; destruct H as (T & HT & H). cbv beta zeta in H.
    apply bind_Ok_inv in H; destruct H as (u & _ & H). injection H as <-.
    destruct obj as [[[nbz nby] nbx] dt dat]. cbn [shape3 dtype data3 reshape_astype] in *.
    split; [reflexivity|]. split; [reflexivity|]. split.
    { unfold rgi_linear_fill0. rewrite !length_map.
      unfold detframe_mesh_axes. rewrite length_meshgrid_ij, !length_map, !length_arange,
        !centered_arange_span. reflexivity. }
    split; [|exists T; exact HT].
    intros k v Hk. rewrite nth_error_map in Hk.
    destruct (nth_error _ k) as [w|] eqn:E; cbn in Hk; [|discriminate].
    injection Hk as <-. apply cast_value_idem.
  - intros a b c Hn. unfold detector_frame, py_assert, Rltb.
    destruct (Rlt_dec 0 a), (Rlt_dec 0 b), (Rlt_dec 0 c); cbn; try reflexivity.
    exfalso. apply Hn. auto.
Qed.

Lemma detector_frame_id01_2x2x2 :
  exists o, detector_frame setup_id01_grazing0 obj_2x2x2 (VNumber 1) = Ok o.
Proof.
  destruct id01_grazing0_2x2x2_nonsingular as (T & HT & _).
  eexists. unfold detector_frame. cbn [bind shape3 obj_2x2x2].
  replace (tilt_angle setup_id01_grazing0) with (Some 0.01) by reflexivity.
  replace (pixel_x setup_id01_grazing0) with (Some 110e-6) by reflexivity.
  replace (pixel_y setup_id01_grazing0) with (Some 110e-6) by reflexivity.
  rewrite HT. cbn [bind]. rewrite rgi_check_grid_detframe_ok by (left; lra). reflexivity.
Qed.

Lemma detector_frame_shape_dtype_witness :
  exists o, detector_frame setup_id01_grazing0 obj_2x2x2 (VNumber 1) = Ok o /\
    shape3 o = (2, 2, 2)%Z /\ dtype o = DReal /\ List.length (data3 o) = 8%nat /\
    detector_frame setup_id01_grazing0 obj_2x2x2 (VTriple (1, 0, 1)) = Err AssertionError.
Proof.
  destruct detector_frame_id01_2x2x2 as (o & H). exists o. split; [exact H|].
  destruct (detector_frame_shape_dtype setup_id01_grazing0 obj_2x2x2) as [Hok Hass].
  destruct (Hok _ _ H) as (Hs & Hd & Hl & _). split; [exact Hs|]. split; [exact Hd|].
  split; [exact Hl|]. apply Hass. lra.
Defined.

(* ------------------------------------------------------------------ *)
(** ** [Detector.mask_detector] *)

Open Scope Z_scope.

Lemma setitem_cases a ir ic v b i j :
  setitem a ir ic v = Ok b -> item b i j = v \/ item b i j = item a i j.
Proof.
  intros H. destruct (setitem_Ok_inv _ _ _ _ _ H) as (r & c & _ & _ & ->). cbn.
  destruct (in_range r i && in_range c j); auto.
Qed.

Lemma setitem_ones a ir ic b m0 :
  setitem a ir ic 1%Q = Ok b ->
  (forall i j, (item m0 i j == 1)%Q -> (item a i j == 1)%Q) ->
  forall i j, (item m0 i j == 1)%Q -> (item b i j == 1)%Q.
Proof.
  intros H Ha i j Hm. destruct (setitem_cases _ _ _ _ _ i j H) as [-> | ->];
    [reflexivity | auto].
Qed.

Lemma setwhere_ones a cond m0 :
  (forall i j, (item m0 i j == 1)%Q -> (item a i j == 1)%Q) ->
  forall i j, (item m0 i j == 1)%Q -> (item (setwhere a cond 1%Q) i j == 1)%Q.
Proof. intros Ha i j Hm. cbn. destruct (cond i j); [reflexivity | auto]. Qed.

(** Carry "every 1 of [m0] is still 1" through the assignments [a[...] = 1]. *)
Ltac carry_ones :=
  repeat match goal with
         | Hp : forall i j, (item ?m0 i j == 1)%Q -> (item ?a i j == 1)%Q,
           H : setitem ?a _ _ 1%Q = Ok ?b |- _ =>
             pose proof (setitem_ones _ _ _ _ m0 H Hp); clear H
         end.

Lemma eiger2m_mask_ones m0 m1 :
  eiger2m_mask m0 = Ok m1 -> forall i j, (item m0 i j == 1)%Q -> (item m1 i j == 1)%Q.
Proof.
  unfold eiger2m_mask. intros H. peel H.
  assert (H0 : forall i j, (item m0 i j == 1)%Q -> (item m0 i j == 1)%Q) by auto.
  carry_ones. assumption.
Qed.

Lemma same_shape_intro a b : nrows a = nrows b -> ncols a = ncols b -> same_shape a b = true.
Proof.
  intros Hr Hc. unfold same_shape. rewrite Hr, Hc, !Z.eqb_refl. reflexivity.
Qed.

Lemma same_shape_elim a b : same_shape a b = true -> nrows a = nrows b /\ ncols a = ncols b.
Proof.
  unfold same_shape. intros H. apply andb_prop in H. destruct H as [H1 H2].
  apply Z.eqb_eq in H1, H2. auto.
Qed.

(** The preprocessing of [mask_detector] (flatfield, background, hot pixels)
    followed by the detector-specific part. *)
Lemma mask_detector_stage name data mask nb ff bg hp d m :
  mask_detector name data mask nb ff bg hp = Ok (d, m) ->
  exists data3 mask3,
    same_shape data mask = true /\ same_shape data3 mask3 = true /\
    nrows data3 = nrows data /\ ncols data3 = ncols data /\
    (forall i j, (item mask i j == 1)%Q -> (item mask3 i j == 1)%Q) /\
    (forall h, hp = Some h -> forall i j, (item h i j == 1)%Q ->
       item mask3 i j = 1%Q /\ item data3 i j = 0%Q) /\
    mask_detector name data3 mask3 nb None None None = Ok (d, m).
Proof.
  intros H. unfold mask_detector in H.
  apply bind_Ok_inv in H; destruct H as (u & Hu & H).
  destruct (same_shape data mask) eqn:Es; [|discriminate].
  apply bind_Ok_inv in H; destruct H as (data1 & Hd1 & H).
  apply bind_Ok_inv in H; destruct H as (data2 & Hd2 & H).
  apply bind_Ok_inv in H; destruct H as ([data3 mask3] & Hdm & H).
  assert (Hs1 : nrows data1 = nrows data /\ ncols data1 = ncols data).
  { destruct ff as [f|]; [|injection Hd1 as <-; auto].
    destruct (same_shape f data) eqn:Ef; [|discriminate]. injection Hd1 as <-.
    apply same_shape_elim in Ef. cbn. exact Ef. }
  assert (Hs2 : nrows data2 = nrows data1 /\ ncols data2 = ncols data1).
  { destruct bg as [b|]; [|injection Hd2 as <-; auto].
    destruct (same_shape b data1) eqn:Eb; [|discriminate]. injection Hd2 as <-. cbn. auto. }
  apply same_shape_elim in Es.
  exists data3, mask3.
  destruct hp as [h|].
  - destruct (same_shape h data2) eqn:Eh; [|discriminate]. injection Hdm as <- <-.
    cbn [nrows ncols item setwhere].
    split; [reflexivity|].
    split; [apply same_shape_intro; cbn; lia|].
    split; [cbn; lia|]. split; [cbn; lia|].
    split.
    { intros i j Hm. destruct (Qeq_bool (item h i j) 1); [reflexivity | exact Hm]. }
    split.
    { intros h' Eh' i j Hh. injection Eh' as <-.
      apply Qeq_bool_iff in Hh. rewrite Hh. auto. }
    unfold mask_detector. rewrite same_shape_intro by (cbn; lia). exact H.
  - injection Hdm as <- <-.
    split; [reflexivity|].
    split; [apply same_shape_intro; cbn; lia|].
    split; [cbn; lia|]. split; [cbn; lia|].
    split; [auto|]. split; [discriminate|].
    unfold mask_detector. rewrite same_shape_intro by lia. exact H.
Qed.

Lemma eiger2m_data_zero a b i j :
  eiger2m_data a = Ok b -> item a i j = 0%Q -> item b i j = 0%Q.
Proof. unfold eiger2m_data. intros H Hz. peel H. carry. assumption. Qed.

Lemma eiger2m_mask_one a b i j :
  eiger2m_mask a = Ok b -> item a i j = 1%Q -> item b i j = 1%Q.
Proof. unfold eiger2m_mask. intros H Hz. peel H. carry. assumption. Qed.

Lemma mask_hot_bound d1 m1 thr d m :
  mask_hot d1 m1 thr = (d, m) -> (0 <= thr)%Q -> forall i j, (item d i j <= thr)%Q.
Proof.
  unfold mask_hot. intros H Ht i j. injection H as <- _. cbn. unfold gt_mask.
  destruct (Qle_bool (item d1 i j) thr) eqn:E; cbn.
  - apply Qle_bool_iff. exact E.
  - exact Ht.
Qed.

Lemma mask_hot_keep d1 m1 thr d m i j :
  mask_hot d1 m1 thr = (d, m) ->
  (item d1 i j = 0%Q -> item d i j = 0%Q) /\ (item m1 i j = 1%Q -> item m i j = 1%Q) /\
  (forall m0, (forall i j, (item m0 i j == 1)%Q -> (item m1 i j == 1)%Q) ->
     (item m0 i j == 1)%Q -> (item m i j == 1)%Q).
Proof.
  unfold mask_hot. intros H. injection H as <- <-. split; [|split].
  - apply setwhere_keep.
  - apply setwhere_keep.
  - intros m0 Hm0 Hm. apply (setwhere_ones m1 _ m0 Hm0 i j Hm).
Qed.

Lemma Ok_inj {A} (x y : A) : Ok x = Ok y -> x = y.
Proof. intros H. injection H as H. exact H. Qed.

(** What every detector branch of [mask_detector] keeps. *)
Lemma mask_detector_tail name data mask nb d m :
  same_shape data mask = true ->
  mask_detector name data mask nb None None None = Ok (d, m) ->
  (forall i j, (item mask i j == 1)%Q -> (item m i j == 1)%Q) /\
  (forall i j, item data i j = 0%Q -> item d i j = 0%Q) /\
  (forall i j, item mask i j = 1%Q -> item m i j = 1%Q) /\
  (name = "Eiger4M"%string -> (0 <= nb)%Q -> forall i j, (item d i j <= 4000000000 * nb)%Q) /\
  ((name = "Eiger2M" \/ name = "Maxipix" \/ name = "Merlin")%string -> (0 <= nb)%Q ->
     forall i j, (item d i j <= 1000000 * nb)%Q).
Proof.
  intros Hs H. unfold mask_detector in H. rewrite Hs in H. cbn [bind] in H.
  assert (Hthr : forall c, (0 <= c)%Q -> (0 <= nb)%Q -> (0 <= c * nb)%Q).
  { intros c Hc Hn. apply Qmult_le_0_compat; assumption. }
  destruct (String.eqb_spec name "Eiger2M") as [->|N1].
  { peel H. apply Ok_inj in H. rename H into Hdm. split; [|split; [|split; [|split]]].
    - intros i j Hm. apply (proj2 (proj2 (mask_hot_keep _ _ _ _ _ i j Hdm)) mask); [|exact Hm].
      apply eiger2m_mask_ones; assumption.
    - intros i j Hz. apply (proj1 (mask_hot_keep _ _ _ _ _ i j Hdm)).
      eapply eiger2m_data_zero; eassumption.
    - intros i j Hz. apply (proj1 (proj2 (mask_hot_keep _ _ _ _ _ i j Hdm))).
      eapply eiger2m_mask_one; eassumption.
    - discriminate.
    - intros _ Hn. apply (mask_hot_bound _ _ _ _ _ Hdm). apply Hthr; [discriminate|exact Hn]. }
  destruct (String.eqb_spec name "Eiger4M") as [->|N2].
  { peel H. apply Ok_inj in H. rename H into Hdm. split; [|split; [|split; [|split]]].
    - intros i j Hm. apply (proj2 (proj2 (mask_hot_keep _ _ _ _ _ i j Hdm)) mask); [|exact Hm].
      assert (H0 : forall i j, (item mask i j == 1)%Q -> (item mask i j == 1)%Q) by auto.
      carry_ones. assumption.
    - intros i j Hz. apply (proj1 (mask_hot_keep _ _ _ _ _ i j Hdm)). carry. assumption.
    - intros i j Hz. apply (proj1 (proj2 (mask_hot_keep _ _ _ _ _ i j Hdm))). carry. assumption.
    - intros _ Hn. apply (mask_hot_bound _ _ _ _ _ Hdm). apply Hthr; [discriminate|exact Hn].
    - intros [E|[E|E]]; discriminate. }
  destruct (String.eqb_spec name "Maxipix") as [->|N3].
  { peel H. apply Ok_inj in H. rename H into Hdm. split; [|split; [|split; [|split]]].
    - intros i j Hm. apply (proj2 (proj2 (mask_hot_keep _ _ _ _ _ i j Hdm)) mask); [|exact Hm].
      assert (H0 : forall i j, (item mask i j == 1)%Q -> (item mask i j == 1)%Q) by auto.
      carry_ones. assumption.
    - intros i j Hz. apply (proj1 (mask_hot_keep _ _ _ _ _ i j Hdm)). carry. assumption.
    - intros i j Hz. apply (proj1 (proj2 (mask_hot_keep _ _ _ _ _ i j Hdm))). carry. assumption.
    - discriminate.
    - intros _ Hn. apply (mask_hot_bound _ _ _ _ _ Hdm). apply Hthr; [discriminate|exact Hn]. }
  destruct (String.eqb_spec name "Merlin") as [->|N4].
  { peel H. apply Ok_inj in H. rename H into Hdm. split; [|split; [|split; [|split]]].
    - intros i j Hm. apply (proj2 (proj2 (mask_hot_keep _ _ _ _ _ i j Hdm)) mask); [|exact Hm].
      assert (H0 : forall i j, (item mask i j == 1)%Q -> (item mask i j == 1)%Q) by auto.
      carry_ones. assumption.
    - intros i j Hz. apply (proj1 (mask_hot_keep _ _ _ _ _ i j Hdm)). carry. assumption.
    - intros i j Hz. apply (proj1 (proj2 (mask_hot_keep _ _ _ _ _ i j Hdm))). carry. assumption.
    - discriminate.
    - intros _ Hn. apply (mask_hot_bound _ _ _ _ _ Hdm). apply Hthr; [discriminate|exact Hn]. }
  destruct (String.eqb_spec name "Timepix") as [->|N5]; [|discriminate].
  injection H as <- <-. split; [auto|]. split; [auto|]. split; [auto|].
  split; [discriminate|]. intros [E|[E|E]]; discriminate.
Qed.

Lemma setitem_hit_range a ir ic v b i j :
  setitem a ir ic v = Ok b ->
  (forall r, subscript_range ir (nrows a) = Ok r -> in_range r i = true) ->
  (forall c, subscript_range ic (ncols a) = Ok c -> in_range c j = true) ->
  item b i j = v.
Proof.
  intros H Hi Hj. destruct (setitem_Ok_inv _ _ _ _ _ H) as (r & c & Hr & Hc & ->). cbn.
  rewrite (Hi r Hr), (Hj c Hc). reflexivity.
Qed.

(** Record the shape of every array produced by an assignment. *)
Ltac shapes :=
  repeat match goal with
         | H : setitem ?a _ _ _ = Ok ?b |- _ =>
             lazymatch goal with
             | _ : nrows b = nrows a |- _ => fail
             | _ => destruct (setitem_shape _ _ _ _ _ H) as [?Hn ?Hc]
             end
         end.

Ltac hit_range :=
  let r := fresh "r" in let Hr := fresh "Hr" in
  intros r Hr; unfold subscript_range, slice_bound, all_ in Hr;
  repeat match type of Hr with
         | context [(?k <? 0)%Z] =>
             let e := eval vm_compute in (k <? 0)%Z in change (k <? 0)%Z with e in Hr
         end;
  cbv iota beta in Hr; apply Ok_inj in Hr; subst r; apply in_range_intro; lia.

(** Prove [item last i j = v] from the assignment [a[ir, ic] = v] that
    covers [(i, j)], carried through the assignments after it. *)
Ltac hit ir ic :=
  match goal with
  | |- item _ ?i ?j = ?v =>
      match goal with
      | H : setitem ?a ir ic v = Ok ?b |- _ =>
          pose proof (setitem_hit_range a ir ic v b i j H ltac:(hit_range) ltac:(hit_range));
          carry; assumption
      end
  end.

(** Decide the tests [name == '...'] on a literal name. *)
Ltac decide_names H :=
  repeat match type of H with
         | context [String.eqb ?a ?b] =>
             let e := eval vm_compute in (String.eqb a b) in
             let E := fresh "E" in
             assert (E : String.eqb a b = e) by reflexivity; rewrite E in H; clear E
         end;
  cbv iota in H.

Lemma mask_hot_keep' d1 m1 thr d m i j :
  Ok (mask_hot d1 m1 thr) = Ok (d, m) ->
  item d1 i j = 0%Q -> item m1 i j = 1%Q -> item m i j = 1%Q /\ item d i j = 0%Q.
Proof.
  intros H Hd Hm. apply Ok_inj in H.
  destruct (mask_hot_keep _ _ _ _ _ i j H) as (H1 & H2 & _). auto.
Qed.

(** X12: [mask_detector] masks the central cross of the Maxipix (rows and columns 255..260) and of the Merlin (rows and columns 255..259): mask 1 and data 0 there. *)
Theorem maxipix_merlin_gap_cross name data mask nb ff bg hp d m :
  mask_detector name data mask nb ff bg hp = Ok (d, m) ->
  forall i j, 0 <= i < nrows data -> 0 <= j < ncols data ->
  (name = "Maxipix"%string -> (255 <= i < 261 \/ 255 <= j < 261) ->
     item m i j = 1%Q /\ item d i j = 0%Q) /\
  (name = "Merlin"%string -> (255 <= i < 260 \/ 255 <= j < 260) ->
     item m i j = 1%Q /\ item d i j = 0%Q).
Proof.
  intros H i j Hi Hj.
  destruct (mask_detector_stage _ _ _ _ _ _ _ _ _ H)
    as (data3 & mask3 & _ & Hs3 & Hr3 & Hc3 & _ & _ & H3).
  apply same_shape_elim in Hs3. destruct Hs3 as [Hr3' Hc3'].
  split; intros -> Hgap; unfold mask_detector in H3;
    rewrite same_shape_intro in H3 by assumption; cbn [bind] in H3;
    decide_names H3; peel H3; shapes; eapply mask_hot_keep'; try exact H3;
    (destruct Hgap as [Hg|Hg]; [hit (Sl (Some 255) (Some 261)) (Sl all_ all_) || hit (Sl (Some 255) (Some 260)) (Sl all_ all_)
                               | hit (Sl all_ all_) (Sl (Some 255) (Some 261)) || hit (Sl all_ all_) (Sl (Some 255) (Some 260))]).
Qed.

Lemma bind_Ok_l {A B} (x : A) (k : A -> result B) : bind (Ok x) k = k x.
Proof. reflexivity. Qed.

(** Run the first, successful steps of a [bind] chain by rewriting. *)
Ltac run_binds H :=
  repeat (cbv iota beta in H; rewrite bind_Ok_l in H); cbv iota beta in H.

(** X13: for the Eiger4M, [mask_detector] masks the first and last rows and columns, columns 1030..1039 and rows 514..550, 1065..1101 and 1616..1652: mask 1 and data 0 there. *)
Theorem eiger4m_border_and_gaps data mask nb ff bg hp d m :
  mask_detector "Eiger4M" data mask nb ff bg hp = Ok (d, m) ->
  forall i j, 0 <= i < nrows data -> 0 <= j < ncols data ->
  (i = 0 \/ i = nrows data - 1 \/ j = 0 \/ j = ncols data - 1 \/ 1030 <= j < 1040 \/
   514 <= i < 551 \/ 1065 <= i < 1102 \/ 1616 <= i < 1653) ->
  item m i j = 1%Q /\ item d i j = 0%Q.
Proof.
  intros H i j Hi Hj Hgap.
  destruct (mask_detector_stage _ _ _ _ _ _ _ _ _ H)
    as (data3 & mask3 & _ & Hs3 & Hr3 & Hc3 & _ & _ & H3).
  apply same_shape_elim in Hs3. destruct Hs3 as [Hr3' Hc3'].
  unfold mask_detector in H3. rewrite same_shape_intro in H3 by assumption.
  run_binds H3. decide_names H3. peel H3. shapes.
  eapply mask_hot_keep'; [exact H3| |];
    (destruct Hgap as [Hg|[Hg|[Hg|[Hg|[Hg|[Hg|[Hg|Hg]]]]]]];
     [hit (Sl (Some 0) (Some 1)) (Sl all_ all_)
     |hit (Sl (Some (-1)) all_) (Sl all_ all_)
     |hit (Sl all_ all_) (Sl (Some 0) (Some 1))
     |hit (Sl all_ all_) (Sl (Some (-1)) all_)
     |hit (Sl all_ all_) (Sl (Some 1030) (Some 1040))
     |hit (Sl (Some 514) (Some 551)) (Sl all_ all_)
     |hit (Sl (Some 1065) (Some 1102)) (Sl all_ all_)
     |hit (Sl (Some 1616) (Some 1653)) (Sl all_ all_)]).
Qed.

(** X10: [mask_detector] never unmasks a pixel: every mask value 1 of the input is 1 in the output, and every pixel flagged 1 in [hotpixels] ends with mask 1 and data 0. *)
Theorem mask_detector_never_unmasks name data mask nb ff bg hp d m :
  mask_detector name data mask nb ff bg hp = Ok (d, m) ->
  (forall i j, (item mask i j == 1)%Q -> (item m i j == 1)%Q) /\
  (forall h, hp = Some h -> forall i j, (item h i j == 1)%Q ->
     item m i j = 1%Q /\ item d i j = 0%Q).
Proof.
  intros H.
  destruct (mask_detector_stage _ _ _ _ _ _ _ _ _ H)
    as (data3 & mask3 & _ & Hs3 & _ & _ & Hones & Hhot & H3).
  destruct (mask_detector_tail _ _ _ _ _ _ Hs3 H3) as (Tones & Tzero & Tone & _ & _).
  split.
  - intros i j Hm. apply Tones. apply Hones. exact Hm.
  - intros h Eh i j Hh. destruct (Hhot h Eh i j Hh) as [Hm Hd]. auto.
Qed.

Lemma bind_Err_l {A B} e (k : A -> result B) : bind (Err e) k = Err e.
Proof. reflexivity. Qed.

Lemma setitem_sl_Ok a s1 s2 s3 s4 v :
  exists b, setitem a (Sl s1 s2) (Sl s3 s4) v = Ok b /\ ncols b = ncols a.
Proof. eexists; split; reflexivity. Qed.

Lemma setitem_ix_Ok a s1 s2 k v :
  0 <= k < ncols a -> exists b, setitem a (Sl s1 s2) (Ix k) v = Ok b /\ ncols b = ncols a.
Proof.
  intros Hk. unfold setitem. cbn [subscript_range].
  rewrite (proj2 (Z.ltb_ge k 0)) by lia.
  replace ((0 <=? k) && (k <? ncols a)) with true
    by (symmetry; apply andb_true_intro; split; [apply Z.leb_le | apply Z.ltb_lt]; lia).
  eexists; split; reflexivity.
Qed.

Lemma setitem_ix_Err a s1 s2 k v :
  0 <= k -> ncols a <= k -> setitem a (Sl s1 s2) (Ix k) v = Err IndexError.
Proof.
  intros H0 Hk. unfold setitem. cbn [subscript_range].
  rewrite (proj2 (Z.ltb_ge k 0)) by lia.
  replace ((0 <=? k) && (k <? ncols a)) with false
    by (symmetry; apply andb_false_intro2; apply Z.ltb_ge; lia).
  reflexivity.
Qed.

(** Take one successful slice assignment off the head of a [bind] chain in
    the goal. *)
Ltac step_sl :=
  match goal with
  | |- context [bind (setitem ?a (Sl ?s1 ?s2) (Sl ?s3 ?s4) ?v) _] =>
      let b := fresh "b" in let E := fresh "E" in let Hc := fresh "Hc" in
      destruct (setitem_sl_Ok a s1 s2 s3 s4 v) as (b & E & Hc);
      rewrite E, bind_Ok_l; cbv beta
  end.

Ltac step_ix :=
  match goal with
  | |- context [bind (setitem ?a (Sl ?s1 ?s2) (Ix ?k) ?v) _] =>
      let b := fresh "b" in let E := fresh "E" in let Hc := fresh "Hc" in
      destruct (setitem_ix_Ok a s1 s2 k v) as (b & E & Hc); [lia|];
      rewrite E, bind_Ok_l; cbv beta
  end.

Ltac stop_ix :=
  match goal with
  | |- context [bind (setitem ?a (Sl ?s1 ?s2) (Ix ?k) ?v) _] =>
      rewrite (setitem_ix_Err a s1 s2 k v) by lia; rewrite bind_Err_l
  end.

Lemma eiger2m_data_Ok a : 481 < ncols a -> exists b, eiger2m_data a = Ok b.
Proof.
  intros Hc0. unfold eiger2m_data. do 11 step_sl. step_ix. step_ix.
  eexists; reflexivity.
Qed.

Lemma eiger2m_mask_Ok a : 481 < ncols a -> exists b, eiger2m_mask a = Ok b.
Proof.
  intros Hc0. unfold eiger2m_mask. do 11 step_sl. step_ix. step_ix.
  eexists; reflexivity.
Qed.

Lemma eiger2m_data_Err a : ncols a <= 481 -> eiger2m_data a = Err IndexError.
Proof.
  intros Hc0. unfold eiger2m_data. do 11 step_sl.
  destruct (Z_lt_le_dec 478 (ncols a)).
  - step_ix. stop_ix. reflexivity.
  - stop_ix. reflexivity.
Qed.

(** X14: with [data] and [mask] of the same shape and no flatfield, background or hot pixels, [mask_detector] fails exactly with [NotImplementedError] for a name outside Eiger2M, Eiger4M, Maxipix, Merlin and Timepix, or with [IndexError] for the Eiger2M on data with at most 481 columns. *)
Theorem mask_detector_errors name data mask nb e :
  same_shape data mask = true ->
  (mask_detector name data mask nb None None None = Err e <->
   (e = NotImplementedError /\
      ~ In name ["Eiger2M"; "Eiger4M"; "Maxipix"; "Merlin"; "Timepix"]%string) \/
   (e = IndexError /\ name = "Eiger2M"%string /\ ncols data <= 481)).
Proof.
  intros Hs. unfold mask_detector. rewrite Hs.
  repeat (cbv iota beta; rewrite bind_Ok_l). cbv iota beta.
  apply same_shape_elim in Hs. destruct Hs as [Hr Hc].
  destruct (String.eqb_spec name "Eiger2M") as [->|N1]; cbv iota.
  { destruct (Z_le_gt_dec (ncols data) 481) as [Hle|Hgt].
    - rewrite eiger2m_data_Err by exact Hle. rewrite bind_Err_l.
      split.
      + intros E. injection E as <-. right. auto.
      + intros [[_ Hn]|[-> _]]; [exfalso; apply Hn; left; reflexivity|reflexivity].
    - destruct (eiger2m_data_Ok data) as (d1 & Ed); [lia|].
      destruct (eiger2m_mask_Ok mask) as (m1 & Em); [lia|].
      rewrite Ed, bind_Ok_l, Em, bind_Ok_l.
      split; [discriminate|].
      intros [[_ Hn]|[_ [_ Hn]]]; [exfalso; apply Hn; left; reflexivity|lia]. }
  destruct (String.eqb_spec name "Eiger4M") as [->|N2]; cbv iota.
  { do 16 step_sl. split; [discriminate|].
    intros [[_ Hn]|[_ [Hn _]]]; [exfalso; apply Hn; simpl; auto|discriminate]. }
  destruct (String.eqb_spec name "Maxipix") as [->|N3]; cbv iota.
  { do 4 step_sl. split; [discriminate|].
    intros [[_ Hn]|[_ [Hn _]]]; [exfalso; apply Hn; simpl; auto|discriminate]. }
  destruct (String.eqb_spec name "Merlin") as [->|N4]; cbv iota.
  { do 4 step_sl. split; [discriminate|].
    intros [[_ Hn]|[_ [Hn _]]]; [exfalso; apply Hn; simpl; tauto|discriminate]. }
  destruct (String.eqb_spec name "Timepix") as [->|N5]; cbv iota.
  { split; [discriminate|].
    intros [[_ Hn]|[_ [Hn _]]]; [exfalso; apply Hn; simpl; tauto|discriminate]. }
  split.
  - intros E. injection E as <-. left. split; [reflexivity|].
    simpl. intros [E|[E|[E|[E|[E|[]]]]]]; congruence.
  - intros [[-> _]|[_ [E _]]]; [reflexivity|contradiction].
Qed.

Ltac decide_names_goal :=
  repeat match goal with
         | |- context [String.eqb ?a ?b] =>
             let e := eval vm_compute in (String.eqb a b) in
             let E := fresh "E" in
             assert (E : String.eqb a b = e) by reflexivity; rewrite E; clear E
         end;
  cbv iota.

Lemma mask_detector_Ok name data mask nb :
  same_shape data mask = true ->
  In name ["Eiger4M"; "Maxipix"; "Merlin"; "Timepix"]%string \/
  (name = "Eiger2M"%string /\ 481 < ncols data) ->
  exists d m, mask_detector name data mask nb None None None = Ok (d, m).
Proof.
  intros Hs Hn. unfold mask_detector. rewrite Hs.
  repeat (cbv iota beta; rewrite bind_Ok_l). cbv iota beta.
  apply same_shape_elim in Hs. destruct Hs as [Hr Hc].
  destruct Hn as [Hin|[-> Hc0]].
  - simpl in Hin. destruct Hin as [<-|[<-|[<-|[<-|[]]]]]; decide_names_goal;
      repeat step_sl; do 2 eexists; reflexivity.
  - decide_names_goal.
    destruct (eiger2m_data_Ok data) as (d1 & Ed); [lia|].
    destruct (eiger2m_mask_Ok mask) as (m1 & Em); [lia|].
    rewrite Ed, bind_Ok_l, Em, bind_Ok_l. do 2 eexists; reflexivity.
Qed.

Lemma maxipix_merlin_gap_cross_witness :
  exists d m, mask_detector "Maxipix" maxipix_frame maxipix_frame 1 None None None = Ok (d, m) /\
    item m 256 0 = 1%Q /\ item d 256 0 = 0%Q.
Proof.
  destruct (mask_detector_Ok "Maxipix" maxipix_frame maxipix_frame 1) as (d & m & H);
    [reflexivity|left; simpl; auto|].
  exists d, m. split; [exact H|].
  apply (proj1 (maxipix_merlin_gap_cross _ _ _ _ _ _ _ _ _ H 256 0
                  ltac:(cbn; lia) ltac:(cbn; lia))); [reflexivity|left; lia].
Defined.

Lemma eiger4m_border_and_gaps_witness :
  exists d m, mask_detector "Eiger4M" eiger4m_frame eiger4m_frame 1 None None None = Ok (d, m) /\
    item m 2166 5 = 1%Q /\ item d 2166 5 = 0%Q.
Proof.
  destruct (mask_detector_Ok "Eiger4M" eiger4m_frame eiger4m_frame 1) as (d & m & H);
    [reflexivity|left; simpl; auto|].
  exists d, m. split; [exact H|].
  apply (eiger4m_border_and_gaps _ _ _ _ _ _ _ _ H 2166 5 ltac:(cbn; lia) ltac:(cbn; lia)).
  right; left; reflexivity.
Defined.

Lemma mask_detector_never_unmasks_witness :
  exists d m,
    mask_detector "Timepix" maxipix_frame maxipix_frame 1 None None (Some hot_row3) = Ok (d, m) /\
    item m 3 7 = 1%Q /\ item d 3 7 = 0%Q.
Proof.
  do 2 eexists. split; [reflexivity|].
  match goal with
  | |- item ?m _ _ = _ /\ item ?d _ _ = _ =>
      assert (H : mask_detector "Timepix" maxipix_frame maxipix_frame 1 None None (Some hot_row3)
                  = Ok (d, m)) by reflexivity;
      exact (proj2 (mask_detector_never_unmasks _ _ _ _ _ _ _ _ _ H) hot_row3 eq_refl 3 7
               ltac:(vm_compute; reflexivity))
  end.
Defined.

Lemma mask_detector_errors_witness :
  same_shape maxipix_frame maxipix_frame = true /\
  (mask_detector "Eiger2M" maxipix_frame maxipix_frame 1 None None None = Err IndexError <->
   (IndexError = NotImplementedError /\
      ~ In "Eiger2M"%string ["Eiger2M"; "Eiger4M"; "Maxipix"; "Merlin"; "Timepix"]%string) \/
   (IndexError = IndexError /\ "Eiger2M"%string = "Eiger2M"%string /\ ncols maxipix_frame <= 481)).
Proof.
  split; [reflexivity|]. apply mask_detector_errors. reflexivity.
Defined.

Close Scope Z_scope.

(* ------------------------------------------------------------------ *)
(** ** [Detector.__init__] *)

Open Scope Z_scope.

Lemma check_roi_Ok r nby nbx :
  (List.length r = 0 \/ List.length r = 4)%nat ->
  check_roi r nby nbx = Ok (match r with [] => [0; nby; 0; nbx] | _ => r end).
Proof.
  intros [H|H]; unfold check_roi; rewrite H.
  - destruct r; [reflexivity|discriminate].
  - destruct r; [discriminate|reflexivity].
Qed.

Lemma check_roi_Err r nby nbx :
  ~ (List.length r = 0 \/ List.length r = 4)%nat -> check_roi r nby nbx = Err ValueError.
Proof.
  intros H. unfold check_roi.
  destruct (List.length r) as [|[|[|[|[|n]]]]]; try reflexivity; exfalso; apply H; auto.
Qed.

Lemma existsb_known k l : existsb (String.eqb k) l = true <-> In k l.
Proof.
  rewrite existsb_exists. split.
  - intros (x & Hx & E). apply String.eqb_eq in E. subst. exact Hx.
  - intros Hk. exists k. split; [exact Hk|apply String.eqb_refl].
Qed.

Lemma forallb_false {A} (f : A -> bool) l :
  forallb f l = false -> exists x, In x l /\ f x = false.
Proof.
  induction l as [|a l IH]; cbn; [discriminate|].
  destruct (f a) eqn:Ea; cbn.
  - intros H. destruct (IH H) as (x & Hx & Fx). exists x. auto.
  - intros _. exists a. auto.
Qed.

Lemma detector_table_cases name :
  (In name ["Maxipix"; "Eiger2M"; "Eiger4M"; "Timepix"; "Merlin"]%string /\
     exists dx dy p c, detector_table name = Ok (dx, dy, p, c)) \/
  (~ In name ["Maxipix"; "Eiger2M"; "Eiger4M"; "Timepix"; "Merlin"]%string /\
     detector_table name = Err ValueError).
Proof.
  unfold detector_table.
  destruct (String.eqb_spec name "Maxipix") as [->|N1];
    [left; split; [simpl; auto|do 4 eexists; reflexivity]|].
  destruct (String.eqb_spec name "Eiger2M") as [->|N2];
    [left; split; [simpl; auto|do 4 eexists; reflexivity]|].
  destruct (String.eqb_spec name "Eiger4M") as [->|N3];
    [left; split; [simpl; auto|do 4 eexists; reflexivity]|].
  destruct (String.eqb_spec name "Timepix") as [->|N4];
    [left; split; [simpl; tauto|do 4 eexists; reflexivity]|].
  destruct (String.eqb_spec name "Merlin") as [->|N5];
    [left; split; [simpl; tauto|do 4 eexists; reflexivity]|].
  right. split; [|reflexivity].
  simpl. intros [E|[E|[E|[E|[E|[]]]]]]; congruence.
Qed.

Lemma roi_len_dec (r : list Z) :
  {(List.length r = 0 \/ List.length r = 4)%nat} + {~ (List.length r = 0 \/ List.length r = 4)%nat}.
Proof.
  destruct (List.length r) as [|[|[|[|[|n]]]]];
    first [left; left; reflexivity | left; right; reflexivity
          | right; intros [H|H]; discriminate].
Qed.

(** X15: [Detector(...)] fails exactly in these cases: an unknown keyword argument ([Exception]); otherwise an unknown name ([ValueError]); a zero previous binning on the detector axes ([ZeroDivisionError]); a [roi] or [sum_roi] whose length is neither 0 nor 4 ([ValueError]). *)
Theorem Detector_init_errors name roi sum_roi binning kx ky kpb keys pb0 pb1 pb2 e :
  match kpb with Some pb => pb | None => (1, 1, 1) end = (pb0, pb1, pb2) ->
  (Detector_init name roi sum_roi binning kx ky kpb keys = Err e <->
   ((exists k, In k keys /\
       ~ In k ["is_series"; "nb_pixel_x"; "nb_pixel_y"; "previous_binning"]%string) /\
    e = GenericException) \/
   ((forall k, In k keys ->
       In k ["is_series"; "nb_pixel_x"; "nb_pixel_y"; "previous_binning"]%string) /\
    ((~ In name ["Maxipix"; "Eiger2M"; "Eiger4M"; "Timepix"; "Merlin"]%string /\
      e = ValueError) \/
     (In name ["Maxipix"; "Eiger2M"; "Eiger4M"; "Timepix"; "Merlin"]%string /\
      (pb2 = 0 \/ pb1 = 0) /\ e = ZeroDivisionError) \/
     (In name ["Maxipix"; "Eiger2M"; "Eiger4M"; "Timepix"; "Merlin"]%string /\
      pb2 <> 0 /\ pb1 <> 0 /\
      (~ (List.length roi = 0 \/ List.length roi = 4) \/
       ~ (List.length sum_roi = 0 \/ List.length sum_roi = 4))%nat /\ e = ValueError)))).
Proof.
  intros Hpb. unfold Detector_init. rewrite Hpb.
  destruct (forallb _ keys) eqn:Ek.
  2:{ cbn [bind]. destruct (forallb_false _ _ Ek) as (k & Hk & Fk).
      assert (Nk : ~ In k ["is_series"; "nb_pixel_x"; "nb_pixel_y"; "previous_binning"]%string).
      { rewrite <- existsb_known. congruence. }
      split.
      - intros E. injection E as <-. left. split; [exists k; auto|reflexivity].
      - intros [[_ ->]|[Hall _]]; [reflexivity|]. exfalso. exact (Nk (Hall k Hk)). }
  assert (Hall : forall k, In k keys ->
            In k ["is_series"; "nb_pixel_x"; "nb_pixel_y"; "previous_binning"]%string).
  { intros k Hk. rewrite forallb_forall in Ek. apply existsb_known. exact (Ek k Hk). }
  assert (Hnot : ~ exists k, In k keys /\
       ~ In k ["is_series"; "nb_pixel_x"; "nb_pixel_y"; "previous_binning"]%string).
  { intros (k & Hk & Nk). exact (Nk (Hall k Hk)). }
  cbn [bind].
  destruct (detector_table_cases name) as [[Hin (dx & dy & p & c & Et)]|[Nin Et]];
    rewrite Et; cbn [bind].
  2:{ split.
      - intros E. injection E as <-. right. split; [exact Hall|]. left. auto.
      - intros [[Hk _]|[_ [[_ ->]|[[Hi _]|[Hi _]]]]];
          [contradiction|reflexivity|contradiction|contradiction]. }
  unfold py_floordiv.
  destruct (Z.eqb_spec pb2 0) as [E2|E2]; cbn [bind].
  { split.
    - intros E. injection E as <-. right. split; [exact Hall|]. right. left. auto.
    - intros [[Hk _]|[_ [[Hi _]|[[_ [_ ->]]|[_ [Hz _]]]]]];
        [contradiction|contradiction|reflexivity|contradiction]. }
  destruct (Z.eqb_spec pb1 0) as [E1|E1]; cbn [bind].
  { split.
    - intros E. injection E as <-. right. split; [exact Hall|]. right. left. auto.
    - intros [[Hk _]|[_ [[Hi _]|[[_ [_ ->]]|[_ [_ [Hz _]]]]]]];
        [contradiction|contradiction|reflexivity|contradiction]. }
  destruct binning as [[b0 b1] b2]. cbn zeta.
  destruct (roi_len_dec roi) as [Hr|Hr].
  2:{ rewrite check_roi_Err by exact Hr. cbn [bind]. split.
      - intros E. injection E as <-. right. split; [exact Hall|]. right. right.
        split; [exact Hin|]. split; [exact E2|]. split; [exact E1|]. split; [left; exact Hr|reflexivity].
      - intros [[Hk _]|[_ [[Hi _]|[[_ [[Hz|Hz] _]]|[_ [_ [_ [_ ->]]]]]]]];
          [contradiction|contradiction|contradiction|contradiction|reflexivity]. }
  rewrite check_roi_Ok by exact Hr. cbn [bind].
  destruct (roi_len_dec sum_roi) as [Hs|Hs].
  2:{ rewrite check_roi_Err by exact Hs. cbn [bind]. split.
      - intros E. injection E as <-. right. split; [exact Hall|]. right. right.
        split; [exact Hin|]. split; [exact E2|]. split; [exact E1|]. split; [right; exact Hs|reflexivity].
      - intros [[Hk _]|[_ [[Hi _]|[[_ [[Hz|Hz] _]]|[_ [_ [_ [_ ->]]]]]]]];
          [contradiction|contradiction|contradiction|contradiction|reflexivity]. }
  rewrite check_roi_Ok by exact Hs. cbn [bind]. split; [discriminate|].
  intros [[Hk _]|[_ [[Hi _]|[[_ [[Hz|Hz] _]]|[_ [_ [_ [[Hz|Hz] _]]]]]]]]; contradiction.
Qed.

(** X16: a constructed [Detector] has [roi] and [sum_roi] of length 4: an empty one becomes the full frame [[0, nb_pixel_y, 0, nb_pixel_x]] and a 4-element one is kept; the name and binning are stored and [previous_binning] defaults to [(1, 1, 1)]. *)
Theorem Detector_init_roi nm r sr bn kx ky kpb keys det :
  Detector_init nm r sr bn kx ky kpb keys = Ok det ->
  List.length (roi det) = 4%nat /\ List.length (sum_roi det) = 4%nat /\
  roi det = match r with [] => [0; nb_pixel_y det; 0; nb_pixel_x det] | _ => r end /\
  sum_roi det = match sr with [] => [0; nb_pixel_y det; 0; nb_pixel_x det] | _ => sr end /\
  name det = nm /\ binning det = bn /\
  previous_binning det = match kpb with Some pb => pb | None => (1, 1, 1) end.
Proof.
  intros H. unfold Detector_init in H.
  destruct (match kpb with Some pb => pb | None => (1, 1, 1) end) as [[pb0 pb1] pb2] eqn:Hpb.
  peel H. destruct a0 as [[[dx dy] p] c]. destruct bn as [[b0 b1] b2].
  peel H.
  destruct (roi_len_dec r) as [Hr|Hr];
    [|rewrite check_roi_Err in Ha3 by exact Hr; discriminate].
  destruct (roi_len_dec sr) as [Hs|Hs];
    [|rewrite check_roi_Err in Ha4 by exact Hs; discriminate].
  rewrite check_roi_Ok in Ha3, Ha4 by assumption.
  injection Ha3 as <-. injection Ha4 as <-. injection H as <-. cbn.
  split; [destruct Hr as [Hr|Hr]; destruct r; cbn in *; congruence|].
  split; [destruct Hs as [Hs|Hs]; destruct sr; cbn in *; congruence|].
  repeat split; reflexivity.
Qed.

(** X17: passing [nb_pixel_x=0] or [nb_pixel_y=0] to [Detector] gives the same result as not passing it: 0 is falsy, so the default pixel count is used. *)
Theorem Detector_init_zero_pixels name r sr binning kx ky kpb keys :
  Detector_init name r sr binning (Some 0) ky kpb keys
  = Detector_init name r sr binning None ky kpb keys /\
  Detector_init name r sr binning kx (Some 0) kpb keys
  = Detector_init name r sr binning kx None kpb keys.
Proof. split; reflexivity. Qed.

Lemma Detector_init_errors_witness :
  match (None : option (Z * Z * Z)) with Some pb => pb | None => (1, 1, 1) end = (1, 1, 1) /\
  (Detector_init "Maxipix" [] [0; 1; 2] (1, 1, 1) None None None ["nb_pixel_x"%string]
   = Err ValueError <->
   ((exists k, In k ["nb_pixel_x"%string] /\
       ~ In k ["is_series"; "nb_pixel_x"; "nb_pixel_y"; "previous_binning"]%string) /\
    ValueError = GenericException) \/
   ((forall k, In k ["nb_pixel_x"%string] ->
       In k ["is_series"; "nb_pixel_x"; "nb_pixel_y"; "previous_binning"]%string) /\
    ((~ In "Maxipix"%string ["Maxipix"; "Eiger2M"; "Eiger4M"; "Timepix"; "Merlin"]%string /\
      ValueError = ValueError) \/
     (In "Maxipix"%string ["Maxipix"; "Eiger2M"; "Eiger4M"; "Timepix"; "Merlin"]%string /\
      (1 = 0 \/ 1 = 0) /\ ValueError = ZeroDivisionError) \/
     (In "Maxipix"%string ["Maxipix"; "Eiger2M"; "Eiger4M"; "Timepix"; "Merlin"]%string /\
      1 <> 0 /\ 1 <> 0 /\
      (~ (List.length (@nil Z) = 0 \/ List.length (@nil Z) = 4) \/
       ~ (List.length [0; 1; 2] = 0 \/ List.length [0; 1; 2] = 4))%nat /\
      ValueError = ValueError)))).
Proof. split; [reflexivity|]. exact (Detector_init_errors "Maxipix" [] [0; 1; 2] (1, 1, 1) None None None ["nb_pixel_x"%string] 1 1 1 ValueError eq_refl). Defined.

Lemma Detector_init_roi_witness :
  exists det,
    Detector_init "Eiger2M" [] [10; 20; 30; 40] (1, 2, 2) None None (Some (1, 2, 2)) [] = Ok det /\
    List.length (roi det) = 4%nat /\ roi det = [0; 1082; 0; 515] /\ sum_roi det = [10; 20; 30; 40].
Proof.
  eexists. split; [reflexivity|].
  match goal with
  | |- List.length (roi ?det) = _ /\ _ =>
      assert (H : Detector_init "Eiger2M" [] [10; 20; 30; 40] (1, 2, 2) None None (Some (1, 2, 2)) []
                  = Ok det) by reflexivity;
      destruct (Detector_init_roi _ _ _ _ _ _ _ _ _ H) as (H1 & _ & H3 & H4 & _);
      split; [exact H1|]; split; [rewrite H3; reflexivity|rewrite H4; reflexivity]
  end.
Defined.

Close Scope Z_scope.

(* ------------------------------------------------------------------ *)
(** ** The deprecated classes [SetupPostprocessing] and [SetupPreprocessing] *)

Lemma wavelength_const_neq0 e : e <> 0 -> 12.398 * 1e-7 / e <> 0.
Proof.
  intros He. unfold Rdiv. apply Rmult_integral_contrapositive_currified; [lra|].
  apply Rinv_neq_0_compat; exact He.
Qed.

Lemma wavelength_neq0 s e :
  energy s = Some e -> e <> 0 -> wavelength s = Some (12.398 * 1e-7 / e).
Proof.
  intros He Hne. unfold wavelength. rewrite He.
  destruct (Req_EM_T e 0); [contradiction | reflexivity].
Qed.

Lemma set_beamline_Ok_name name bl :
  set_beamline name = Ok bl ->
  name = match bl with
         | ID01 => "ID01" | SIXS_2018 => "SIXS_2018" | SIXS_2019 => "SIXS_2019"
         | B34ID => "34ID" | P10 => "P10" | CRISTAL => "CRISTAL" | NANOMAX => "NANOMAX"
         end%string.
Proof.
  unfold set_beamline.
  destruct (String.eqb_spec name "ID01") as [->|_]; [intros H; injection H as <-; reflexivity|].
  destruct (String.eqb_spec name "SIXS_2018") as [->|_]; [intros H; injection H as <-; reflexivity|].
  destruct (String.eqb_spec name "SIXS_2019") as [->|_]; [intros H; injection H as <-; reflexivity|].
  destruct (String.eqb_spec name "34ID") as [->|_]; [intros H; injection H as <-; reflexivity|].
  destruct (String.eqb_spec name "P10") as [->|_]; [intros H; injection H as <-; reflexivity|].
  destruct (String.eqb_spec name "CRISTAL") as [->|_]; [intros H; injection H as <-; reflexivity|].
  destruct (String.eqb_spec name "NANOMAX") as [->|_]; [intros H; injection H as <-; reflexivity|].
  intros H; discriminate H.
Qed.

Lemma set_beamline_Err_names name ex :
  set_beamline name = Err ex ->
  String.eqb name "ID01" = false /\ String.eqb name "SIXS_2018" = false /\
  String.eqb name "SIXS_2019" = false /\ String.eqb name "34ID" = false /\
  String.eqb name "P10" = false /\ String.eqb name "CRISTAL" = false /\
  String.eqb name "NANOMAX" = false.
Proof.
  unfold set_beamline.
  destruct (String.eqb name "ID01"); [discriminate|].
  destruct (String.eqb name "SIXS_2018"); [discriminate|].
  destruct (String.eqb name "SIXS_2019"); [discriminate|].
  destruct (String.eqb name "34ID"); [discriminate|].
  destruct (String.eqb name "P10"); [discriminate|].
  destruct (String.eqb name "CRISTAL"); [discriminate|].
  destruct (String.eqb name "NANOMAX"); [discriminate|].
  intros _. repeat split.
Qed.

Lemma Postprocessing_init_Ok name e o i t r d g px py p :
  Postprocessing.init name e o i t r d g px py = Ok p ->
  e <> 0 /\
  p = Postprocessing.mkSetupPostprocessing name e (12.398 * 1e-7 / e) o i t r g d px py
        (hor_of_name name) Z_minus.
Proof.
  unfold Postprocessing.init, py_fdiv. destruct (Req_EM_T e 0); cbn; intros H;
    [discriminate|]. injection H as <-. auto.
Qed.

Lemma Preprocessing_init_Ok name ra d e db bd si so sof oi kw p :
  Preprocessing.init name ra d e db bd si so sof oi kw = Ok p ->
  e <> 0 /\ Preprocessing.wavelength p = 12.398 * 1e-7 / e /\
  Preprocessing.detector_hor p = hor_of_name name /\ Preprocessing.detector_ver p = Z_minus.
Proof.
  unfold Preprocessing.init, py_fdiv.
  destruct (forallb _ kw); cbn; [|discriminate].
  destruct (Req_EM_T e 0); cbn; intros H; [discriminate|]. injection H as <-. auto.
Qed.

Lemma hor_of_name_agree name s :
  set_beamline name = Ok (beamline s) -> hor_of_name name = detector_hor s.
Proof.
  intros Hb. apply set_beamline_Ok_name in Hb.
  unfold detector_hor. destruct (beamline s); subst name; reflexivity.
Qed.

(** Both sides of [update_coords] compute the same construction matrix. *)
Lemma Postprocessing_build_matrix_agree name e o i t0 r d g px0 py0 p s :
  Postprocessing.init name e o i t0 r d g px0 py0 = Ok p ->
  set_beamline name = Ok (beamline s) -> energy s = Some e -> distance s = Some d ->
  outofplane_angle s = Some o -> inplane_angle s = Some i ->
  rocking_angle s = Postprocessing.rocking_of r -> grazing_angle s = Some g ->
  forall shape t x y,
    Postprocessing.build_matrix p shape t x y = build_matrix s shape t x y.
Proof.
  intros Hp Hb He Hd Ho Hi Hr Hg shape t x y.
  destruct (Postprocessing_init_Ok _ _ _ _ _ _ _ _ _ _ _ Hp) as [Hne ->].
  unfold Postprocessing.build_matrix, build_matrix.
  rewrite (wavelength_neq0 s e He Hne), Hd, Ho, Hi. unfold read_grazing_angle. rewrite Hg.
  destruct x, y, t; cbn [py_scale_1e9 py_radians bind]; try reflexivity.
  destruct shape as [[nbz nby] nbx].
  cbn [Postprocessing.beamline Postprocessing.rocking_angle Postprocessing.wavelength
       Postprocessing.distance Postprocessing.outofplane_angle Postprocessing.inplane_angle
       Postprocessing.grazing_angle].
  rewrite Hb, Hr. reflexivity.
Qed.

Lemma Postprocessing_build_matrix_Ok p nbz nby nbx t x y :
  Postprocessing.build_matrix p (nbz, nby, nbx) (Some t) (Some x) (Some y)
  = Ok (match set_beamline (Postprocessing.beamline p) with
        | Ok bl =>
            mymatrix_of (Postprocessing.rocking_of (Postprocessing.rocking_angle p))
              (radians (Postprocessing.grazing_angle p))
              (radians (Postprocessing.outofplane_angle p))
              (radians (Postprocessing.inplane_angle p)) (radians t)
              (Postprocessing.distance p * 1e9)
              (Postprocessing.wavelength p * 1e9 * (Postprocessing.distance p * 1e9))
              (x * 1e9) (y * 1e9) (IZR nbz) (IZR nby) (IZR nbx) bl
        | Err _ => zeros3
        end).
Proof. reflexivity. Qed.

Lemma two_pi_inv_transpose_zeros3 : two_pi_inv_transpose zeros3 = Err LinAlgError.
Proof.
  unfold two_pi_inv_transpose, inv3.
  destruct (Req_EM_T (det3 zeros3) 0) as [_|H]; [reflexivity|].
  exfalso. apply H. unfold det3, zeros3. cbn. ring.
Qed.

(** X18: [SetupPostprocessing.outofplane_coeff] is always 1. For a beamline name that the [Setup] setter accepts, [SetupPostprocessing.inplane_coeff] and [outofplane_coeff] equal those of a [Setup] on that beamline; for any other name, which the deprecated constructor accepts, [inplane_coeff] raises [ValueError]. *)
Theorem Postprocessing_coeffs_agree :
  forall name e o i t r d g px py p,
  Postprocessing.init name e o i t r d g px py = Ok p ->
  Postprocessing.outofplane_coeff p = 1%Z /\
  (forall s, set_beamline name = Ok (beamline s) ->
     Postprocessing.inplane_coeff p = Ok (inplane_coeff s) /\
     Postprocessing.outofplane_coeff p = outofplane_coeff s) /\
  (forall ex, set_beamline name = Err ex -> Postprocessing.inplane_coeff p = Err ValueError).
Proof.
  intros name e o i t r d g px py p Hp.
  destruct (Postprocessing_init_Ok _ _ _ _ _ _ _ _ _ _ _ Hp) as [_ ->].
  split; [reflexivity|]. split.
  - intros s Hb. apply set_beamline_Ok_name in Hb.
    unfold inplane_coeff, outofplane_coeff, detector_hor, detector_ver.
    destruct (beamline s); subst name; split; reflexivity.
  - intros ex Hb.
    destruct (set_beamline_Err_names _ _ Hb) as (E1 & E2 & E3 & E4 & E5 & E6 & E7).
    unfold Postprocessing.inplane_coeff. cbn [Postprocessing.beamline].
    rewrite E1, E2, E3, E4, E5, E6, E7. reflexivity.
Qed.

(** X19: for a beamline name that the [Setup] setter accepts, [SetupPostprocessing.exit_wavevector] equals [Setup.exit_wavevector] for the same energy and detector angles; for any other name it raises [ValueError]. *)
Theorem Postprocessing_exit_wavevector_agree :
  forall name e o i t r d g px py p,
  Postprocessing.init name e o i t r d g px py = Ok p ->
  (forall s, set_beamline name = Ok (beamline s) -> energy s = Some e ->
     outofplane_angle s = Some o -> inplane_angle s = Some i ->
     Postprocessing.exit_wavevector p = exit_wavevector s) /\
  (forall ex, set_beamline name = Err ex -> Postprocessing.exit_wavevector p = Err ValueError).
Proof.
  intros name e o i t r d g px py p Hp.
  destruct (Postprocessing_init_Ok _ _ _ _ _ _ _ _ _ _ _ Hp) as [Hne ->].
  split.
  - intros s Hb He Ho Hi. apply set_beamline_Ok_name in Hb.
    unfold exit_wavevector. rewrite (wavelength_neq0 s e He Hne), Ho, Hi. cbn [py_some bind].
    unfold Postprocessing.exit_wavevector, py_fdiv. cbn [Postprocessing.beamline
      Postprocessing.wavelength Postprocessing.inplane_angle Postprocessing.outofplane_angle].
    destruct (Req_EM_T (12.398 * 1e-7 / e) 0) as [H0|_];
      [exfalso; exact (wavelength_const_neq0 e Hne H0)|].
    destruct (beamline s); subst name; reflexivity.
  - intros ex Hb.
    destruct (set_beamline_Err_names _ _ Hb) as (E1 & E2 & E3 & E4 & E5 & E6 & E7).
    unfold Postprocessing.exit_wavevector. cbn [Postprocessing.beamline].
    rewrite E1, E2, E3, E4, E5, E6, E7. reflexivity.
Qed.

(** X20: [SetupPostprocessing.voxel_sizes_detector] gives the same result as [Setup.voxel_sizes_detector] (value or exception) for the same energy and distance, on all arguments. *)
Theorem Postprocessing_voxel_sizes_detector_agree :
  forall name e o i t r d g px py p,
  Postprocessing.init name e o i t r d g px py = Ok p ->
  forall s, energy s = Some e -> distance s = Some d ->
  forall shape tilt pixel_x pixel_y,
    Postprocessing.voxel_sizes_detector p shape tilt pixel_x pixel_y
    = voxel_sizes_detector s shape tilt pixel_x pixel_y.
Proof.
  intros name e o i t r d g px py p Hp s He Hd shape tilt pixel_x pixel_y.
  destruct (Postprocessing_init_Ok _ _ _ _ _ _ _ _ _ _ _ Hp) as [Hne ->].
  unfold Postprocessing.voxel_sizes_detector, voxel_sizes_detector.
  destruct shape as [[n0 n1] n2].
  rewrite (wavelength_neq0 s e He Hne), Hd. cbn [py_some bind Postprocessing.wavelength
    Postprocessing.distance].
  destruct tilt; cbn [py_some bind]; [|reflexivity].
  destruct (py_fdiv _ _); cbn [bind]; [|reflexivity].
  destruct pixel_y; cbn [py_some bind]; [|reflexivity].
  destruct (py_fdiv _ _); cbn [bind]; [|reflexivity].
  reflexivity.
Qed.

(** X21: [SetupPostprocessing.update_coords] and [voxel_sizes] give the same result (value or exception) as those of a [Setup] with the same beamline, energy, distance, angles and rocking angle on which [grazing_angle] has been assigned. *)
Theorem Postprocessing_update_coords_agree :
  forall name e o i t0 r d g px0 py0 p,
  Postprocessing.init name e o i t0 r d g px0 py0 = Ok p ->
  forall s, set_beamline name = Ok (beamline s) -> energy s = Some e -> distance s = Some d ->
  outofplane_angle s = Some o -> inplane_angle s = Some i ->
  rocking_angle s = Postprocessing.rocking_of r -> grazing_angle s = Some g ->
  forall shape t x y,
    Postprocessing.update_coords p shape t x y = update_coords s shape t x y /\
    Postprocessing.voxel_sizes p shape t x y = voxel_sizes s shape t x y.
Proof.
  intros name e o i t0 r d g px0 py0 p Hp s Hb He Hd Ho Hi Hr Hg shape t x y.
  assert (Hm : Postprocessing.update_coords p shape t x y = update_coords s shape t x y).
  { unfold Postprocessing.update_coords, update_coords.
    rewrite (Postprocessing_build_matrix_agree name e o i t0 r d g px0 py0 p s); auto. }
  split; [exact Hm|]. unfold Postprocessing.voxel_sizes, voxel_sizes. rewrite Hm. reflexivity.
Qed.

(** X22: on a [SetupPostprocessing] instance (whose constructor assigns [grazing_angle]), [update_coords] raises [LinAlgError] for a beamline outside the seven names or a rocking angle without formula; for a defined branch with positive energy, distance, pixel sizes and shape, a non-zero tilt and non-degenerate angles it returns an invertible transfer matrix and [voxel_sizes] returns. *)
Theorem Postprocessing_update_coords_returns :
  forall name e o i t0 r d g px0 py0 p nbz nby nbx x y t,
  Postprocessing.init name e o i t0 r d g px0 py0 = Ok p ->
  ((exists ex, set_beamline name = Err ex) \/
   (exists bl, set_beamline name = Ok bl /\ branch_defined bl (Postprocessing.rocking_of r) = false) ->
   Postprocessing.update_coords p (nbz, nby, nbx) (Some t) (Some x) (Some y) = Err LinAlgError) /\
  (forall bl, set_beamline name = Ok bl ->
   branch_defined bl (Postprocessing.rocking_of r) = true ->
   0 < e -> 0 < d -> 0 < x -> 0 < y -> (0 < nbz)%Z -> (0 < nby)%Z -> (0 < nbx)%Z -> t <> 0 ->
   (Postprocessing.rocking_of r = Some Outofplane -> 0 < o < 180) ->
   (Postprocessing.rocking_of r = Some Inplane -> -90 < o < 90 /\ 0 < i < 180 /\ -90 < g < 90) ->
   exists T v,
     Postprocessing.update_coords p (nbz, nby, nbx) (Some t) (Some x) (Some y) = Ok T /\
     det3 T <> 0 /\
     Postprocessing.voxel_sizes p (nbz, nby, nbx) (Some t) (Some x) (Some y) = Ok v).
Proof.
  intros name e o i t0 r d g px0 py0 p nbz nby nbx x y t Hp.
  pose proof (Postprocessing_init_Ok _ _ _ _ _ _ _ _ _ _ _ Hp) as [Hne Ep].
  split.
  - intros Hcase. unfold Postprocessing.update_coords.
    rewrite Postprocessing_build_matrix_Ok. cbn [bind].
    rewrite Ep. cbn [Postprocessing.beamline Postprocessing.rocking_angle].
    destruct Hcase as [[ex Hb] | (bl & Hb & Hdef)]; rewrite Hb.
    + exact two_pi_inv_transpose_zeros3.
    + rewrite mymatrix_undefined by exact Hdef. exact two_pi_inv_transpose_zeros3.
  - intros bl Hb Hdef He Hd Hx Hy Hz Hyy Hxx Ht Hout Hin.
    set (s := mkSetup bl (1, 0, 0) (Some e) (Some d) (Some o) (Some i) (Some t0)
                (Postprocessing.rocking_of r) (Some px0) (Some py0) (Some g)).
    destruct (update_coords_nonsingular s nbz nby nbx e d x y o i g t) as (T & HT & HdT);
      try assumption; try reflexivity.
    assert (Hu : Postprocessing.update_coords p (nbz, nby, nbx) (Some t) (Some x) (Some y)
                 = Ok T).
    { unfold Postprocessing.update_coords.
      rewrite (Postprocessing_build_matrix_agree name e o i t0 r d g px0 py0 p s);
        try assumption; try reflexivity. }
    destruct (two_pi_inv_transpose_involutive T HdT) as (M & HM & _).
    exists T, (2 * PI / norm3 (a20 M) (a21 M) (a22 M), 2 * PI / norm3 (a10 M) (a11 M) (a12 M),
               2 * PI / norm3 (a00 M) (a01 M) (a02 M)).
    split; [exact Hu|]. split; [exact HdT|].
    unfold Postprocessing.voxel_sizes. rewrite Hu. cbn [bind].
    unfold voxel_sizes_of_transfer. rewrite HM. reflexivity.
Qed.

(** X23: [SetupPreprocessing(...)] fails exactly with [Exception] when a keyword argument is outside the six allowed ones (checked first, whatever the energy), or otherwise with [ZeroDivisionError] when the energy is 0. *)
Theorem Preprocessing_init_errors :
  forall name ra d e db bd si so sof oi kw ex,
  Preprocessing.init name ra d e db bd si so sof oi kw = Err ex <->
  ((exists kv, In kv kw /\ ~ In (fst kv) Preprocessing.allowed_kwargs) /\
   ex = GenericException) \/
  ((forall kv, In kv kw -> In (fst kv) Preprocessing.allowed_kwargs) /\
   e = 0 /\ ex = ZeroDivisionError).
Proof.
  intros name ra d e db bd si so sof oi kw ex.
  unfold Preprocessing.init.
  destruct (forallb (fun kv => str_in (fst kv) Preprocessing.allowed_kwargs) kw) eqn:F.
  - assert (Hall : forall kv, In kv kw -> In (fst kv) Preprocessing.allowed_kwargs).
    { intros kv Hkv. rewrite forallb_forall in F. apply existsb_known, F, Hkv. }
    cbn [bind]. unfold py_fdiv. destruct (Req_EM_T e 0) as [E|E]; cbn [bind]; split.
    + intros H. injection H as <-. right. auto.
    + intros [[(kv & Hkv & Hn) _] | (_ & _ & ->)]; [exfalso; exact (Hn (Hall kv Hkv)) | reflexivity].
    + discriminate.
    + intros [[(kv & Hkv & Hn) _] | (_ & E' & _)]; [exfalso; exact (Hn (Hall kv Hkv)) | contradiction].
  - destruct (forallb_false _ _ F) as (kv & Hkv & Fkv).
    assert (Hn : ~ In (fst kv) Preprocessing.allowed_kwargs).
    { intros Hin. apply existsb_known in Hin. unfold str_in in Fkv. congruence. }
    cbn [bind]. split.
    + intros H. injection H as <-. left. split; [exists kv; auto | reflexivity].
    + intros [[_ ->] | (Hall & _)]; [reflexivity | exfalso; exact (Hn (Hall kv Hkv))].
Qed.

(** X24: for a beamline name that the [Setup] setter accepts, both deprecated constructors choose the detector orientation ([detector_hor], [detector_ver]) of a [Setup] on that beamline, and their [wavelength] equals [Setup.wavelength] for the same energy. *)
Theorem deprecated_orientation_agree :
  forall name s, set_beamline name = Ok (beamline s) ->
  (forall e o i t r d g px py p, Postprocessing.init name e o i t r d g px py = Ok p ->
     Postprocessing.detector_hor p = detector_hor s /\
     Postprocessing.detector_ver p = detector_ver s /\
     (energy s = Some e -> wavelength s = Some (Postprocessing.wavelength p))) /\
  (forall ra d e db bd si so sof oi kw p,
     Preprocessing.init name ra d e db bd si so sof oi kw = Ok p ->
     Preprocessing.detector_hor p = detector_hor s /\
     Preprocessing.detector_ver p = detector_ver s /\
     (energy s = Some e -> wavelength s = Some (Preprocessing.wavelength p))).
Proof.
  intros name s Hb.
  assert (Hver : detector_ver s = Z_minus) by (unfold detector_ver; destruct (beamline s); reflexivity).
  split.
  - intros e o i t r d g px py p Hp.
    destruct (Postprocessing_init_Ok _ _ _ _ _ _ _ _ _ _ _ Hp) as [Hne ->]. cbn.
    split; [exact (hor_of_name_agree name s Hb)|]. split; [exact (eq_sym Hver)|].
    intros He. exact (wavelength_neq0 s e He Hne).
  - intros ra d e db bd si so sof oi kw p Hp.
    destruct (Preprocessing_init_Ok _ _ _ _ _ _ _ _ _ _ _ _ Hp) as (Hne & Hw & Hh & Hv).
    rewrite Hh, Hv, Hw.
    split; [exact (hor_of_name_agree name s Hb)|]. split; [exact (eq_sym Hver)|].
    intros He. exact (wavelength_neq0 s e He Hne).
Qed.

Lemma Postprocessing_init_8800 name r :
  exists p, Postprocessing.init name 8800 0 7.248 0.01 r 7.25 0 110e-6 110e-6 = Ok p.
Proof.
  unfold Postprocessing.init, py_fdiv. destruct (Req_EM_T 8800 0); [lra|]. eexists; reflexivity.
Qed.

Lemma Preprocessing_init_8800 name :
  exists p, Preprocessing.init name PyNone (PyNum 7.25) 8800 PyNone PyNone PyNone PyNone PyNone
              PyNone [] = Ok p.
Proof.
  unfold Preprocessing.init, py_fdiv. cbn [forallb bind].
  destruct (Req_EM_T 8800 0); [lra|]. eexists; reflexivity.
Qed.

Lemma Postprocessing_coeffs_agree_witness :
  (exists p, Postprocessing.init "ID01" 8800 0 7.248 0.01 "inplane" 7.25 0 110e-6 110e-6 = Ok p /\
     Postprocessing.outofplane_coeff p = 1%Z /\
     Postprocessing.inplane_coeff p = Ok (inplane_coeff setup_id01_grazing0) /\
     Postprocessing.outofplane_coeff p = outofplane_coeff setup_id01_grazing0) /\
  (exists p, Postprocessing.init "P9" 8800 0 7.248 0.01 "inplane" 7.25 0 110e-6 110e-6 = Ok p /\
     Postprocessing.inplane_coeff p = Err ValueError).
Proof.
  split.
  - destruct (Postprocessing_init_8800 "ID01" "inplane") as [p Hp]. exists p.
    destruct (Postprocessing_coeffs_agree _ _ _ _ _ _ _ _ _ _ _ Hp) as (H1 & H2 & _).
    destruct (H2 setup_id01_grazing0 eq_refl) as [H3 H4]. auto.
  - destruct (Postprocessing_init_8800 "P9" "inplane") as [p Hp]. exists p.
    destruct (Postprocessing_coeffs_agree _ _ _ _ _ _ _ _ _ _ _ Hp) as (_ & _ & H3).
    split; [exact Hp | exact (H3 ValueError eq_refl)].
Defined.

Lemma Postprocessing_exit_wavevector_agree_witness :
  (exists p, Postprocessing.init "ID01" 8800 0 7.248 0.01 "inplane" 7.25 0 110e-6 110e-6 = Ok p /\
     Postprocessing.exit_wavevector p = exit_wavevector setup_id01_grazing0) /\
  (exists p, Postprocessing.init "P9" 8800 0 7.248 0.01 "inplane" 7.25 0 110e-6 110e-6 = Ok p /\
     Postprocessing.exit_wavevector p = Err ValueError).
Proof.
  split.
  - destruct (Postprocessing_init_8800 "ID01" "inplane") as [p Hp]. exists p.
    destruct (Postprocessing_exit_wavevector_agree _ _ _ _ _ _ _ _ _ _ _ Hp) as [H1 _].
    split; [exact Hp | exact (H1 setup_id01_grazing0 eq_refl eq_refl eq_refl eq_refl)].
  - destruct (Postprocessing_init_8800 "P9" "inplane") as [p Hp]. exists p.
    destruct (Postprocessing_exit_wavevector_agree _ _ _ _ _ _ _ _ _ _ _ Hp) as [_ H2].
    split; [exact Hp | exact (H2 ValueError eq_refl)].
Defined.

Lemma Postprocessing_voxel_sizes_detector_agree_witness :
  exists p, Postprocessing.init "ID01" 8800 0 7.248 0.01 "inplane" 7.25 0 110e-6 110e-6 = Ok p /\
    Postprocessing.voxel_sizes_detector p (41, 256, 256)%Z (Some 0.01) (Some 110e-6) (Some 110e-6)
    = voxel_sizes_detector setup_id01_grazing0 (41, 256, 256)%Z (Some 0.01) (Some 110e-6)
        (Some 110e-6).
Proof.
  destruct (Postprocessing_init_8800 "ID01" "inplane") as [p Hp]. exists p.
  split; [exact Hp|].
  exact (Postprocessing_voxel_sizes_detector_agree _ _ _ _ _ _ _ _ _ _ _ Hp
           setup_id01_grazing0 eq_refl eq_refl _ _ _ _).
Defined.

Lemma Postprocessing_update_coords_agree_witness :
  exists p, Postprocessing.init "ID01" 8800 0 7.248 0.01 "inplane" 7.25 0 110e-6 110e-6 = Ok p /\
    Postprocessing.update_coords p (41, 256, 256)%Z (Some 0.01) (Some 110e-6) (Some 110e-6)
    = update_coords setup_id01_grazing0 (41, 256, 256)%Z (Some 0.01) (Some 110e-6)
        (Some 110e-6) /\
    Postprocessing.voxel_sizes p (41, 256, 256)%Z (Some 0.01) (Some 110e-6) (Some 110e-6)
    = voxel_sizes setup_id01_grazing0 (41, 256, 256)%Z (Some 0.01) (Some 110e-6)
        (Some 110e-6).
Proof.
  destruct (Postprocessing_init_8800 "ID01" "inplane") as [p Hp]. exists p.
  split; [exact Hp|].
  exact (Postprocessing_update_coords_agree _ _ _ _ _ _ _ _ _ _ _ Hp setup_id01_grazing0
           eq_refl eq_refl eq_refl eq_refl eq_refl eq_refl eq_refl _ _ _ _).
Defined.

Lemma Postprocessing_update_coords_returns_witness :
  (exists p T v,
     Postprocessing.init "ID01" 8800 0 7.248 0.01 "inplane" 7.25 0 110e-6 110e-6 = Ok p /\
     Postprocessing.update_coords p (41, 256, 256)%Z (Some 0.01) (Some 110e-6) (Some 110e-6)
     = Ok T /\ det3 T <> 0 /\
     Postprocessing.voxel_sizes p (41, 256, 256)%Z (Some 0.01) (Some 110e-6) (Some 110e-6)
     = Ok v) /\
  (exists p,
     Postprocessing.init "CRISTAL" 8800 0 7.248 0.01 "inplane" 7.25 0 110e-6 110e-6 = Ok p /\
     Postprocessing.update_coords p (41, 256, 256)%Z (Some 0.01) (Some 110e-6) (Some 110e-6)
     = Err LinAlgError).
Proof.
  split.
  - destruct (Postprocessing_init_8800 "ID01" "inplane") as [p Hp].
    destruct (Postprocessing_update_coords_returns _ _ _ _ _ _ _ _ _ _ _ 41 256 256 110e-6 110e-6
                0.01 Hp) as [_ H2].
    assert (Hx : exists T v,
      Postprocessing.update_coords p (41, 256, 256)%Z (Some 0.01) (Some 110e-6) (Some 110e-6)
      = Ok T /\ det3 T <> 0 /\
      Postprocessing.voxel_sizes p (41, 256, 256)%Z (Some 0.01) (Some 110e-6) (Some 110e-6)
      = Ok v).
    { apply (H2 ID01); try reflexivity; try lra; try lia;
        intros H; try discriminate H; repeat split; lra. }
    destruct Hx as (T & v & HT & HdT & Hv).
    exists p, T, v. auto.
  - destruct (Postprocessing_init_8800 "CRISTAL" "inplane") as [p Hp]. exists p.
    split; [exact Hp|].
    destruct (Postprocessing_update_coords_returns _ _ _ _ _ _ _ _ _ _ _ 41 256 256 110e-6 110e-6
                0.01 Hp) as [H1 _].
    apply H1. right. exists CRISTAL. split; reflexivity.
Defined.

Lemma Preprocessing_init_errors_witness :
  Preprocessing.init "ID01" PyNone (PyNum 1) 0 PyNone PyNone PyNone PyNone PyNone PyNone
    [("title"%string, Preprocessing.VBool true)] = Err GenericException /\
  Preprocessing.init "ID01" PyNone (PyNum 1) 0 PyNone PyNone PyNone PyNone PyNone PyNone
    [("custom_scan"%string, Preprocessing.VBool true)] = Err ZeroDivisionError.
Proof.
  split.
  - apply (proj2 (Preprocessing_init_errors "ID01" PyNone (PyNum 1) 0 PyNone PyNone PyNone
                    PyNone PyNone PyNone [("title"%string, Preprocessing.VBool true)] GenericException)).
    left. split; [|reflexivity]. exists ("title"%string, Preprocessing.VBool true). split; [left; reflexivity|].
    cbn. intros H. repeat destruct H as [H|H]; try discriminate H; exact H.
  - apply (proj2 (Preprocessing_init_errors "ID01" PyNone (PyNum 1) 0 PyNone PyNone PyNone
                    PyNone PyNone PyNone [("custom_scan"%string, Preprocessing.VBool true)] ZeroDivisionError)).
    right. split; [|split; reflexivity].
    intros kv [<-|[]]. cbn. right; right; left; reflexivity.
Defined.

Lemma deprecated_orientation_agree_witness :
  (exists p, Postprocessing.init "ID01" 8800 0 7.248 0.01 "inplane" 7.25 0 110e-6 110e-6 = Ok p /\
     Postprocessing.detector_hor p = detector_hor setup_id01_grazing0 /\
     Postprocessing.detector_ver p = detector_ver setup_id01_grazing0 /\
     wavelength setup_id01_grazing0 = Some (Postprocessing.wavelength p)) /\
  (exists p, Preprocessing.init "ID01" PyNone (PyNum 7.25) 8800 PyNone PyNone PyNone PyNone PyNone
               PyNone [] = Ok p /\
     Preprocessing.detector_hor p = detector_hor setup_id01_grazing0 /\
     Preprocessing.detector_ver p = detector_ver setup_id01_grazing0 /\
     wavelength setup_id01_grazing0 = Some (Preprocessing.wavelength p)).
Proof.
  destruct (deprecated_orientation_agree "ID01" setup_id01_grazing0 eq_refl) as [H1 H2].
  split.
  - destruct (Postprocessing_init_8800 "ID01" "inplane") as [p Hp]. exists p.
    destruct (H1 _ _ _ _ _ _ _ _ _ _ Hp) as (A & B & C). auto.
  - destruct (Preprocessing_init_8800 "ID01") as [p Hp]. exists p.
    destruct (H2 _ _ _ _ _ _ _ _ _ _ _ Hp) as (A & B & C). auto.
Defined.

Lemma Postprocessing_build_matrix_rescaled p s0 s1 s2 nbz nby nbx t px py :
  (nbz <> 0)%Z -> (nby <> 0)%Z -> (nbx <> 0)%Z ->
  Postprocessing.build_matrix p (nbz, nby, nbx) (Some (t * IZR s0 / IZR nbz))
    (Some (px * IZR s2 / IZR nbx)) (Some (py * IZR s1 / IZR nby))
  = Postprocessing.build_matrix p (s0, s1, s2) (Some t) (Some px) (Some py).
Proof.
  intros Hz Hy Hx. apply not_0_IZR in Hz, Hy, Hx.
  rewrite !Postprocessing_build_matrix_Ok.
  destruct (set_beamline (Postprocessing.beamline p)); [|reflexivity].
  rewrite mymatrix_of_rescaled by assumption. reflexivity.
Qed.

Lemma Postprocessing_voxel_sizes_rescaled p s0 s1 s2 nbz nby nbx t px py :
  (0 < nbz)%Z -> (0 < nby)%Z -> (0 < nbx)%Z -> (0 <= s0)%Z ->
  Postprocessing.voxel_sizes p (nbz, nby, nbx) (Some (Rabs (t * IZR s0 / IZR nbz)))
    (Some (px * IZR s2 / IZR nbx)) (Some (py * IZR s1 / IZR nby))
  = Postprocessing.voxel_sizes p (s0, s1, s2) (Some (Rabs t)) (Some px) (Some py).
Proof.
  intros Hz Hy Hx Hs. unfold Postprocessing.voxel_sizes, Postprocessing.update_coords.
  rewrite Rabs_rescale by assumption.
  rewrite Postprocessing_build_matrix_rescaled by lia. reflexivity.
Qed.

(** X25: when [orthogonalize] is called without a voxel size and succeeds on an
    object of positive shape, the result keeps the shape and the dtype of the
    object, and the voxel size it returns is the mean of the three voxel sizes
    computed at the initial shape with the instance's tilt angle and pixel
    sizes; for an object cropped from that shape, the rescaled tilt and pixel
    sizes give the same voxel sizes. *)
Theorem Postprocessing_orthogonalize_default_voxel p obj ish o v :
  Postprocessing.orthogonalize p obj ish None = Ok (o, v) ->
  (let '(nbz, nby, nbx) := shape3 obj in (0 < nbz /\ 0 < nby /\ 0 < nbx)%Z) ->
  (let '(s0, _, _) := match ish with Some sh => sh | None => shape3 obj end in (0 <= s0)%Z) ->
  shape3 o = shape3 obj /\ dtype o = dtype obj /\
  exists dz dy dx,
    Postprocessing.voxel_sizes p (match ish with Some sh => sh | None => shape3 obj end)
      (Some (Rabs (Postprocessing.tilt_angle p))) (Some (Postprocessing.pixel_x p))
      (Some (Postprocessing.pixel_y p)) = Ok (dz, dy, dx) /\
    v = (dz + dy + dx) / 3.
Proof.
  destruct obj as [[[nbz nby] nbx] dt dat]. cbn [shape3 dtype].
  destruct (match ish with Some sh => sh | None => (nbz, nby, nbx) end) as [[s0 s1] s2] eqn:Esh.
  intros H (Hz & Hy & Hx) Hs.
  unfold Postprocessing.orthogonalize in H. cbn [shape3 dtype data3] in H. cbv zeta in H.
  rewrite Esh in H.
  apply bind_Ok_inv in H; destruct H as (vs0 & Hvs0 & H). cbv beta iota in H.
  apply bind_Ok_inv in H; destruct H as ([[[vs tilt] px'] py'] & Hp & H). cbv beta iota in H.
  apply bind_Ok_inv in H; destruct H as (T & _ & H). cbv beta in H.
  apply bind_Ok_inv in H; destruct H as (im & _ & H). cbv beta zeta in H.
  injection H as Ho Hv. subst o. cbn [shape3 dtype reshape_astype].
  split; [reflexivity|]. split; [reflexivity|].
  assert (Hvs : Postprocessing.voxel_sizes p (s0, s1, s2)
                  (Some (Rabs (Postprocessing.tilt_angle p))) (Some (Postprocessing.pixel_x p))
                  (Some (Postprocessing.pixel_y p)) = Ok vs).
  { destruct (negb ((nbz =? s0)%Z && (nby =? s1)%Z && (nbx =? s2)%Z)).
    - cbn [bind] in Hp. unfold py_div_int in Hp.
      destruct (Z.eqb_spec nbz 0); [lia|]. cbn [bind] in Hp.
      destruct (Z.eqb_spec nby 0); [lia|]. cbn [bind] in Hp.
      destruct (Z.eqb_spec nbx 0); [lia|]. cbn [bind] in Hp.
      rewrite Postprocessing_voxel_sizes_rescaled in Hp by assumption.
      apply bind_Ok_inv in Hp; destruct Hp as (vs1 & Hvs1 & Hp). injection Hp as <- _ _ _.
      exact Hvs1.
    - injection Hp as <- _ _ _. exact Hvs0. }
  destruct vs as [[dz dy] dx]. exists dz, dy, dx. split; [exact Hvs|]. subst v. reflexivity.
Qed.

(** X26: [detector_frame] of the deprecated class raises the exception of
    [update_coords] (at the object's shape, with the instance's tilt angle and
    pixel sizes) when that call fails. When it returns, the interpolator raises
    [ValueError] if [voxelsize <= 0] and an axis has two points or more;
    otherwise [detector_frame] succeeds. A result keeps the shape and the
    dtype of the object and holds one value per point of the meshgrid. *)
Theorem Postprocessing_detector_frame_result p obj v :
  (forall e,
     Postprocessing.update_coords p (shape3 obj) (Some (Postprocessing.tilt_angle p))
       (Some (Postprocessing.pixel_x p)) (Some (Postprocessing.pixel_y p)) = Err e ->
     Postprocessing.detector_frame p obj v = Err e) /\
  (forall T,
     Postprocessing.update_coords p (shape3 obj) (Some (Postprocessing.tilt_angle p))
       (Some (Postprocessing.pixel_x p)) (Some (Postprocessing.pixel_y p)) = Ok T ->
     (let '(nbz, nby, nbx) := shape3 obj in
      v <= 0 /\ (2 <= nbz \/ 2 <= nby \/ 2 <= nbx)%Z) ->
     Postprocessing.detector_frame p obj v = Err ValueError) /\
  (forall T,
     Postprocessing.update_coords p (shape3 obj) (Some (Postprocessing.tilt_angle p))
       (Some (Postprocessing.pixel_x p)) (Some (Postprocessing.pixel_y p)) = Ok T ->
     (let '(nbz, nby, nbx) := shape3 obj in
      0 < v \/ (nbz <= 1 /\ nby <= 1 /\ nbx <= 1)%Z) ->
     exists o, Postprocessing.detector_frame p obj v = Ok o) /\
  (forall o, Postprocessing.detector_frame p obj v = Ok o ->
     shape3 o = shape3 obj /\ dtype o = dtype obj /\
     List.length (data3 o) = List.length (meshgrid_ij (detframe_mesh_axes (shape3 obj)))).
Proof.
  destruct obj as [[[nbz nby] nbx] dt dat].
  unfold Postprocessing.detector_frame. cbn [shape3 dtype data3].
  split; [|split; [|split]].
  - intros e He. rewrite He. reflexivity.
  - intros T HT Hv. rewrite HT. cbn [bind].
    rewrite rgi_check_grid_detframe_err by tauto. reflexivity.
  - intros T HT Hv. rewrite HT. cbn [bind].
    rewrite rgi_check_grid_detframe_ok by tauto. eexists; reflexivity.
  - intros o H.
    destruct (Postprocessing.update_coords _ _ _ _ _) as [T|e]; cbn [bind] in H;
      [|discriminate H].
    destruct (rgi_check_grid _) as [u|e]; cbn [bind] in H; [|discriminate H].
    injection H as <-. cbn [shape3 dtype data3 reshape_astype].
    split; [reflexivity|]. split; [reflexivity|].
    unfold rgi_linear_fill0. rewrite !length_map. reflexivity.
Qed.

Lemma Postprocessing_id01_nonsingular nbz nby nbx :
  (0 < nbz)%Z -> (0 < nby)%Z -> (0 < nbx)%Z ->
  exists p T,
    Postprocessing.init "ID01" 8800 0 7.248 0.01 "inplane" 7.25 0 110e-6 110e-6 = Ok p /\
    Postprocessing.update_coords p (nbz, nby, nbx) (Some 0.01) (Some 110e-6) (Some 110e-6)
    = Ok T /\ det3 T <> 0.
Proof.
  intros Hz Hy Hx.
  destruct (Postprocessing_init_8800 "ID01" "inplane") as [p Hp].
  assert (HU : exists T, update_coords setup_id01_grazing0 (nbz, nby, nbx) (Some 0.01)
                 (Some 110e-6) (Some 110e-6) = Ok T /\ det3 T <> 0).
  { apply (update_coords_nonsingular setup_id01_grazing0 nbz nby nbx 8800 7.25 110e-6 110e-6
             0 7.248 0 0.01); try reflexivity; try lia; try lra;
      intros H; try discriminate H; repeat split; lra. }
  destruct HU as (T & HT & HdT).
  exists p, T. split; [exact Hp|]. split; [|exact HdT].
  unfold Postprocessing.update_coords.
  rewrite (Postprocessing_build_matrix_agree "ID01" 8800 0 7.248 0.01 "inplane" 7.25 0 110e-6
             110e-6 p setup_id01_grazing0); try assumption; try reflexivity.
Qed.

Lemma Postprocessing_orthogonalize_default_voxel_witness :
  exists p o v,
    Postprocessing.init "ID01" 8800 0 7.248 0.01 "inplane" 7.25 0 110e-6 110e-6 = Ok p /\
    Postprocessing.orthogonalize p obj_2x2x2 None None = Ok (o, v) /\
    shape3 o = (2, 2, 2)%Z /\ dtype o = DReal /\
    exists dz dy dx,
      Postprocessing.voxel_sizes p (2, 2, 2)%Z (Some (Rabs 0.01)) (Some 110e-6) (Some 110e-6)
      = Ok (dz, dy, dx) /\ v = (dz + dy + dx) / 3.
Proof.
  destruct (Postprocessing_id01_nonsingular 2 2 2) as (p & T & Hp & HT & Hd); try lia.
  destruct (two_pi_inv_transpose_involutive T Hd) as (R0 & HR0 & _).
  destruct (inv3_nonsingular T Hd) as (im & Him).
  assert (Hv : Postprocessing.voxel_sizes p (2, 2, 2)%Z (Some (Rabs 0.01)) (Some 110e-6)
                 (Some 110e-6) = Ok (2 * PI / norm3 (a20 R0) (a21 R0) (a22 R0),
                                     2 * PI / norm3 (a10 R0) (a11 R0) (a12 R0),
                                     2 * PI / norm3 (a00 R0) (a01 R0) (a02 R0))).
  { replace (Rabs 0.01) with 0.01 by (rewrite Rabs_right; lra).
    unfold Postprocessing.voxel_sizes. rewrite HT. cbn [bind].
    unfold voxel_sizes_of_transfer. rewrite HR0. reflexivity. }
  destruct (Postprocessing_init_Ok _ _ _ _ _ _ _ _ _ _ _ Hp) as [_ Ep].
  assert (Ho : exists r, Postprocessing.orthogonalize p obj_2x2x2 None None = Ok r).
  { eexists. unfold Postprocessing.orthogonalize.
    rewrite Ep in Hv |- *. cbn [shape3 obj_2x2x2 Postprocessing.tilt_angle
      Postprocessing.pixel_x Postprocessing.pixel_y].
    rewrite Hv. cbn [bind Z.eqb negb andb Pos.eqb].
    rewrite Ep in HT. rewrite HT. cbn [bind]. rewrite Him. reflexivity. }
  destruct Ho as ([o v] & Ho).
  destruct (Postprocessing_orthogonalize_default_voxel p obj_2x2x2 None o v Ho)
    as (Hs & Hdt & dz & dy & dx & Hvs & Hvv); try (cbn; lia).
  exists p, o, v. split; [exact Hp|]. split; [exact Ho|]. split; [exact Hs|].
  split; [exact Hdt|]. exists dz, dy, dx. split; [|exact Hvv].
  rewrite Ep in Hvs |- *. exact Hvs.
Defined.

Lemma Postprocessing_detector_frame_result_witness :
  (exists p o,
     Postprocessing.init "ID01" 8800 0 7.248 0.01 "inplane" 7.25 0 110e-6 110e-6 = Ok p /\
     Postprocessing.detector_frame p obj_2x2x2 5 = Ok o /\
     shape3 o = (2, 2, 2)%Z /\ dtype o = DReal /\
     Postprocessing.detector_frame p obj_2x2x2 0 = Err ValueError) /\
  (exists p,
     Postprocessing.init "CRISTAL" 8800 0 7.248 0.01 "inplane" 7.25 0 110e-6 110e-6 = Ok p /\
     Postprocessing.detector_frame p obj_2x2x2 5 = Err LinAlgError).
Proof.
  split.
  - destruct (Postprocessing_id01_nonsingular 2 2 2) as (p & T & Hp & HT & _); try lia.
    destruct (Postprocessing_init_Ok _ _ _ _ _ _ _ _ _ _ _ Hp) as [_ Ep].
    assert (HT' : Postprocessing.update_coords p (shape3 obj_2x2x2)
                    (Some (Postprocessing.tilt_angle p)) (Some (Postprocessing.pixel_x p))
                    (Some (Postprocessing.pixel_y p)) = Ok T).
    { rewrite Ep in HT |- *. exact HT. }
    destruct (Postprocessing_detector_frame_result p obj_2x2x2 5) as (_ & _ & H3 & H4).
    assert (Hv : let '(nbz, nby, nbx) := shape3 obj_2x2x2 in
                 0 < 5 \/ (nbz <= 1 /\ nby <= 1 /\ nbx <= 1)%Z).
    { cbn. left. lra. }
    destruct (H3 T HT' Hv) as (o & Ho).
    destruct (H4 o Ho) as (Hs & Hdt & _).
    exists p, o. split; [exact Hp|]. split; [exact Ho|]. split; [exact Hs|].
    split; [exact Hdt|].
    destruct (Postprocessing_detector_frame_result p obj_2x2x2 0) as (_ & H2 & _).
    apply (H2 T HT'). cbn. split; [lra|lia].
  - destruct (Postprocessing_init_8800 "CRISTAL" "inplane") as [p Hp]. exists p.
    split; [exact Hp|].
    destruct (Postprocessing_init_Ok _ _ _ _ _ _ _ _ _ _ _ Hp) as [_ Ep].
    destruct (Postprocessing_detector_frame_result p obj_2x2x2 5) as [H1 _].
    apply H1. unfold Postprocessing.update_coords. cbn [shape3 obj_2x2x2].
    rewrite Postprocessing_build_matrix_Ok. cbn [bind]. rewrite Ep.
    cbn [Postprocessing.beamline Postprocessing.rocking_angle].
    replace (set_beamline "CRISTAL") with (Ok CRISTAL) by reflexivity.
    cbn [Postprocessing.rocking_of String.eqb Ascii.eqb Bool.eqb mymatrix_of block_CRISTAL].
    exact two_pi_inv_transpose_zeros3.
Defined.

Lemma Postprocessing_update_coords_det p sh t px py T :
  Postprocessing.update_coords p sh t px py = Ok T -> det3 T <> 0.
Proof.
  intros H. unfold Postprocessing.update_coords in H.
  apply bind_Ok_inv in H; destruct H as (m & _ & Hm).
  pose proof (two_pi_inv_transpose_det _ _ Hm) as Hd.
  rewrite two_pi_inv_transpose_ok in Hm by exact Hd. injection Hm as <-.
  rewrite det3_two_pi_inv_transpose by exact Hd.
  pose proof (cube_pos _ two_pi_pos).
  unfold Rdiv. apply Rmult_integral_contrapositive_currified; [lra|].
  apply Rinv_neq_0_compat; exact Hd.
Qed.

(** X27: [orthogonalize_vector] of the deprecated class raises exactly the
    exception of [update_coords]; whenever [update_coords] returns a transfer
    matrix [T], it succeeds and mapping its result back by [T] gives the input
    vector. *)
Theorem Postprocessing_orthogonalize_vector_round_trip p v sh t px py :
  (forall e, Postprocessing.update_coords p sh t px py = Err e ->
     Postprocessing.orthogonalize_vector p v sh t px py = Err e) /\
  (forall T, Postprocessing.update_coords p sh t px py = Ok T ->
     exists w, Postprocessing.orthogonalize_vector p v sh t px py = Ok w /\ map_node T w = v).
Proof.
  split.
  - intros e HT. unfold Postprocessing.orthogonalize_vector. rewrite HT. reflexivity.
  - intros T HT. pose proof (Postprocessing_update_coords_det _ _ _ _ _ _ HT) as Hd.
    unfold Postprocessing.orthogonalize_vector. rewrite HT. cbn [bind]. unfold inv3.
    destruct (Req_EM_T (det3 T) 0); [contradiction|]. cbn [bind].
    destruct v as [[v0 v1] v2]. eexists; split; [reflexivity|].
    unfold map_node, mscale, adj3. cbn [a00 a01 a02 a10 a11 a12 a20 a21 a22].
    unfold det3 in *. destruct T; cbn in *.
    f_equal; [f_equal|]; field; exact Hd.
Qed.

Lemma Postprocessing_orthogonalize_vector_round_trip_witness :
  (exists p T w,
     Postprocessing.init "ID01" 8800 0 7.248 0.01 "inplane" 7.25 0 110e-6 110e-6 = Ok p /\
     Postprocessing.update_coords p (2, 2, 2)%Z (Some 0.01) (Some 110e-6) (Some 110e-6) = Ok T /\
     Postprocessing.orthogonalize_vector p (1, 2, 3) (2, 2, 2)%Z (Some 0.01) (Some 110e-6)
       (Some 110e-6) = Ok w /\ map_node T w = (1, 2, 3)) /\
  (exists p,
     Postprocessing.init "CRISTAL" 8800 0 7.248 0.01 "inplane" 7.25 0 110e-6 110e-6 = Ok p /\
     Postprocessing.orthogonalize_vector p (1, 2, 3) (2, 2, 2)%Z (Some 0.01) (Some 110e-6)
       (Some 110e-6) = Err LinAlgError).
Proof.
  split.
  - destruct (Postprocessing_id01_nonsingular 2 2 2) as (p & T & Hp & HT & _); try lia.
    destruct (proj2 (Postprocessing_orthogonalize_vector_round_trip p (1, 2, 3) _ _ _ _) T HT)
      as (w & Hw & Hm).
    exists p, T, w. auto.
  - destruct (Postprocessing_init_8800 "CRISTAL" "inplane") as [p Hp]. exists p.
    split; [exact Hp|].
    destruct (Postprocessing_init_Ok _ _ _ _ _ _ _ _ _ _ _ Hp) as [_ Ep].
    apply (proj1 (Postprocessing_orthogonalize_vector_round_trip p (1, 2, 3) _ _ _ _)).
    unfold Postprocessing.update_coords.
    rewrite Postprocessing_build_matrix_Ok. cbn [bind]. rewrite Ep.
    cbn [Postprocessing.beamline Postprocessing.rocking_angle].
    replace (set_beamline "CRISTAL") with (Ok CRISTAL) by reflexivity.
    cbn [Postprocessing.rocking_of String.eqb Ascii.eqb Bool.eqb mymatrix_of block_CRISTAL].
    exact two_pi_inv_transpose_zeros3.
Defined.
